(** * UE NAS mobility management: the authentication procedures

    A shallow embedding of [src/ue/nas/mm/auth.cpp] (UERANSIM, class
    [NasMm]): the handlers of Authentication Request (5G-AKA, EAP-AKA' and
    EAP-TLS), Authentication Result and Authentication Reject, the AUTN
    validator and the consecutive-failure policy.

    The handlers are methods that mutate the UE's objects and call into
    collaborators (timers, NAS transport, logger, USIM).  They are embedded
    in a state-and-fault monad over [UeState]; every call that leaves the
    translation unit is recorded in the [trace] of the state. *)

From Stdlib Require Import ZArith List Bool String Ascii Lia.
Import ListNotations.
Local Open Scope Z_scope.

(** ** Octet strings *)

(** Modelled from the spec: [OctetString] is defined outside [auth.cpp]
    (utils/octet_string.hpp).  Spec, data model: "byte sequence with
    length; operations: copy, concatenate, XOR (equal-length), sub-range
    copy, equality, single-byte bit access".  An octet is a [Z] in 0..255. *)
Definition OctetString := list Z.

Definition octets_eq_dec : forall a b : OctetString, {a = b} + {a <> b} :=
  list_eq_dec Z.eq_dec.

(** Modelled from the spec: "concatenate". *)
Definition Concat (a b : OctetString) : OctetString := a ++ b.

(** Modelled from the spec: XOR of two octet strings of equal length, octet
    by octet.  Every use in [auth.cpp] is on a 6-octet SQN and a 6-octet
    anonymity key. *)
Fixpoint Xor (a b : OctetString) : OctetString :=
  match a, b with
  | x :: a', y :: b' => Z.lxor x y :: Xor a' b'
  | _, _ => []
  end.

(** Modelled from the spec: "sub-range copy"; [s.subCopy(index, length)] is
    the [length] octets of [s] that start at [index] (KAUT = MK[16..48) is
    [mk.subCopy(16, 32)]). *)
Definition subCopy (s : OctetString) (index length : nat) : OctetString :=
  firstn length (skipn index s).

(** Modelled from the spec: [OctetString::FromSpare(n)] is [n] zero octets
    ("a 2-byte zero AMF", "MAC field first placed as 16 zero bytes"). *)
Definition FromSpare (n : nat) : OctetString := repeat 0 n.

(** Modelled from the spec: [OctetString::FromAscii(str)], the ASCII codes of
    the characters of [str] ("AT_KDF_INPUT == SNN (ASCII)"). *)
Definition FromAscii (s : string) : OctetString :=
  map (fun c => Z.of_nat (nat_of_ascii c)) (list_ascii_of_string s).

(** Modelled from the spec: "single-byte bit access"; [s.get(i)] is the
    octet at index [i] and [o.bit(i)] its bit [i], bit 7 being the most
    significant ("separation bit = bit 7 of AMF[0]"). *)
Definition get (s : OctetString) (i : nat) : Z := nth i s 0.
Definition bit (o : Z) (i : Z) : bool := Z.testbit o i.

(** The octet-string operations are kept folded when a handler is
    simplified. *)
Arguments octets_eq_dec : simpl never.
Arguments Concat : simpl never.
Arguments Xor : simpl never.
Arguments subCopy : simpl never.
Arguments FromSpare : simpl never.
Arguments FromAscii : simpl never.
Arguments get : simpl never.
Arguments bit : simpl never.

(** ** Enumerations *)

(** The enumerations are declared in headers outside [auth.cpp]; each is
    modelled from the spec with the enumerators [auth.cpp] names. *)

(** Modelled from the spec: "tsc (type-of-security-context): {native,
    mapped}". *)
Inductive ETypeOfSecurityContext := NATIVE_SECURITY_CONTEXT | MAPPED_SECURITY_CONTEXT.

(** Modelled from the spec: [nas::IENasKeySetIdentifier::NOT_AVAILABLE_OR_RESERVED],
    "ngKSI.ksi <> 0b111 (not-available)". *)
Definition NOT_AVAILABLE_OR_RESERVED : Z := 7.

(** Modelled from the spec: the causes of an Authentication Failure and of
    an MM Status, section 6. *)
Inductive EMmCause :=
| SEMANTICALLY_INCORRECT_MESSAGE
| UNSPECIFIED_PROTOCOL_ERROR
| NGKSI_ALREADY_IN_USE
| MAC_FAILURE
| SYNCH_FAILURE
| NON_5G_AUTHENTICATION_UNACCEPTABLE.

(** Modelled from the spec: "AUTN validation result (sum type): {OK,
    MAC_FAILURE, SYNCHRONISATION_FAILURE, AMF_SEPARATION_BIT_FAILURE}".  It
    is a scoped enumeration; its [MAC_FAILURE] is not the MM cause of the
    same name. *)
Module EAutnValidationRes.
Inductive t :=
| OK
| MAC_FAILURE
| AMF_SEPARATION_BIT_FAILURE
| SYNCHRONISATION_FAILURE.
End EAutnValidationRes.

(** Modelled from the spec: the CM state, of which [auth.cpp] tests
    CM-CONNECTED. *)
Inductive ECmState := CM_IDLE | CM_CONNECTED.

(** Modelled from the spec: the 5GS update status; Authentication Reject
    sets "5U3 ROAMING NOT ALLOWED". *)
Inductive E5UState := U1_UPDATED | U2_NOT_UPDATED | U3_ROAMING_NOT_ALLOWED.

(** Modelled from the spec: the MM sub-state; only [MM_DEREGISTERED_PS] is
    named in [auth.cpp], the other sub-states of the MM state machine are
    kept by their number. *)
Inductive EMmSubState := MM_DEREGISTERED_PS | MM_OTHER_SUBSTATE (n : Z).

(** Modelled from the spec: "tlsState in {TLS_START, TLS_HANDSHAKE,
    TLS_DONE}". *)
Inductive ETlsState := TLS_START | TLS_HANDSHAKE | TLS_DONE.

(** Modelled from the spec: "a discriminator opType in {OP, OPC}". *)
Inductive OpType := OP | OPC.

(** Modelled from the spec: the EAP codes (RFC 3748) and the EAP-AKA'
    subtypes (RFC 4187) of the EAP library. *)
Inductive ECode := REQUEST | RESPONSE | SUCCESS | FAILURE.

Inductive ESubType :=
| AKA_CHALLENGE
| AKA_AUTHENTICATION_REJECT
| AKA_SYNCHRONIZATION_FAILURE
| AKA_IDENTITY
| AKA_NOTIFICATION
| AKA_REAUTHENTICATION
| AKA_CLIENT_ERROR.

(** Modelled from the spec: the timers [auth.cpp] starts or stops. *)
Inductive TimerId := T3510 | T3516 | T3517 | T3519 | T3520 | T3521.

(** The levels of [m_logger] used in [auth.cpp]: [debug], [warn], [err]. *)
Inductive LogLevel := LDebug | LWarn | LErr.

Definition EMmCause_eq_dec : forall a b : EMmCause, {a = b} + {a <> b}.
Proof. decide equality. Defined.

Definition ESubType_eq_dec : forall a b : ESubType, {a = b} + {a <> b}.
Proof. decide equality. Defined.

(** ** Plain data *)

(** Modelled from the spec: a PLMN, "MNC three digits (leading zero if
    two-digit), MCC three digits". *)
Record Plmn := { mcc : Z; mnc : Z; isLongMnc : bool }.

(** Modelled from the spec: "USIM configuration (read-only during a
    procedure): K, OP or OPC with a discriminator opType, AMF, SUPI (text),
    and for EAP-TLS: CA-cert path, client-cert path, client-private-key
    path, client password".  The SUPI is optional in the configuration and
    [auth.cpp] reads it with [value()]. *)
Record UeConfig := {
  key : OctetString;
  opC : OctetString;
  opType : OpType;
  amf : OctetString;
  supi : option string;
  caCertificate : string;
  clientCertificate : string;
  clientPrivateKey : string;
  clientPassword : string
}.

(** Modelled from the spec: the output record of
    [crypto::milenage::Calculate], "MAC_A, MAC_S, CK, IK, AK, AK_R, RES". *)
Record Milenage := {
  mac_a : OctetString;
  mac_s : OctetString;
  ck : OctetString;
  ik : OctetString;
  ak : OctetString;
  ak_r : OctetString;
  res : OctetString
}.

(** Modelled from the spec: "NAS security context: tsc, ngKsi, keys: kAusf,
    kSeaf, kAmf, abba (raw bytes from the network)". *)
Record NasKeys := {
  kAusf : OctetString;
  kSeaf : OctetString;
  kAmf : OctetString;
  abba : OctetString
}.

Record NasSecurityContext := {
  tsc : ETypeOfSecurityContext;
  ngKsi : Z;
  keys : NasKeys
}.

(** [std::make_unique<NasSecurityContext>()]: a value-initialised context;
    the handlers assign every field of it that the model keeps. *)
Definition newNasSecurityContext : NasSecurityContext :=
  {| tsc := NATIVE_SECURITY_CONTEXT; ngKsi := 0;
     keys := {| kAusf := []; kSeaf := []; kAmf := []; abba := [] |} |}.

Definition set_tsc (v : ETypeOfSecurityContext) (c : NasSecurityContext) :=
  {| tsc := v; ngKsi := ngKsi c; keys := keys c |}.
Definition set_ngKsi (v : Z) (c : NasSecurityContext) :=
  {| tsc := tsc c; ngKsi := v; keys := keys c |}.
Definition set_kAusf (v : OctetString) (c : NasSecurityContext) :=
  {| tsc := tsc c; ngKsi := ngKsi c;
     keys := {| kAusf := v; kSeaf := kSeaf (keys c); kAmf := kAmf (keys c);
                abba := abba (keys c) |} |}.
Definition set_kSeaf (v : OctetString) (c : NasSecurityContext) :=
  {| tsc := tsc c; ngKsi := ngKsi c;
     keys := {| kAusf := kAusf (keys c); kSeaf := v; kAmf := kAmf (keys c);
                abba := abba (keys c) |} |}.
Definition set_kAmf (v : OctetString) (c : NasSecurityContext) :=
  {| tsc := tsc c; ngKsi := ngKsi c;
     keys := {| kAusf := kAusf (keys c); kSeaf := kSeaf (keys c); kAmf := v;
                abba := abba (keys c) |} |}.
Definition set_abba (v : OctetString) (c : NasSecurityContext) :=
  {| tsc := tsc c; ngKsi := ngKsi c;
     keys := {| kAusf := kAusf (keys c); kSeaf := kSeaf (keys c);
                kAmf := kAmf (keys c); abba := v |} |}.

(** Modelled from the spec: "ngKSI{tsc, ksi}". *)
Record IENasKeySetIdentifier := { ngKSI_tsc : ETypeOfSecurityContext; ngKSI_ksi : Z }.

(** Modelled from the spec: "Timers (external)"; the core "merely issues
    start/stop commands".  A timer is running after [start()] and not
    running after [stop()]. *)
Record Timers := {
  t3510 : bool; t3516 : bool; t3517 : bool; t3519 : bool; t3520 : bool; t3521 : bool
}.

Definition running (ts : Timers) (t : TimerId) : bool :=
  match t with
  | T3510 => t3510 ts | T3516 => t3516 ts | T3517 => t3517 ts
  | T3519 => t3519 ts | T3520 => t3520 ts | T3521 => t3521 ts
  end.

Definition set_running (t : TimerId) (v : bool) (ts : Timers) : Timers :=
  match t with
  | T3510 => {| t3510 := v; t3516 := t3516 ts; t3517 := t3517 ts; t3519 := t3519 ts; t3520 := t3520 ts; t3521 := t3521 ts |}
  | T3516 => {| t3510 := t3510 ts; t3516 := v; t3517 := t3517 ts; t3519 := t3519 ts; t3520 := t3520 ts; t3521 := t3521 ts |}
  | T3517 => {| t3510 := t3510 ts; t3516 := t3516 ts; t3517 := v; t3519 := t3519 ts; t3520 := t3520 ts; t3521 := t3521 ts |}
  | T3519 => {| t3510 := t3510 ts; t3516 := t3516 ts; t3517 := t3517 ts; t3519 := v; t3520 := t3520 ts; t3521 := t3521 ts |}
  | T3520 => {| t3510 := t3510 ts; t3516 := t3516 ts; t3517 := t3517 ts; t3519 := t3519 ts; t3520 := v; t3521 := t3521 ts |}
  | T3521 => {| t3510 := t3510 ts; t3516 := t3516 ts; t3517 := t3517 ts; t3519 := t3519 ts; t3520 := t3520 ts; t3521 := v |}
  end.

(** Modelled from the spec: the storage slots ([MmStorage], outside
    [auth.cpp]) hold the stored 5G-GUTI, the last visited registered TAI and
    the TAI list; [clear()] empties a slot. *)
Record MmStorage := {
  storedGuti : option OctetString;
  lastVisitedRegisteredTai : option OctetString;
  taiList : list OctetString
}.

(** ** The UE state and its collaborators *)

Set Implicit Arguments.

Section Core.

(** Three types are owned by libraries outside the translation unit and stay
    abstract: the state of the USIM's sequence-number manager, the attribute
    store of an EAP-AKA' packet, and the OpenSSL objects of an EAP-TLS
    session ([m_ctx], [m_pkey], [m_ssl], [m_rbio], [m_wbio]). *)
Variables (SqnManager EapAttributes TlsSession : Type).

(** Modelled from the spec: an EAP packet of the EAP library.  The handlers
    test [eapType] and downcast to [eap::EapAkaPrime] or [eap::EapTLS]; a
    packet of any other type is kept with its code and identifier. *)
Inductive Eap :=
| EapAkaPrime (code : ECode) (id : Z) (subType : ESubType) (attributes : EapAttributes)
| EapTLS (code : ECode) (id : Z) (flag : Z) (tlsData : OctetString)
| EapOther (code : ECode) (id : Z).

Definition eap_code (e : Eap) : ECode :=
  match e with
  | EapAkaPrime c _ _ _ => c
  | EapTLS c _ _ _ => c
  | EapOther c _ => c
  end.

(** Modelled from the spec: the inbound NAS messages, section 6:
    "AuthenticationRequest{ ngKSI{tsc, ksi}, abba{rawData}, authParamRAND?,
    authParamAUTN?, eapMessage? }", "AuthenticationResult{ abba?,
    eapMessage{eap} }", "AuthenticationReject{ eapMessage? }". *)
Record AuthenticationRequest := {
  ngKSI : IENasKeySetIdentifier;
  req_abba : OctetString;
  authParamRAND : option OctetString;
  authParamAUTN : option OctetString;
  eapMessage : option Eap
}.

Record AuthenticationResult := {
  res_abba : option OctetString;
  res_eapMessage : Eap
}.

Record AuthenticationReject := { rej_eapMessage : option Eap }.

(** Modelled from the spec: the outbound NAS messages, section 6:
    "AuthenticationResponse{ authenticationResponseParameter? | eapMessage? }",
    "AuthenticationFailure{ mmCause, authenticationFailureParameter? }". *)
Inductive NasMessage :=
| AuthenticationResponse (authenticationResponseParameter : option OctetString)
                         (resp_eapMessage : option Eap)
| AuthenticationFailure (mmCause : EMmCause)
                        (authenticationFailureParameter : option OctetString).

(** Calls that leave the translation unit, in the order they are made. *)
Inductive Action :=
| Log (level : LogLevel) (text : string)
| TimerStart (t : TimerId)
| TimerStop (t : TimerId)
| SendNasMessage (msg : NasMessage)
| SendMmStatus (cause : EMmCause)
| LocalReleaseConnection (treatBarred : bool)
| SwitchUState (s : E5UState)
| SwitchMmState (s : EMmSubState).

(** Modelled from the spec: the USIM object with its volatile authentication
    state ("rand", "resStar"), the two security-context slots ("either may
    be empty"; they are [unique_ptr]s in [auth.cpp]) and the SQN manager. *)
Record Usim := {
  m_isValid : bool;
  m_rand : OctetString;
  m_resStar : OctetString;
  m_currentNsCtx : option NasSecurityContext;
  m_nonCurrentNsCtx : option NasSecurityContext;
  m_sqnMng : SqnManager
}.

(** The objects a handler of [NasMm] reaches through [this]: [m_base] (the
    configuration and the current PLMN of the shared context), [m_usim],
    [m_timers], [m_storage], the failure counter, the CM state, the update
    status and MM sub-state, and the EAP-TLS session.  [trace] lists the
    calls to collaborators, most recent first. *)
Record UeState := {
  config : UeConfig;
  currentPlmn : Plmn;
  m_usim : Usim;
  m_timers : Timers;
  m_storage : MmStorage;
  m_nwConsecutiveAuthFailure : Z;
  m_cmState : ECmState;
  m_uState : E5UState;
  m_mmSubState : EMmSubState;
  m_tlsState : ETlsState;
  m_tls : TlsSession;
  trace : list Action
}.

(** The functions of other translation units that [auth.cpp] calls. *)
Record Collaborators := {
  (* Plmn *)
  hasValue : Plmn -> bool;
  (* NasSqnManager *)
  getSqn : SqnManager -> OctetString;
  checkSqn : SqnManager -> OctetString -> bool * SqnManager;
  (* crypto::milenage *)
  Calculate : OctetString -> OctetString -> OctetString -> OctetString -> OctetString -> Milenage;
  CalculateOpC : OctetString -> OctetString -> OctetString;
  (* keys *)
  ConstructServingNetworkName : Plmn -> string;
  CalculateResStar : OctetString -> string -> OctetString -> OctetString -> OctetString;
  CalculateKAusfFor5gAka : OctetString -> OctetString -> string -> OctetString -> OctetString;
  CalculateCkPrimeIkPrime : OctetString -> OctetString -> string -> OctetString -> OctetString * OctetString;
  CalculateMk : OctetString -> OctetString -> string -> OctetString;
  CalculateMacForEapAkaPrime : OctetString -> Eap -> OctetString;
  CalculateKAusfForEapAkaPrime : OctetString -> OctetString;
  CalculateAuts : OctetString -> OctetString -> OctetString -> OctetString;
  KdfKSeaf : UeConfig -> Plmn -> NasSecurityContext -> OctetString;
  KdfKAmf : UeConfig -> Plmn -> NasSecurityContext -> OctetString;
  (* eap::EapAttributes *)
  emptyAttributes : EapAttributes;
  getRand : EapAttributes -> OctetString;
  getMac : EapAttributes -> OctetString;
  getAutn : EapAttributes -> OctetString;
  getKdf : EapAttributes -> Z;
  getKdfInput : EapAttributes -> OctetString;
  putRes : OctetString -> EapAttributes -> EapAttributes;
  putMac : OctetString -> EapAttributes -> EapAttributes;
  replaceMac : OctetString -> EapAttributes -> EapAttributes;
  putKdf : Z -> EapAttributes -> EapAttributes;
  putAuts : OctetString -> EapAttributes -> EapAttributes;
  putClientErrorCode : Z -> EapAttributes -> EapAttributes;
  (* OpenSSL, as used by the EAP-TLS branch.
     tlsOpen: the TLS_START block, from SSL_CTX_new to SSL_set_connect_state.
       The block tests no result: the context of SSL_CTX_new goes to the
       SSL_CTX_ setters, the store of OSSL_STORE_open to OSSL_STORE_load, its
       info to OSSL_STORE_INFO_get1_PKEY, the session of SSL_new to
       SSL_set_bio.  None when one of these is a null pointer that the next
       call dereferences; otherwise the session the block leaves in m_ctx,
       m_pkey, m_ssl, m_rbio and m_wbio;
     tlsFeed: BIO_reset(m_rbio) and BIO_write(m_rbio, tlsData);
     SSL_do_handshake: BIO_reset(m_wbio) and SSL_do_handshake(m_ssl);
     SSL_export_keying_material: the 128 octets exported under the label
       "client EAP encryption";
     BIO_get_mem_data: the octets pending in m_wbio;
     tlsFree: the releases of the TLS_DONE block: EVP_PKEY_free(m_pkey),
       BIO_free(m_wbio), BIO_free(m_rbio), SSL_free(m_ssl),
       SSL_CTX_free(m_ctx), each pointer set to null.  None when the block
       releases an object twice: m_ssl owns both BIOs since SSL_set_bio, so
       for a session that still holds them BIO_free releases each and
       SSL_free releases them again.  Otherwise (the pointers are null and
       every call does nothing) the session the block leaves. *)
  tlsOpen : UeConfig -> option TlsSession;
  tlsFeed : TlsSession -> OctetString -> TlsSession;
  SSL_do_handshake : TlsSession -> Z * TlsSession;
  SSL_get_error : TlsSession -> Z -> Z;
  SSL_export_keying_material : TlsSession -> OctetString;
  BIO_get_mem_data : TlsSession -> OctetString;
  tlsFree : TlsSession -> option TlsSession
}.

Variable env : Collaborators.

(** *** Field updates *)

Definition set_isValid (v : bool) (u : Usim) : Usim :=
  {| m_isValid := v; m_rand := m_rand u; m_resStar := m_resStar u;
     m_currentNsCtx := m_currentNsCtx u; m_nonCurrentNsCtx := m_nonCurrentNsCtx u;
     m_sqnMng := m_sqnMng u |}.
Definition set_rand (v : OctetString) (u : Usim) : Usim :=
  {| m_isValid := m_isValid u; m_rand := v; m_resStar := m_resStar u;
     m_currentNsCtx := m_currentNsCtx u; m_nonCurrentNsCtx := m_nonCurrentNsCtx u;
     m_sqnMng := m_sqnMng u |}.
Definition set_resStar (v : OctetString) (u : Usim) : Usim :=
  {| m_isValid := m_isValid u; m_rand := m_rand u; m_resStar := v;
     m_currentNsCtx := m_currentNsCtx u; m_nonCurrentNsCtx := m_nonCurrentNsCtx u;
     m_sqnMng := m_sqnMng u |}.
Definition set_currentNsCtx (v : option NasSecurityContext) (u : Usim) : Usim :=
  {| m_isValid := m_isValid u; m_rand := m_rand u; m_resStar := m_resStar u;
     m_currentNsCtx := v; m_nonCurrentNsCtx := m_nonCurrentNsCtx u;
     m_sqnMng := m_sqnMng u |}.
Definition set_nonCurrentNsCtx (v : option NasSecurityContext) (u : Usim) : Usim :=
  {| m_isValid := m_isValid u; m_rand := m_rand u; m_resStar := m_resStar u;
     m_currentNsCtx := m_currentNsCtx u; m_nonCurrentNsCtx := v;
     m_sqnMng := m_sqnMng u |}.
Definition set_sqnMng (v : SqnManager) (u : Usim) : Usim :=
  {| m_isValid := m_isValid u; m_rand := m_rand u; m_resStar := m_resStar u;
     m_currentNsCtx := m_currentNsCtx u; m_nonCurrentNsCtx := m_nonCurrentNsCtx u;
     m_sqnMng := v |}.

Definition with_usim (f : Usim -> Usim) (st : UeState) : UeState :=
  {| config := config st; currentPlmn := currentPlmn st; m_usim := f (m_usim st);
     m_timers := m_timers st; m_storage := m_storage st;
     m_nwConsecutiveAuthFailure := m_nwConsecutiveAuthFailure st;
     m_cmState := m_cmState st; m_uState := m_uState st;
     m_mmSubState := m_mmSubState st; m_tlsState := m_tlsState st;
     m_tls := m_tls st; trace := trace st |}.
Definition with_timers (f : Timers -> Timers) (st : UeState) : UeState :=
  {| config := config st; currentPlmn := currentPlmn st; m_usim := m_usim st;
     m_timers := f (m_timers st); m_storage := m_storage st;
     m_nwConsecutiveAuthFailure := m_nwConsecutiveAuthFailure st;
     m_cmState := m_cmState st; m_uState := m_uState st;
     m_mmSubState := m_mmSubState st; m_tlsState := m_tlsState st;
     m_tls := m_tls st; trace := trace st |}.
Definition set_storage (v : MmStorage) (st : UeState) : UeState :=
  {| config := config st; currentPlmn := currentPlmn st; m_usim := m_usim st;
     m_timers := m_timers st; m_storage := v;
     m_nwConsecutiveAuthFailure := m_nwConsecutiveAuthFailure st;
     m_cmState := m_cmState st; m_uState := m_uState st;
     m_mmSubState := m_mmSubState st; m_tlsState := m_tlsState st;
     m_tls := m_tls st; trace := trace st |}.
Definition set_nwConsecutiveAuthFailure (v : Z) (st : UeState) : UeState :=
  {| config := config st; currentPlmn := currentPlmn st; m_usim := m_usim st;
     m_timers := m_timers st; m_storage := m_storage st;
     m_nwConsecutiveAuthFailure := v;
     m_cmState := m_cmState st; m_uState := m_uState st;
     m_mmSubState := m_mmSubState st; m_tlsState := m_tlsState st;
     m_tls := m_tls st; trace := trace st |}.
Definition set_uState (v : E5UState) (st : UeState) : UeState :=
  {| config := config st; currentPlmn := currentPlmn st; m_usim := m_usim st;
     m_timers := m_timers st; m_storage := m_storage st;
     m_nwConsecutiveAuthFailure := m_nwConsecutiveAuthFailure st;
     m_cmState := m_cmState st; m_uState := v;
     m_mmSubState := m_mmSubState st; m_tlsState := m_tlsState st;
     m_tls := m_tls st; trace := trace st |}.
Definition set_mmSubState (v : EMmSubState) (st : UeState) : UeState :=
  {| config := config st; currentPlmn := currentPlmn st; m_usim := m_usim st;
     m_timers := m_timers st; m_storage := m_storage st;
     m_nwConsecutiveAuthFailure := m_nwConsecutiveAuthFailure st;
     m_cmState := m_cmState st; m_uState := m_uState st;
     m_mmSubState := v; m_tlsState := m_tlsState st;
     m_tls := m_tls st; trace := trace st |}.
Definition set_tlsState (v : ETlsState) (st : UeState) : UeState :=
  {| config := config st; currentPlmn := currentPlmn st; m_usim := m_usim st;
     m_timers := m_timers st; m_storage := m_storage st;
     m_nwConsecutiveAuthFailure := m_nwConsecutiveAuthFailure st;
     m_cmState := m_cmState st; m_uState := m_uState st;
     m_mmSubState := m_mmSubState st; m_tlsState := v;
     m_tls := m_tls st; trace := trace st |}.
Definition set_tls (v : TlsSession) (st : UeState) : UeState :=
  {| config := config st; currentPlmn := currentPlmn st; m_usim := m_usim st;
     m_timers := m_timers st; m_storage := m_storage st;
     m_nwConsecutiveAuthFailure := m_nwConsecutiveAuthFailure st;
     m_cmState := m_cmState st; m_uState := m_uState st;
     m_mmSubState := m_mmSubState st; m_tlsState := m_tlsState st;
     m_tls := v; trace := trace st |}.
Definition record (a : Action) (st : UeState) : UeState :=
  {| config := config st; currentPlmn := currentPlmn st; m_usim := m_usim st;
     m_timers := m_timers st; m_storage := m_storage st;
     m_nwConsecutiveAuthFailure := m_nwConsecutiveAuthFailure st;
     m_cmState := m_cmState st; m_uState := m_uState st;
     m_mmSubState := m_mmSubState st; m_tlsState := m_tlsState st;
     m_tls := m_tls st; trace := a :: trace st |}.

(** *** The monad of the handlers

    A method either returns, with a value and the state it leaves, or hits
    undefined behaviour or an uncaught exception. *)

Inductive Fault := NullDereference | BadOptionalAccess | DoubleFree.

Inductive Outcome (A : Type) :=
| Done (a : A) (st : UeState)
| Crash (f : Fault).
Arguments Done {A} a st.
Arguments Crash {A} f.

Definition M (A : Type) : Type := UeState -> Outcome A.

Definition ret {A} (a : A) : M A := fun st => Done a st.

Definition bind {A B} (m : M A) (k : A -> M B) : M B :=
  fun st => match m st with
            | Done a st' => k a st'
            | Crash f => Crash f
            end.

Notation "x <- m ;; k" := (bind m (fun x => k))
  (at level 61, m at next level, right associativity).
Notation "m ;; k" := (bind m (fun _ => k))
  (at level 61, right associativity).

Definition gets {A} (f : UeState -> A) : M A := fun st => Done (f st) st.
Definition modify (f : UeState -> UeState) : M unit := fun st => Done tt (f st).
Definition throw {A} (f : Fault) : M A := fun _ => Crash f.

(** *** Calls to collaborators

    The callees are defined in other translation units.  A call is recorded
    in the trace; the timers, [switchUState] and [switchMmState] also set
    the field they are named after. *)

Definition log (level : LogLevel) (text : string) : M unit :=
  modify (record (Log level text)).

(** [m_timers->t.start()] and [m_timers->t.stop()]. *)
Definition timerStart (t : TimerId) : M unit :=
  modify (fun st => record (TimerStart t) (with_timers (set_running t true) st)).
Definition timerStop (t : TimerId) : M unit :=
  modify (fun st => record (TimerStop t) (with_timers (set_running t false) st)).

(** Modelled from the spec: "lower-layer NAS transport (the sendNasMessage
    sink)", "treated as non-blocking"; [sendMmStatus] sends an MM Status
    with the cause; [localReleaseConnection] requests the local release of
    the connection; [switchUState] and [switchMmState] set the update status
    and the MM sub-state. *)
Definition sendNasMessage (msg : NasMessage) : M unit :=
  modify (record (SendNasMessage msg)).
Definition sendMmStatus (cause : EMmCause) : M unit :=
  modify (record (SendMmStatus cause)).
Definition localReleaseConnection (treatBarred : bool) : M unit :=
  modify (record (LocalReleaseConnection treatBarred)).
Definition switchUState (s : E5UState) : M unit :=
  modify (fun st => record (SwitchUState s) (set_uState s st)).
Definition switchMmState (s : EMmSubState) : M unit :=
  modify (fun st => record (SwitchMmState s) (set_mmSubState s st)).

(** [m_usim->m_rand = v] and the like. *)
Definition usim_assign (f : Usim -> Usim) : M unit := modify (with_usim f).

(** [m_usim->m_nonCurrentNsCtx->field = v]: the [unique_ptr] is dereferenced
    without a test, which is undefined behaviour when it is empty. *)
Definition nonCurrentNsCtx_assign (f : NasSecurityContext -> NasSecurityContext) : M unit :=
  fun st =>
    match m_nonCurrentNsCtx (m_usim st) with
    | Some ctx => Done tt (with_usim (set_nonCurrentNsCtx (Some (f ctx))) st)
    | None => Crash NullDereference
    end.

(** Modelled from the spec: [keys::DeriveKeysSeafAmf] is defined outside
    [auth.cpp] (ue/nas/keys.cpp).  Spec 4.2: "populates KSEAF then KAMF
    using SUPI and ABBA"; the two key derivations are collaborators and the
    other fields of the context are left as they are. *)
Definition DeriveKeysSeafAmf (cfg : UeConfig) (plmn : Plmn) (ctx : NasSecurityContext)
  : NasSecurityContext :=
  let ctx1 := set_kSeaf (KdfKSeaf env cfg plmn ctx) ctx in
  set_kAmf (KdfKAmf env cfg plmn ctx1) ctx1.

(** ** [NasMm::networkFailingTheAuthCheck] *)

(** Modelled from the spec: the [nwConsecutiveAuthFailure] counter.  The
    field is declared outside [auth.cpp], as a C++ [int]; [INT_MAX] is the
    largest value it holds. *)
Definition INT_MAX : Z := 2147483647.

(** [m_nwConsecutiveAuthFailure++]: yields the old value.  The counter is
    kept in [Z], which is what the increment of the [int] field does for
    every value below [INT_MAX]; the properties of runs in which the
    counter grows are stated below that bound. *)
Definition postIncrement_nwConsecutiveAuthFailure : M Z :=
  fun st => Done (m_nwConsecutiveAuthFailure st)
                 (set_nwConsecutiveAuthFailure (m_nwConsecutiveAuthFailure st + 1) st).

Definition networkFailingTheAuthCheck (hasChance : bool) : M bool :=
  (* hasChance && m_nwConsecutiveAuthFailure++ < 3 *)
  chance <- (if hasChance
             then old <- postIncrement_nwConsecutiveAuthFailure ;; ret (old <? 3)
             else ret false) ;;
  if chance then ret false
  else
    log LErr "Network failing the authentication check" ;;
    cm <- gets m_cmState ;;
    (match cm with
     | CM_CONNECTED => localReleaseConnection true
     | CM_IDLE => ret tt
     end) ;;
    timerStop T3520 ;;
    ret true.

(** ** [NasMm::calculateMilenage] *)

Definition calculateMilenage (sqn rand : OctetString) (dummyAmf : bool) : M Milenage :=
  cfg <- gets config ;;
  let amf' := if dummyAmf then FromSpare 2 else amf cfg in
  match opType cfg with
  | OPC => ret (Calculate env (opC cfg) (key cfg) rand sqn amf')
  | OP =>
      let opc := CalculateOpC env (opC cfg) (key cfg) in
      ret (Calculate env opc (key cfg) rand sqn amf')
  end.

(** ** [NasMm::validateAutn] *)

Definition sqnMng_getSqn : M OctetString :=
  gets (fun st => getSqn env (m_sqnMng (m_usim st))).

(** [m_usim->m_sqnMng->checkSqn(sqn)]: answers and may move the stored SQN. *)
Definition sqnMng_checkSqn (sqn : OctetString) : M bool :=
  fun st =>
    let (ok, mng') := checkSqn env (m_sqnMng (m_usim st)) sqn in
    Done ok (with_usim (set_sqnMng mng') st).

Definition validateAutn (rand autn : OctetString) : M EAutnValidationRes.t :=
  (* Decode AUTN *)
  let receivedSQNxorAK := subCopy autn 0 6 in
  let receivedAMF := subCopy autn 6 2 in
  let receivedMAC := subCopy autn 8 8 in
  (* Check the separation bit *)
  if negb (bit (get receivedAMF 0) 7) then
    log LErr "AUTN validation SEP-BIT failure. expected: 1, received: 0" ;;
    ret EAutnValidationRes.AMF_SEPARATION_BIT_FAILURE
  else
    (* Derive AK and MAC *)
    sqn <- sqnMng_getSqn ;;
    milenage <- calculateMilenage sqn rand false ;;
    let receivedSQN := Xor receivedSQNxorAK (ak milenage) in
    log LDebug "Received SQN [%s]" ;;
    log LDebug "SQN-MS [%s]" ;;
    (* Verify that the received sequence number SQN is in the correct range *)
    sqn_ok <- sqnMng_checkSqn receivedSQN ;;
    (* Re-execute the milenage calculation *)
    milenage <- calculateMilenage receivedSQN rand false ;;
    (* Check MAC *)
    if octets_eq_dec receivedMAC (mac_a milenage) then
      if negb sqn_ok then ret EAutnValidationRes.SYNCHRONISATION_FAILURE
      else ret EAutnValidationRes.OK
    else
      log LErr "AUTN validation MAC mismatch. expected [%s] received [%s]" ;;
      ret EAutnValidationRes.MAC_FAILURE.

(** ** [NasMm::receiveAuthenticationRequest5gAka] *)

(** The [sendFailure] closure. *)
Definition sendFailure (cause : EMmCause) (auts : option OctetString) : M unit :=
  (if EMmCause_eq_dec cause SYNCH_FAILURE
   then log LDebug "Sending Authentication Failure due to SQN out of range"
   else log LErr "Sending Authentication Failure with cause [%s]") ;;
  (* Clear RAND and RES* stored in volatile memory *)
  usim_assign (set_rand []) ;;
  usim_assign (set_resStar []) ;;
  (* Stop T3516 if running *)
  timerStop T3516 ;;
  (* Send Authentication Failure *)
  sendNasMessage (AuthenticationFailure cause auts).

(** The test on the received ngKSI against the two security contexts. *)
Definition ngKsiInUse (u : Usim) (ksi : Z) : bool :=
  match m_currentNsCtx u with
  | Some ctx => ngKsi ctx =? ksi
  | None => false
  end
  || match m_nonCurrentNsCtx u with
     | Some ctx => ngKsi ctx =? ksi
     | None => false
     end.

(** The branch [autnCheck == EAutnValidationRes::OK]. *)
Definition acceptChallenge5gAka (msg : AuthenticationRequest) (currentPLmn : Plmn)
    (rand : OctetString) : M unit :=
  (* Calculate milenage *)
  sqn <- sqnMng_getSqn ;;
  milenage <- calculateMilenage sqn rand false ;;
  let ckIk := Concat (ck milenage) (ik milenage) in
  sqn' <- sqnMng_getSqn ;;
  let sqnXorAk := Xor sqn' (ak milenage) in
  let snn := ConstructServingNetworkName env currentPLmn in
  (* Store the relevant parameters *)
  usim_assign (set_rand rand) ;;
  usim_assign (set_resStar (CalculateResStar env ckIk snn rand (res milenage))) ;;
  (* Create new partial native NAS security context *)
  usim_assign (set_nonCurrentNsCtx (Some newNasSecurityContext)) ;;
  nonCurrentNsCtx_assign (set_tsc (ngKSI_tsc (ngKSI msg))) ;;
  nonCurrentNsCtx_assign (set_ngKsi (ngKSI_ksi (ngKSI msg))) ;;
  nonCurrentNsCtx_assign
    (set_kAusf (CalculateKAusfFor5gAka env (ck milenage) (ik milenage) snn sqnXorAk)) ;;
  nonCurrentNsCtx_assign (set_abba (req_abba msg)) ;;
  cfg <- gets config ;;
  nonCurrentNsCtx_assign (DeriveKeysSeafAmf cfg currentPLmn) ;;
  (* Send response *)
  modify (set_nwConsecutiveAuthFailure 0) ;;
  timerStop T3520 ;;
  resStar <- gets (fun st => m_resStar (m_usim st)) ;;
  sendNasMessage (AuthenticationResponse (Some resStar) None).

(** The dispatch on [autnCheck] that ends the handler. *)
Definition dispatch5gAka (msg : AuthenticationRequest) (currentPLmn : Plmn)
    (rand : OctetString) (autnCheck : EAutnValidationRes.t) : M unit :=
  match autnCheck with
  | EAutnValidationRes.OK => acceptChallenge5gAka msg currentPLmn rand
  | EAutnValidationRes.MAC_FAILURE =>
      tripped <- networkFailingTheAuthCheck true ;;
      if tripped then ret tt
      else
        timerStart T3520 ;;
        sendFailure MAC_FAILURE None
  | EAutnValidationRes.SYNCHRONISATION_FAILURE =>
      tripped <- networkFailingTheAuthCheck true ;;
      if tripped then ret tt
      else
        timerStart T3520 ;;
        sqn <- sqnMng_getSqn ;;
        milenage <- calculateMilenage sqn rand true ;;
        sqn' <- sqnMng_getSqn ;;
        let auts := CalculateAuts env sqn' (ak_r milenage) (mac_s milenage) in
        sendFailure SYNCH_FAILURE (Some auts)
  | EAutnValidationRes.AMF_SEPARATION_BIT_FAILURE =>
      tripped <- networkFailingTheAuthCheck true ;;
      if tripped then ret tt
      else
        timerStart T3520 ;;
        sendFailure NON_5G_AUTHENTICATION_UNACCEPTABLE None
  end.

(** The stage between the ngKSI checks and the dispatch: AUTN validation,
    bypassed when the received RAND is the stored one. *)
Definition autnCheck5gAka (rand autn : OctetString) : M EAutnValidationRes.t :=
  stored <- gets (fun st => m_rand (m_usim st)) ;;
  if octets_eq_dec stored rand then ret EAutnValidationRes.OK
  else
    autnCheck <- validateAutn rand autn ;;
    timerStart T3516 ;;
    ret autnCheck.

Definition receiveAuthenticationRequest5gAka (msg : AuthenticationRequest) : M unit :=
  currentPLmn <- gets currentPlmn ;;
  if negb (hasValue env currentPLmn) then ret tt
  else
    (* Check the received parameters syntactically *)
    match authParamRAND msg, authParamAUTN msg with
    | Some rand, Some autn =>
        if negb (Nat.eqb (List.length rand) 16) || negb (Nat.eqb (List.length autn) 16) then
          sendFailure SEMANTICALLY_INCORRECT_MESSAGE None
        else
          (* Check the received ngKSI *)
          match ngKSI_tsc (ngKSI msg) with
          | MAPPED_SECURITY_CONTEXT =>
              log LErr "Mapped security context not supported" ;;
              sendFailure UNSPECIFIED_PROTOCOL_ERROR None
          | NATIVE_SECURITY_CONTEXT =>
              if ngKSI_ksi (ngKSI msg) =? NOT_AVAILABLE_OR_RESERVED then
                log LErr "Invalid ngKSI value received" ;;
                sendFailure UNSPECIFIED_PROTOCOL_ERROR None
              else
                usim <- gets m_usim ;;
                if ngKsiInUse usim (ngKSI_ksi (ngKSI msg)) then
                  tripped <- networkFailingTheAuthCheck true ;;
                  if tripped then ret tt
                  else
                    timerStart T3520 ;;
                    sendFailure NGKSI_ALREADY_IN_USE None
                else
                  (* Others *)
                  autnCheck <- autnCheck5gAka rand autn ;;
                  dispatch5gAka msg currentPLmn rand autnCheck
          end
    | _, _ => sendFailure SEMANTICALLY_INCORRECT_MESSAGE None
    end.

(** ** Authentication Result and Authentication Reject *)

Definition receiveEapSuccessMessage (eap : Eap) : M unit :=
  (* do nothing *)
  ret tt.

Definition receiveEapFailureMessage (eap : Eap) : M unit :=
  log LDebug "Handling EAP-failure" ;;
  (* UE shall delete the partial native 5G NAS security context if any was created *)
  usim_assign (set_nonCurrentNsCtx None).

Definition receiveAuthenticationResult (msg : AuthenticationResult) : M unit :=
  (match res_abba msg with
   | Some rawData => nonCurrentNsCtx_assign (set_abba rawData)
   | None => ret tt
   end) ;;
  match eap_code (res_eapMessage msg) with
  | SUCCESS => receiveEapSuccessMessage (res_eapMessage msg)
  | FAILURE => receiveEapFailureMessage (res_eapMessage msg)
  | _ =>
      log LWarn "Network sent EAP with an inconvenient type in Authentication Result, ignoring EAP IE."
  end.

Definition receiveAuthenticationReject (msg : AuthenticationReject) : M unit :=
  log LErr "Authentication Reject received" ;;
  (* The RAND and RES* values stored in the ME shall be deleted and timer
     T3516, if running, shall be stopped *)
  usim_assign (set_rand []) ;;
  usim_assign (set_resStar []) ;;
  timerStop T3516 ;;
  (match rej_eapMessage msg with
   | Some eap =>
       match eap_code eap with
       | FAILURE => receiveEapFailureMessage eap
       | _ =>
           log LWarn "Network sent EAP with inconvenient type in AuthenticationReject, ignoring EAP IE."
       end
   | None => ret tt
   end) ;;
  (* The UE shall set the update status to 5U3 ROAMING NOT ALLOWED *)
  switchUState U3_ROAMING_NOT_ALLOWED ;;
  (* Delete the stored 5G-GUTI, TAI list, last visited registered TAI and ngKSI *)
  modify (fun st => set_storage {| storedGuti := None;
                                   lastVisitedRegisteredTai := lastVisitedRegisteredTai (m_storage st);
                                   taiList := taiList (m_storage st) |} st) ;;
  modify (fun st => set_storage {| storedGuti := storedGuti (m_storage st);
                                   lastVisitedRegisteredTai := None;
                                   taiList := taiList (m_storage st) |} st) ;;
  modify (fun st => set_storage {| storedGuti := storedGuti (m_storage st);
                                   lastVisitedRegisteredTai := lastVisitedRegisteredTai (m_storage st);
                                   taiList := [] |} st) ;;
  usim_assign (set_currentNsCtx None) ;;
  usim_assign (set_nonCurrentNsCtx None) ;;
  usim_assign (set_isValid false) ;;
  (* stop any of the timers T3510, T3516, T3517, T3519 or T3521 *)
  timerStop T3510 ;;
  timerStop T3516 ;;
  timerStop T3517 ;;
  timerStop T3519 ;;
  timerStop T3521 ;;
  (* and enter state 5GMM-DEREGISTERED *)
  switchMmState MM_DEREGISTERED_PS.

(** ** [NasMm::receiveAuthenticationRequestEap] *)

(** The [sendEapFailure] closure. *)
Definition sendEapFailure (eap : Eap) : M unit :=
  (* Clear RAND and RES* stored in volatile memory *)
  usim_assign (set_rand []) ;;
  usim_assign (set_resStar []) ;;
  (* Stop T3516 if running *)
  timerStop T3516 ;;
  sendNasMessage (AuthenticationResponse None (Some eap)).

(** The [sendAuthFailure] closure. *)
Definition sendAuthFailure (cause : EMmCause) : M unit :=
  log LErr "Sending Authentication Failure with cause [%s]" ;;
  usim_assign (set_rand []) ;;
  usim_assign (set_resStar []) ;;
  timerStop T3516 ;;
  sendNasMessage (AuthenticationFailure cause None).

(** [m_base->config->supi.value()]: throws when no SUPI is configured. *)
Definition config_supi_value : M string :=
  cfg <- gets config ;;
  match supi cfg with
  | Some s => ret s
  | None => throw BadOptionalAccess
  end.

(** The EAP-AKA' branch from the AUTN check on. *)
Definition checkAutnEapAkaPrime (msg : AuthenticationRequest) (currentPlmn' : Plmn)
    (receivedEap : Eap) (id : Z) (attributes : EapAttributes) (snn : string) : M unit :=
  let receivedRand := getRand env attributes in
  let receivedMac := getMac env attributes in
  let receivedAutn := getAutn env attributes in
  autnCheck <- validateAutn receivedRand receivedAutn ;;
  timerStart T3516 ;;
  match autnCheck with
  | EAutnValidationRes.OK =>
      (* Calculate milenage *)
      sqn <- sqnMng_getSqn ;;
      milenage <- calculateMilenage sqn receivedRand false ;;
      sqn' <- sqnMng_getSqn ;;
      let sqnXorAk := Xor sqn' (ak milenage) in
      let ckPrimeIkPrime :=
        CalculateCkPrimeIkPrime env (ck milenage) (ik milenage) snn sqnXorAk in
      let ckPrime := fst ckPrimeIkPrime in
      let ikPrime := snd ckPrimeIkPrime in
      supi' <- config_supi_value ;;
      let mk := CalculateMk env ckPrime ikPrime supi' in
      let kaut := subCopy mk 16 32 in
      (* Check the received AT_MAC *)
      let expectedMac := CalculateMacForEapAkaPrime env kaut receivedEap in
      if octets_eq_dec expectedMac receivedMac then
        (* Store the relevant parameters *)
        usim_assign (set_rand receivedRand) ;;
        usim_assign (set_resStar []) ;;
        (* Create new partial native NAS security context *)
        usim_assign (set_nonCurrentNsCtx (Some newNasSecurityContext)) ;;
        nonCurrentNsCtx_assign (set_tsc (ngKSI_tsc (ngKSI msg))) ;;
        nonCurrentNsCtx_assign (set_ngKsi (ngKSI_ksi (ngKSI msg))) ;;
        nonCurrentNsCtx_assign (set_kAusf (CalculateKAusfForEapAkaPrime env mk)) ;;
        nonCurrentNsCtx_assign (set_abba (req_abba msg)) ;;
        cfg <- gets config ;;
        nonCurrentNsCtx_assign (DeriveKeysSeafAmf cfg currentPlmn') ;;
        (* Send response *)
        modify (set_nwConsecutiveAuthFailure 0) ;;
        timerStop T3520 ;;
        let attrs := putKdf env 1
                       (putMac env (FromSpare 16)
                          (putRes env (res milenage) (emptyAttributes env))) in
        (* Calculate and put mac value *)
        let sendingMac :=
          CalculateMacForEapAkaPrime env kaut (EapAkaPrime RESPONSE id AKA_CHALLENGE attrs) in
        sendNasMessage
          (AuthenticationResponse None
             (Some (EapAkaPrime RESPONSE id AKA_CHALLENGE (replaceMac env sendingMac attrs))))
      else
        log LErr "AT_MAC failure in EAP AKA'. expected: %s received: %s" ;;
        tripped <- networkFailingTheAuthCheck true ;;
        if tripped then ret tt
        else
          timerStart T3520 ;;
          sendEapFailure (EapAkaPrime RESPONSE id AKA_CLIENT_ERROR
                            (putClientErrorCode env 0 (emptyAttributes env)))
  | EAutnValidationRes.MAC_FAILURE =>
      tripped <- networkFailingTheAuthCheck true ;;
      if tripped then ret tt
      else
        timerStart T3520 ;;
        sendEapFailure (EapAkaPrime RESPONSE id AKA_AUTHENTICATION_REJECT (emptyAttributes env))
  | EAutnValidationRes.SYNCHRONISATION_FAILURE =>
      tripped <- networkFailingTheAuthCheck true ;;
      if tripped then ret tt
      else
        timerStart T3520 ;;
        sqn <- sqnMng_getSqn ;;
        milenage <- calculateMilenage sqn receivedRand true ;;
        sqn' <- sqnMng_getSqn ;;
        let auts := CalculateAuts env sqn' (ak_r milenage) (mac_s milenage) in
        sendEapFailure (EapAkaPrime RESPONSE id AKA_SYNCHRONIZATION_FAILURE
                          (putAuts env auts (emptyAttributes env)))
  | EAutnValidationRes.AMF_SEPARATION_BIT_FAILURE =>
      tripped <- networkFailingTheAuthCheck true ;;
      if tripped then ret tt
      else
        timerStart T3520 ;;
        sendEapFailure (EapAkaPrime RESPONSE id AKA_CLIENT_ERROR
                          (putClientErrorCode env 0 (emptyAttributes env)))
  end.

(** The branch [eapType == EAP_AKA_PRIME]. *)
Definition receiveEapAkaPrime (msg : AuthenticationRequest) (currentPlmn' : Plmn)
    (receivedEap : Eap) (id : Z) (subType : ESubType) (attributes : EapAttributes) : M unit :=
  if ESubType_eq_dec subType AKA_CHALLENGE then
    (* Check the received parameters syntactically *)
    if negb (Nat.eqb (List.length (getRand env attributes)) 16)
       || negb (Nat.eqb (List.length (getAutn env attributes)) 16)
       || negb (Nat.eqb (List.length (getMac env attributes)) 16)
    then sendMmStatus SEMANTICALLY_INCORRECT_MESSAGE
    else
      (* Check the received KDF and KDF_INPUT *)
      if negb (getKdf env attributes =? 1) then
        log LErr "EAP AKA' Authentication Reject, received AT_KDF is not valid" ;;
        tripped <- networkFailingTheAuthCheck true ;;
        if tripped then ret tt
        else
          timerStart T3520 ;;
          sendEapFailure (EapAkaPrime RESPONSE id AKA_AUTHENTICATION_REJECT (emptyAttributes env))
      else
        let snn := ConstructServingNetworkName env currentPlmn' in
        if octets_eq_dec (getKdfInput env attributes) (FromAscii snn) then
          (* Check the received ngKSI *)
          match ngKSI_tsc (ngKSI msg) with
          | MAPPED_SECURITY_CONTEXT =>
              log LErr "Mapped security context not supported" ;;
              sendAuthFailure UNSPECIFIED_PROTOCOL_ERROR
          | NATIVE_SECURITY_CONTEXT =>
              if ngKSI_ksi (ngKSI msg) =? NOT_AVAILABLE_OR_RESERVED then
                log LErr "Invalid ngKSI value received" ;;
                sendAuthFailure UNSPECIFIED_PROTOCOL_ERROR
              else
                usim <- gets m_usim ;;
                if ngKsiInUse usim (ngKSI_ksi (ngKSI msg)) then
                  tripped <- networkFailingTheAuthCheck true ;;
                  if tripped then ret tt
                  else
                    timerStart T3520 ;;
                    sendAuthFailure NGKSI_ALREADY_IN_USE
                else
                  (* Check the received AUTN *)
                  checkAutnEapAkaPrime msg currentPlmn' receivedEap id attributes snn
          end
        else
          log LErr "EAP AKA' Authentication Reject, received AT_KDF_INPUT is not valid" ;;
          sendEapFailure (EapAkaPrime RESPONSE id AKA_AUTHENTICATION_REJECT (emptyAttributes env))
  else sendMmStatus SEMANTICALLY_INCORRECT_MESSAGE.

(** OpenSSL's [SSL_ERROR_WANT_READ] and [SSL_ERROR_WANT_WRITE]. *)
Definition SSL_ERROR_WANT_READ : Z := 2.
Definition SSL_ERROR_WANT_WRITE : Z := 3.

(** The [checkHandshakeState] closure. *)
Definition checkHandshakeState (ssl : TlsSession) (r : Z) : bool :=
  if negb (r =? 1) then
    let err := SSL_get_error env ssl r in
    if (err =? SSL_ERROR_WANT_READ) || (err =? SSL_ERROR_WANT_WRITE) then true
    else false
  else true.

(** [BIO_reset(m_wbio); SSL_do_handshake(m_ssl)]: one step of the handshake,
    which moves the session. *)
Definition tls_do_handshake : M Z :=
  fun st => let (r, ssl') := SSL_do_handshake env (m_tls st) in
            Done r (set_tls ssl' st).

(** The [TLS_START] block from [SSL_CTX_new] to [SSL_set_connect_state]:
    it leaves the new session in the members of [NasMm], or dereferences a
    null pointer that one of its calls returned. *)
Definition tls_open : M unit :=
  fun st => match tlsOpen env (config st) with
            | Some ssl => Done tt (set_tls ssl st)
            | None => Crash NullDereference
            end.

(** The releases of the [TLS_DONE] block, from [EVP_PKEY_free] to
    [m_ctx = nullptr]: they leave the members null, or release the BIOs
    of the session a second time in [SSL_free]. *)
Definition tls_free : M unit :=
  fun st => match tlsFree env (m_tls st) with
            | Some ssl => Done tt (set_tls ssl st)
            | None => Crash DoubleFree
            end.

(** The EAP-TLS branch after the [TLS_START] block: the received TLS data is
    written to the read BIO, then the handshake is driven one step or the
    finished session is released. *)
Definition continueEapTls (msg : AuthenticationRequest) (currentPlmn' : Plmn)
    (id : Z) (tlsData : OctetString) : M unit :=
  modify (fun st => set_tls (tlsFeed env (m_tls st) tlsData) st) ;;
  tlsState <- gets m_tlsState ;;
  match tlsState with
  | TLS_HANDSHAKE =>
      state <- tls_do_handshake ;;
      if state =? 1 then
        timerStop T3520 ;;
        modify (set_tlsState TLS_DONE) ;;
        keyMaterial <- gets (fun st => SSL_export_keying_material env (m_tls st)) ;;
        usim_assign (set_nonCurrentNsCtx (Some newNasSecurityContext)) ;;
        nonCurrentNsCtx_assign (set_tsc (ngKSI_tsc (ngKSI msg))) ;;
        nonCurrentNsCtx_assign (set_ngKsi (ngKSI_ksi (ngKSI msg))) ;;
        nonCurrentNsCtx_assign (set_kAusf (subCopy keyMaterial 64 32)) ;;
        nonCurrentNsCtx_assign (set_abba (req_abba msg)) ;;
        cfg <- gets config ;;
        nonCurrentNsCtx_assign (DeriveKeysSeafAmf cfg currentPlmn') ;;
        sendNasMessage (AuthenticationResponse None (Some (EapTLS RESPONSE id 128 [])))
      else
        ssl <- gets m_tls ;;
        if negb (checkHandshakeState ssl state) then
          sendMmStatus SEMANTICALLY_INCORRECT_MESSAGE
        else
          data <- gets (fun st => BIO_get_mem_data env (m_tls st)) ;;
          sendNasMessage (AuthenticationResponse None (Some (EapTLS RESPONSE id 128 data)))
  | TLS_DONE =>
      tls_free
  | TLS_START => ret tt
  end.

(** The branch [eapType == EAP_TLS]. *)
Definition receiveEapTls (msg : AuthenticationRequest) (currentPlmn' : Plmn)
    (id flag : Z) (tlsData : OctetString) : M unit :=
  (* Check the received ngKSI *)
  match ngKSI_tsc (ngKSI msg) with
  | MAPPED_SECURITY_CONTEXT =>
      log LErr "Mapped security context not supported" ;;
      sendAuthFailure UNSPECIFIED_PROTOCOL_ERROR
  | NATIVE_SECURITY_CONTEXT =>
      if ngKSI_ksi (ngKSI msg) =? NOT_AVAILABLE_OR_RESERVED then
        log LErr "Invalid ngKSI value received" ;;
        sendAuthFailure UNSPECIFIED_PROTOCOL_ERROR
      else
        tlsState <- gets m_tlsState ;;
        match tlsState with
        | TLS_START =>
            if Z.land flag 32 =? 0 then sendMmStatus SEMANTICALLY_INCORRECT_MESSAGE
            else
              tls_open ;;
              modify (set_tlsState TLS_HANDSHAKE) ;;
              continueEapTls msg currentPlmn' id tlsData
        | _ => continueEapTls msg currentPlmn' id tlsData
        end
  end.

Definition receiveAuthenticationRequestEap (msg : AuthenticationRequest) : M unit :=
  currentPlmn' <- gets currentPlmn ;;
  if negb (hasValue env currentPlmn') then ret tt
  else
    (* Check the received message syntactically *)
    match eapMessage msg with
    | None => sendMmStatus SEMANTICALLY_INCORRECT_MESSAGE
    | Some (EapAkaPrime code id subType attributes) =>
        receiveEapAkaPrime msg currentPlmn' (EapAkaPrime code id subType attributes)
                           id subType attributes
    | Some (EapTLS code id flag tlsData) =>
        receiveEapTls msg currentPlmn' id flag tlsData
    | Some (EapOther code id) => sendMmStatus SEMANTICALLY_INCORRECT_MESSAGE
    end.

(** ** [NasMm::receiveAuthenticationRequest] *)

Definition receiveAuthenticationRequest (msg : AuthenticationRequest) : M unit :=
  log LDebug "Authentication Request received" ;;
  valid <- gets (fun st => m_isValid (m_usim st)) ;;
  if negb valid then
    log LWarn "Authentication request is ignored. USIM is invalid"
  else
    timerStart T3520 ;;
    match eapMessage msg with
    | Some _ => receiveAuthenticationRequestEap msg
    | None => receiveAuthenticationRequest5gAka msg
    end.

End Core.

Arguments Crash {SqnManager EapAttributes TlsSession A} f.
Arguments networkFailingTheAuthCheck : simpl never.
Arguments calculateMilenage : simpl never.
Arguments sqnMng_checkSqn : simpl never.
Arguments checkAutnEapAkaPrime : simpl never.
Arguments continueEapTls : simpl never.
Arguments validateAutn : simpl never.
Arguments EapTLS {EapAttributes} code id flag tlsData.
Arguments EapOther {EapAttributes} code id.
Arguments AuthenticationFailure {EapAttributes} mmCause authenticationFailureParameter.
Arguments Log {EapAttributes} level text%_string.
Arguments TimerStart {EapAttributes} t.
Arguments TimerStop {EapAttributes} t.
Arguments SendMmStatus {EapAttributes} cause.
Arguments LocalReleaseConnection {EapAttributes} treatBarred.
Arguments SwitchUState {EapAttributes} s.
Arguments SwitchMmState {EapAttributes} s.

(** ** The UI method of the private-key store: [uiReader], [uiWriter], [makeMethod]

    The [TLS_START] block opens the client's private key with
    [OSSL_STORE_open] and hands it the UI method built by [makeMethod],
    with the configured client password as user data.  OpenSSL's [UI] and
    [UI_STRING] are seen through the accessors the callbacks call; the
    constants of OpenSSL's [ui.h] are parameters. *)

Section Ui.

Variables (UIT_PROMPT UIT_VERIFY UI_INPUT_FLAG_DEFAULT_PWD : Z).

(** [UI_get0_user_data(ui)]: the password the caller attached, [None] for a
    null pointer. *)
Record UI := { UI_get0_user_data : option string }.

Record UI_STRING := {
  UI_get_string_type : Z;
  UI_get_input_flags : Z
}.

(** The four callbacks of a UI method. *)
Inductive UiSlot := ui_opener | ui_writer | ui_reader | ui_closer.

(** What a callback does: it returns [rc], after [UI_set_result] with
    [result] if any; or it calls the callback that [UI_OpenSSL()] has in a
    slot and returns what that returns. *)
Inductive UiOutcome :=
| UiReturn (rc : Z) (result : option string)
| UiOpenSSL (slot : UiSlot).

Definition uiReader (ui : UI) (uis : UI_STRING) : UiOutcome :=
  if (UI_get_string_type uis =? UIT_PROMPT) || (UI_get_string_type uis =? UIT_VERIFY) then
    match UI_get0_user_data ui with
    | Some password =>
        if negb (Z.land (UI_get_input_flags uis) UI_INPUT_FLAG_DEFAULT_PWD =? 0)
        then UiReturn 1 (Some password)
        else UiOpenSSL ui_reader
    | None => UiOpenSSL ui_reader
    end
  else UiOpenSSL ui_reader.

Definition uiWriter (ui : UI) (uis : UI_STRING) : UiOutcome :=
  if (UI_get_string_type uis =? UIT_PROMPT) || (UI_get_string_type uis =? UIT_VERIFY) then
    match UI_get0_user_data ui with
    | Some _ =>
        if negb (Z.land (UI_get_input_flags uis) UI_INPUT_FLAG_DEFAULT_PWD =? 0)
        then UiReturn 1 None
        else UiOpenSSL ui_writer
    | None => UiOpenSSL ui_writer
    end
  else UiOpenSSL ui_writer.

Record UI_METHOD := {
  method_name : string;
  method_opener : UI -> UiOutcome;
  method_writer : UI -> UI_STRING -> UiOutcome;
  method_reader : UI -> UI_STRING -> UiOutcome;
  method_closer : UI -> UiOutcome
}.

Definition makeMethod : UI_METHOD :=
  {| method_name := "TPM User Interface";
     method_opener := fun _ => UiOpenSSL ui_opener;
     method_writer := uiWriter;
     method_reader := uiReader;
     method_closer := fun _ => UiOpenSSL ui_closer |}.

End Ui.

(** ** A concrete instance of the collaborators

    Used to run the handlers on concrete messages.  The sequence-number
    manager accepts a received SQN that is larger than the stored one and
    then stores it; Milenage and the key derivations are stand-ins that mix
    their inputs with XOR, so that a run depends on every input; the EAP
    attributes are a record with one slot per attribute; a TLS session is
    a number, 0 for no session (null pointers) and [n + 1] for a session
    with [n] handshake steps still to do, and the release of a session that
    is held is the double release of its BIOs. *)

Fixpoint octetsToZ (s : OctetString) (acc : Z) : Z :=
  match s with
  | [] => acc
  | x :: s' => octetsToZ s' (acc * 256 + x)
  end.

Definition fx_checkSqn (stored received : OctetString) : bool * OctetString :=
  if octetsToZ stored 0 <? octetsToZ received 0 then (true, received)
  else (false, stored).

Definition fx_Calculate (opc k rand sqn amf' : OctetString) : Milenage :=
  {| mac_a := Xor (firstn 8 rand) (sqn ++ amf');
     mac_s := Xor (skipn 8 rand) (sqn ++ amf');
     ck := Xor k rand;
     ik := Xor opc rand;
     ak := firstn 6 (Xor k opc);
     ak_r := skipn 10 (Xor k opc);
     res := firstn 8 (Xor opc rand) |}.

Record FxAttributes := {
  at_rand : OctetString;
  at_autn : OctetString;
  at_mac : OctetString;
  at_kdf : Z;
  at_kdfInput : OctetString;
  at_res : OctetString;
  at_auts : OctetString;
  at_clientErrorCode : Z
}.

Definition fx_emptyAttributes : FxAttributes :=
  {| at_rand := []; at_autn := []; at_mac := []; at_kdf := 0; at_kdfInput := [];
     at_res := []; at_auts := []; at_clientErrorCode := 0 |}.

Definition fx_putMac (v : OctetString) (a : FxAttributes) : FxAttributes :=
  {| at_rand := at_rand a; at_autn := at_autn a; at_mac := v; at_kdf := at_kdf a;
     at_kdfInput := at_kdfInput a; at_res := at_res a; at_auts := at_auts a;
     at_clientErrorCode := at_clientErrorCode a |}.
Definition fx_putRes (v : OctetString) (a : FxAttributes) : FxAttributes :=
  {| at_rand := at_rand a; at_autn := at_autn a; at_mac := at_mac a; at_kdf := at_kdf a;
     at_kdfInput := at_kdfInput a; at_res := v; at_auts := at_auts a;
     at_clientErrorCode := at_clientErrorCode a |}.
Definition fx_putAuts (v : OctetString) (a : FxAttributes) : FxAttributes :=
  {| at_rand := at_rand a; at_autn := at_autn a; at_mac := at_mac a; at_kdf := at_kdf a;
     at_kdfInput := at_kdfInput a; at_res := at_res a; at_auts := v;
     at_clientErrorCode := at_clientErrorCode a |}.
Definition fx_putKdf (v : Z) (a : FxAttributes) : FxAttributes :=
  {| at_rand := at_rand a; at_autn := at_autn a; at_mac := at_mac a; at_kdf := v;
     at_kdfInput := at_kdfInput a; at_res := at_res a; at_auts := at_auts a;
     at_clientErrorCode := at_clientErrorCode a |}.
Definition fx_putClientErrorCode (v : Z) (a : FxAttributes) : FxAttributes :=
  {| at_rand := at_rand a; at_autn := at_autn a; at_mac := at_mac a; at_kdf := at_kdf a;
     at_kdfInput := at_kdfInput a; at_res := at_res a; at_auts := at_auts a;
     at_clientErrorCode := v |}.

Definition fx_snn (p : Plmn) : string :=
  if isLongMnc p then "5G:mnc001.mcc001.3gppnetwork.org"%string
  else "5G:mnc01.mcc001.3gppnetwork.org"%string.

Definition fx_macEap (kaut : OctetString) (e : Eap FxAttributes) : OctetString :=
  match e with
  | EapAkaPrime _ id _ a => firstn 16 (Xor kaut (id :: at_rand a ++ at_res a))
  | _ => []
  end.

Definition fx_env : Collaborators OctetString FxAttributes nat :=
  {| hasValue := fun p => negb (mcc p =? 0);
     getSqn := fun s => s;
     checkSqn := fx_checkSqn;
     Calculate := fx_Calculate;
     CalculateOpC := Xor;
     ConstructServingNetworkName := fx_snn;
     CalculateResStar := fun ckIk snn rand res' => firstn 16 (Xor ckIk (rand ++ res' ++ FromAscii snn));
     CalculateKAusfFor5gAka := fun ck' ik' snn sqnXorAk => Xor (ck' ++ ik') (sqnXorAk ++ FromAscii snn);
     CalculateCkPrimeIkPrime := fun ck' ik' snn sqnXorAk => (Xor ck' (FromAscii snn), Xor ik' (FromAscii snn));
     CalculateMk := fun ckPrime ikPrime supi' => ckPrime ++ ikPrime ++ FromAscii supi';
     CalculateMacForEapAkaPrime := fx_macEap;
     CalculateKAusfForEapAkaPrime := fun mk => subCopy mk 144 32;
     CalculateAuts := fun sqn akr macs => Xor sqn akr ++ macs;
     KdfKSeaf := fun _ p ctx => Xor (kAusf (keys ctx)) (FromAscii (fx_snn p));
     KdfKAmf := fun _ _ ctx => Xor (kSeaf (keys ctx)) (abba (keys ctx) ++ kSeaf (keys ctx));
     emptyAttributes := fx_emptyAttributes;
     getRand := at_rand;
     getMac := at_mac;
     getAutn := at_autn;
     getKdf := at_kdf;
     getKdfInput := at_kdfInput;
     putRes := fx_putRes;
     putMac := fx_putMac;
     replaceMac := fx_putMac;
     putKdf := fx_putKdf;
     putAuts := fx_putAuts;
     putClientErrorCode := fx_putClientErrorCode;
     tlsOpen := fun _ => Some 3%nat;
     tlsFeed := fun s _ => s;
     SSL_do_handshake := fun s => match s with
                                  | S (S n) => (-1, S n)
                                  | S O => (1, S O)
                                  | O => (-1, O)
                                  end;
     SSL_get_error := fun _ _ => SSL_ERROR_WANT_READ;
     SSL_export_keying_material := fun _ => FromSpare 128;
     BIO_get_mem_data := fun _ => [22; 3; 3];
     tlsFree := fun s => match s with
                         | O => Some O
                         | S _ => None
                         end |}.

Definition fx_config : UeConfig :=
  {| key := [70; 91; 92; 232; 177; 153; 180; 159; 170; 95; 10; 46; 226; 56; 166; 188];
     opC := [205; 99; 203; 113; 149; 74; 159; 78; 72; 165; 153; 78; 55; 160; 43; 175];
     opType := OPC;
     amf := [185; 185];
     supi := Some "imsi-001010000000001"%string;
     caCertificate := EmptyString; clientCertificate := EmptyString;
     clientPrivateKey := EmptyString; clientPassword := EmptyString |}.

Definition fx_rand : OctetString :=
  [35; 85; 60; 190; 150; 55; 168; 157; 33; 138; 230; 77; 174; 71; 191; 53].

Definition fx_state : UeState OctetString FxAttributes nat :=
  {| config := fx_config;
     currentPlmn := {| mcc := 1; mnc := 1; isLongMnc := false |};
     m_usim := {| m_isValid := true; m_rand := []; m_resStar := [];
                  m_currentNsCtx := None; m_nonCurrentNsCtx := None;
                  m_sqnMng := [0; 0; 0; 0; 0; 1] |};
     m_timers := {| t3510 := false; t3516 := false; t3517 := false;
                    t3519 := false; t3520 := false; t3521 := false |};
     m_storage := {| storedGuti := Some [1; 2; 3]; lastVisitedRegisteredTai := Some [4; 5];
                     taiList := [[4; 5]; [6; 7]] |};
     m_nwConsecutiveAuthFailure := 0;
     m_cmState := CM_CONNECTED;
     m_uState := U1_UPDATED;
     m_mmSubState := MM_OTHER_SUBSTATE 0;
     m_tlsState := TLS_START;
     m_tls := O;
     trace := [] |}.

(** A network SQN above the stored one, and the AUTN the stand-in Milenage
    yields for it: SQN xor AK, the AMF, MAC-A. *)
Definition fx_sqn : OctetString := [0; 0; 0; 0; 0; 2].

Definition fx_autn : OctetString :=
  Eval vm_compute in
    Xor fx_sqn (ak (fx_Calculate (opC fx_config) (key fx_config) fx_rand fx_sqn (amf fx_config)))
    ++ amf fx_config
    ++ mac_a (fx_Calculate (opC fx_config) (key fx_config) fx_rand fx_sqn (amf fx_config)).

(** The same AUTN with the last octet of the MAC corrupted. *)
Definition fx_autn_badMac : OctetString :=
  Eval vm_compute in firstn 15 fx_autn ++ [Z.lxor (nth 15 fx_autn 0) 255].

Definition fx_request (autn : OctetString) (ksi : Z) : AuthenticationRequest FxAttributes :=
  {| ngKSI := {| ngKSI_tsc := NATIVE_SECURITY_CONTEXT; ngKSI_ksi := ksi |};
     req_abba := [0; 0];
     authParamRAND := Some fx_rand;
     authParamAUTN := Some autn;
     eapMessage := None |}.

(** An EAP-AKA' challenge with the given AT_KDF and AT_KDF_INPUT. *)
Definition fx_eapRequest (kdf : Z) (kdfInput : OctetString) : AuthenticationRequest FxAttributes :=
  {| ngKSI := {| ngKSI_tsc := NATIVE_SECURITY_CONTEXT; ngKSI_ksi := 0 |};
     req_abba := [0; 0];
     authParamRAND := None;
     authParamAUTN := None;
     eapMessage :=
       Some (EapAkaPrime REQUEST 7 AKA_CHALLENGE
               {| at_rand := fx_rand; at_autn := fx_autn; at_mac := FromSpare 16;
                  at_kdf := kdf; at_kdfInput := kdfInput; at_res := []; at_auts := [];
                  at_clientErrorCode := 0 |}) |}.

(** The sample state with a RAND and a RES* stored, T3516 running and the
    given value of the failure counter. *)
Definition fx_stateWith (rand resStar : OctetString) (counter : Z)
  : UeState OctetString FxAttributes nat :=
  set_nwConsecutiveAuthFailure counter
    (with_timers (set_running T3516 true)
       (with_usim (set_resStar resStar) (with_usim (set_rand rand) fx_state))).

(** The sample state with a current security context of the given ngKSI. *)
Definition fx_stateWithCurrent (ksi : Z) : UeState OctetString FxAttributes nat :=
  with_usim (set_currentNsCtx (Some (set_ngKsi ksi newNasSecurityContext))) fx_state.

(** The sample state without a current PLMN, without a configured SUPI,
    with a stored SQN above the one of the sample AUTN, and with the
    EAP-TLS session at a given point. *)
Definition fx_stateWithoutPlmn : UeState OctetString FxAttributes nat :=
  {| config := config fx_state;
     currentPlmn := {| mcc := 0; mnc := 0; isLongMnc := false |};
     m_usim := m_usim fx_state;
     m_timers := m_timers fx_state;
     m_storage := m_storage fx_state;
     m_nwConsecutiveAuthFailure := m_nwConsecutiveAuthFailure fx_state;
     m_cmState := m_cmState fx_state;
     m_uState := m_uState fx_state;
     m_mmSubState := m_mmSubState fx_state;
     m_tlsState := m_tlsState fx_state;
     m_tls := m_tls fx_state;
     trace := trace fx_state |}.


Definition fx_stateAhead : UeState OctetString FxAttributes nat :=
  with_usim (set_sqnMng [0; 0; 0; 0; 0; 5]) fx_state.

Definition fx_stateTls (tlsState : ETlsState) (session : nat)
  : UeState OctetString FxAttributes nat :=
  set_tlsState tlsState (set_tls session fx_state).

(** A well-formed AKA-Challenge with AT_KDF = 1 and the serving network
    name as AT_KDF_INPUT, and the AT_MAC the handler expects on it. *)
Definition fx_akaAttributes (autn mac : OctetString) : FxAttributes :=
  {| at_rand := fx_rand; at_autn := autn; at_mac := mac; at_kdf := 1;
     at_kdfInput := FromAscii (fx_snn (currentPlmn fx_state));
     at_res := []; at_auts := []; at_clientErrorCode := 0 |}.

Definition fx_akaChallenge (autn mac : OctetString) (ksi : Z)
  : AuthenticationRequest FxAttributes :=
  {| ngKSI := {| ngKSI_tsc := NATIVE_SECURITY_CONTEXT; ngKSI_ksi := ksi |};
     req_abba := [0; 0];
     authParamRAND := None;
     authParamAUTN := None;
     eapMessage := Some (EapAkaPrime REQUEST 7 AKA_CHALLENGE (fx_akaAttributes autn mac)) |}.

Definition fx_kaut : OctetString :=
  Eval vm_compute in
    let milenage :=
      fx_Calculate (opC fx_config) (key fx_config) fx_rand fx_sqn (amf fx_config) in
    let snn := fx_snn (currentPlmn fx_state) in
    let ckPrimeIkPrime :=
      CalculateCkPrimeIkPrime fx_env (ck milenage) (ik milenage) snn
        (Xor fx_sqn (ak milenage)) in
    subCopy (CalculateMk fx_env (fst ckPrimeIkPrime) (snd ckPrimeIkPrime)
               "imsi-001010000000001"%string) 16 32.

Definition fx_akaMac : OctetString :=
  Eval vm_compute in
    fx_macEap fx_kaut (EapAkaPrime REQUEST 7 AKA_CHALLENGE (fx_akaAttributes fx_autn [])).

(** An EAP-TLS packet with the given flags and ngKSI. *)
Definition fx_tlsRequest (flag ksi : Z) : AuthenticationRequest FxAttributes :=
  {| ngKSI := {| ngKSI_tsc := NATIVE_SECURITY_CONTEXT; ngKSI_ksi := ksi |};
     req_abba := [0; 0];
     authParamRAND := None;
     authParamAUTN := None;
     eapMessage := Some (EapTLS REQUEST 9 flag [22; 3; 1]) |}.

(** ** Observations on states and runs

    Functions that name what a handler returns or leaves behind; the
    properties below are stated with them. *)

Section Observations.

Variables (SqnManager EapAttributes TlsSession : Type).
Variable env : Collaborators SqnManager EapAttributes TlsSession.

Local Abbreviation State := (UeState SqnManager EapAttributes TlsSession).

(** The guard at every call site: [if (networkFailingTheAuthCheck(true)) return;]
    followed by the rest [k] of the caller. *)
Definition guardedByAuthCheck (k : M SqnManager EapAttributes TlsSession unit)
  : M SqnManager EapAttributes TlsSession unit :=
  bind (networkFailingTheAuthCheck true) (fun tripped => if tripped then ret tt else k).

(** The state [networkFailingTheAuthCheck] leaves when it gives up on the
    network. *)
Definition afterTrip (st : State) : State :=
  record (TimerStop T3520)
    (with_timers (set_running T3520 false)
       (match m_cmState st with
        | CM_CONNECTED => record (LocalReleaseConnection true)
        | CM_IDLE => fun s => s
        end (record (Log LErr "Network failing the authentication check") st))).

(** The value [calculateMilenage] returns; it reads the configuration only. *)
Definition milenageOf (cfg : UeConfig) (sqn rand : OctetString) (dummyAmf : bool) : Milenage :=
  let amf' := if dummyAmf then FromSpare 2 else amf cfg in
  match opType cfg with
  | OPC => Calculate env (opC cfg) (key cfg) rand sqn amf'
  | OP => Calculate env (CalculateOpC env (opC cfg) (key cfg)) (key cfg) rand sqn amf'
  end.

(** The SQN that [validateAutn] recovers from the AUTN, the answer of the
    SQN manager on it, and the MAC-A recomputed with it. *)
Definition receivedSQNOf (st : State) (rand autn : OctetString) : OctetString :=
  Xor (subCopy autn 0 6)
      (ak (milenageOf (config st) (getSqn env (m_sqnMng (m_usim st))) rand false)).

Definition sqnAcceptable (st : State) (rand autn : OctetString) : bool :=
  fst (checkSqn env (m_sqnMng (m_usim st)) (receivedSQNOf st rand autn)).

Definition recomputedMacA (st : State) (rand autn : OctetString) : OctetString :=
  mac_a (milenageOf (config st) (receivedSQNOf st rand autn) rand false).

(** The state [validateAutn] leaves when the separation bit is set: two
    debug lines, the SQN manager moved by [checkSqn], and one more line on a
    MAC mismatch. *)
Definition afterValidateAutn (st : State) (rand autn : OctetString) : State :=
  let st1 :=
    with_usim (set_sqnMng (snd (checkSqn env (m_sqnMng (m_usim st)) (receivedSQNOf st rand autn))))
      (record (Log LDebug "SQN-MS [%s]") (record (Log LDebug "Received SQN [%s]") st)) in
  if octets_eq_dec (subCopy autn 8 8) (recomputedMacA st rand autn) then st1
  else record (Log LErr "AUTN validation MAC mismatch. expected [%s] received [%s]") st1.

Definition validateAutnResult (st : State) (rand autn : OctetString) : EAutnValidationRes.t :=
  if octets_eq_dec (subCopy autn 8 8) (recomputedMacA st rand autn) then
    if sqnAcceptable st rand autn then EAutnValidationRes.OK
    else EAutnValidationRes.SYNCHRONISATION_FAILURE
  else EAutnValidationRes.MAC_FAILURE.

(** The NAS messages handed to [sendNasMessage], most recent first. *)
Fixpoint sentMessages (tr : list (Action EapAttributes)) : list (NasMessage EapAttributes) :=
  match tr with
  | [] => []
  | SendNasMessage msg :: tr' => msg :: sentMessages tr'
  | _ :: tr' => sentMessages tr'
  end.

(** [m_timers->t3516.start()] and [m_timers->t3520.start()] applied to a state. *)
Definition started (t : TimerId) (st : State) : State :=
  record (TimerStart t) (with_timers (set_running t true) st).

(** The received ngKSI is the key set identifier of one of the two stored
    security contexts. *)
Definition ngKsiCollides (st : State) (ksi : Z) : Prop :=
  exists ctx : NasSecurityContext,
    (m_currentNsCtx (m_usim st) = Some ctx \/ m_nonCurrentNsCtx (m_usim st) = Some ctx)
    /\ ngKsi ctx = ksi.

(** A request carries a RAND and an AUTN of 16 octets each. *)
Definition wellFormedChallenge (msg : AuthenticationRequest EapAttributes)
    (rand autn : OctetString) : Prop :=
  authParamRAND msg = Some rand /\ authParamAUTN msg = Some autn
  /\ List.length rand = 16%nat /\ List.length autn = 16%nat.

(** A 5G-AKA request passes the syntactic checks and the ngKSI checks of the
    handler: a current PLMN is known, RAND and AUTN are present with 16
    octets each, the ngKSI is native, available and not in use. *)
Definition passesChecks5gAka (st : State) (msg : AuthenticationRequest EapAttributes)
    (rand autn : OctetString) : Prop :=
  hasValue env (currentPlmn st) = true
  /\ wellFormedChallenge msg rand autn
  /\ ngKSI_tsc (ngKSI msg) <> MAPPED_SECURITY_CONTEXT
  /\ ngKSI_ksi (ngKSI msg) <> NOT_AVAILABLE_OR_RESERVED
  /\ ~ ngKsiCollides st (ngKSI_ksi (ngKSI msg)).

(** The state [sendFailure] of the 5G-AKA handler leaves. *)
Definition afterSendFailure (cause : EMmCause) (auts : option OctetString) (st : State) : State :=
  record (SendNasMessage (AuthenticationFailure cause auts))
    (record (TimerStop T3516)
       (with_timers (set_running T3516 false)
          (with_usim (set_resStar [])
             (with_usim (set_rand [])
                (record (if EMmCause_eq_dec cause SYNCH_FAILURE
                         then Log LDebug "Sending Authentication Failure due to SQN out of range"
                         else Log LErr "Sending Authentication Failure with cause [%s]")
                        st))))).

(** The state the AUTN stage of the 5G-AKA handler leaves, and its verdict. *)
Definition afterAutnCheck5gAka (st : State) (rand autn : OctetString) : State :=
  if octets_eq_dec (m_rand (m_usim st)) rand then st
  else started T3516
         (if bit (get (subCopy autn 6 2) 0) 7 then afterValidateAutn st rand autn
          else record (Log LErr "AUTN validation SEP-BIT failure. expected: 1, received: 0") st).

Definition autnVerdict5gAka (st : State) (rand autn : OctetString) : EAutnValidationRes.t :=
  if octets_eq_dec (m_rand (m_usim st)) rand then EAutnValidationRes.OK
  else if bit (get (subCopy autn 6 2) 0) 7 then validateAutnResult st rand autn
       else EAutnValidationRes.AMF_SEPARATION_BIT_FAILURE.

(** RAND or AUTN is absent, or one of them is not 16 octets long. *)
Definition malformedChallenge (msg : AuthenticationRequest EapAttributes) : Prop :=
  match authParamRAND msg, authParamAUTN msg with
  | Some rand, Some autn => List.length rand <> 16%nat \/ List.length autn <> 16%nat
  | _, _ => True
  end.

(** What a run of the 5G-AKA handler from [st] to [st'] did: accepted the
    challenge, answered with an Authentication Failure, or stayed silent. *)
Definition accepted5gAka (st st' : State) : Prop :=
  exists resStar : OctetString,
    sentMessages (trace st') = AuthenticationResponse (Some resStar) None :: sentMessages (trace st).

Definition failed5gAka (st st' : State) : Prop :=
  exists (cause : EMmCause) (auts : option OctetString),
    sentMessages (trace st') = AuthenticationFailure cause auts :: sentMessages (trace st).

Definition silent5gAka (st st' : State) : Prop :=
  sentMessages (trace st') = sentMessages (trace st).

(** The trace [receiveAuthenticationReject] leaves for the EAP payload of
    the message: the debug line of [receiveEapFailureMessage] when the
    payload has code FAILURE, a warning for any other payload, nothing
    without a payload. *)
Definition rejectEapTrace (msg : AuthenticationReject EapAttributes)
  : list (Action EapAttributes) :=
  match rej_eapMessage msg with
  | Some eap =>
      match eap_code eap with
      | FAILURE => [Log LDebug "Handling EAP-failure"]
      | _ => [Log LWarn "Network sent EAP with inconvenient type in AuthenticationReject, ignoring EAP IE."]
      end
  | None => []
  end.

(** The EAP-AKA' packet sent on an invalid AT_KDF or AT_KDF_INPUT. *)
Definition akaAuthenticationReject (id : Z) : Eap EapAttributes :=
  EapAkaPrime RESPONSE id AKA_AUTHENTICATION_REJECT (emptyAttributes env).

(** An EAP-AKA' request passes the checks that precede the test of AT_KDF:
    a current PLMN is known, the packet is an AKA-Challenge, and AT_RAND,
    AT_AUTN and AT_MAC are 16 octets each. *)
Definition passesChecksEapAkaPrime (st : State) (msg : AuthenticationRequest EapAttributes)
    (code : ECode) (id : Z) (attributes : EapAttributes) : Prop :=
  hasValue env (currentPlmn st) = true
  /\ eapMessage msg = Some (EapAkaPrime code id AKA_CHALLENGE attributes)
  /\ List.length (getRand env attributes) = 16%nat
  /\ List.length (getAutn env attributes) = 16%nat
  /\ List.length (getMac env attributes) = 16%nat.

(** The state [sendEapFailure] leaves. *)
Definition afterSendEapFailure (eap : Eap EapAttributes) (st : State) : State :=
  record (SendNasMessage (AuthenticationResponse None (Some eap)))
    (record (TimerStop T3516)
       (with_timers (set_running T3516 false)
          (with_usim (set_resStar []) (with_usim (set_rand []) st)))).

(** The authentication events the NAS task delivers, one at a time, and
    their handling in sequence. *)
Inductive AuthEvent :=
| RequestReceived (msg : AuthenticationRequest EapAttributes)
| ResultReceived (msg : AuthenticationResult EapAttributes)
| RejectReceived (msg : AuthenticationReject EapAttributes).

Definition handle (ev : AuthEvent) : M SqnManager EapAttributes TlsSession unit :=
  match ev with
  | RequestReceived msg => receiveAuthenticationRequest env msg
  | ResultReceived msg => receiveAuthenticationResult msg
  | RejectReceived msg => receiveAuthenticationReject msg
  end.

Fixpoint handleAll (evs : list AuthEvent) : M SqnManager EapAttributes TlsSession unit :=
  match evs with
  | [] => ret tt
  | ev :: evs' => bind (handle ev) (fun _ => handleAll evs')
  end.

(** A computation leaves an observation of the state as it was. *)
Definition keeps {X A : Type} (obs : State -> X)
    (m : M SqnManager EapAttributes TlsSession A) : Prop :=
  forall (st st' : State) (a : A), m st = Done a st' -> obs st' = obs st.

(** The NAS messages a state has seen sent. *)
Definition sent (st : State) : list (NasMessage EapAttributes) := sentMessages (trace st).

(** A computation leaves the failure counter alone; a computation sends no
    NAS message. *)
Definition preservesCounter {A : Type} (m : M SqnManager EapAttributes TlsSession A) : Prop :=
  keeps (fun st => m_nwConsecutiveAuthFailure st) m.

Definition silent {A : Type} (m : M SqnManager EapAttributes TlsSession A) : Prop :=
  keeps sent m.




(** *** Further observations *)

(** The messages a state has seen handed to the NAS transport, by
    [sendNasMessage] or by [sendMmStatus], most recent first. *)
Fixpoint emissions (tr : list (Action EapAttributes)) : list (Action EapAttributes) :=
  match tr with
  | [] => []
  | SendNasMessage msg :: tr' => SendNasMessage msg :: emissions tr'
  | SendMmStatus cause :: tr' => SendMmStatus cause :: emissions tr'
  | _ :: tr' => emissions tr'
  end.

Definition emitted (st : State) : list (Action EapAttributes) := emissions (trace st).

(** [n] calls of [networkFailingTheAuthCheck(true)] in a row, with their
    answers in the order of the calls. *)
Fixpoint checkRepeatedly (n : nat) : M SqnManager EapAttributes TlsSession (list bool) :=
  match n with
  | O => ret []
  | S n' =>
      bind (networkFailingTheAuthCheck true)
           (fun b => bind (checkRepeatedly n') (fun bs => ret (b :: bs)))
  end.

(** The state [receiveAuthenticationRequest] leaves when the USIM is
    invalid: two lines of log. *)
Definition afterIgnoredRequest (st : State) : State :=
  record (Log LWarn "Authentication request is ignored. USIM is invalid")
    (record (Log LDebug "Authentication Request received") st).

(** A computation hands nothing to the NAS transport. *)
Definition quiet {A : Type} (m : M SqnManager EapAttributes TlsSession A) : Prop :=
  keeps emitted m.

(** A computation hands at most one message to the NAS transport. *)
Definition emitsAtMostOnce {A : Type} (m : M SqnManager EapAttributes TlsSession A) : Prop :=
  forall (st st' : State) (a : A),
    m st = Done a st' ->
    emitted st' = emitted st \/ exists e : Action EapAttributes, emitted st' = e :: emitted st.

(** The volatile authentication state: the failure counter and the stored
    RAND and RES*. *)
Definition volatileAuth (st : State) : Z * OctetString * OctetString :=
  (m_nwConsecutiveAuthFailure st, m_rand (m_usim st), m_resStar (m_usim st)).

(** While the network is failing the checks no challenge is stored: a
    positive failure counter comes with an empty RAND and an empty RES*. *)
Definition noChallengeWhileFailing (st : State) : Prop :=
  0 < m_nwConsecutiveAuthFailure st ->
  m_rand (m_usim st) = [] /\ m_resStar (m_usim st) = [].

(** A computation ends with RAND and RES* cleared; ends with the failure
    counter at 0; carries [noChallengeWhileFailing] from the state it
    starts in to the state it leaves. *)
Definition clearsChallenge {A : Type} (m : M SqnManager EapAttributes TlsSession A) : Prop :=
  forall (st st' : State) (a : A),
    m st = Done a st' -> m_rand (m_usim st') = [] /\ m_resStar (m_usim st') = [].

Definition zeroesCounter {A : Type} (m : M SqnManager EapAttributes TlsSession A) : Prop :=
  forall (st st' : State) (a : A),
    m st = Done a st' -> m_nwConsecutiveAuthFailure st' = 0.

Definition maintains {A : Type} (m : M SqnManager EapAttributes TlsSession A) : Prop :=
  forall (st st' : State) (a : A),
    noChallengeWhileFailing st -> m st = Done a st' -> noChallengeWhileFailing st'.

(** The security context the 5G-AKA handler stages when it accepts a
    challenge in state [st], and the state it leaves. *)
Definition stagedContext5gAka (st : State) (msg : AuthenticationRequest EapAttributes)
    (plmn : Plmn) (rand : OctetString) : NasSecurityContext :=
  let sqn := getSqn env (m_sqnMng (m_usim st)) in
  let milenage := milenageOf (config st) sqn rand false in
  let snn := ConstructServingNetworkName env plmn in
  DeriveKeysSeafAmf env (config st) plmn
    (set_abba (req_abba msg)
       (set_kAusf
          (CalculateKAusfFor5gAka env (ck milenage) (ik milenage) snn (Xor sqn (ak milenage)))
          (set_ngKsi (ngKSI_ksi (ngKSI msg))
             (set_tsc (ngKSI_tsc (ngKSI msg)) newNasSecurityContext)))).

Definition resStar5gAka (st : State) (plmn : Plmn) (rand : OctetString) : OctetString :=
  let milenage := milenageOf (config st) (getSqn env (m_sqnMng (m_usim st))) rand false in
  CalculateResStar env (Concat (ck milenage) (ik milenage))
    (ConstructServingNetworkName env plmn) rand (res milenage).

Definition afterAccept5gAka (st : State) (msg : AuthenticationRequest EapAttributes)
    (plmn : Plmn) (rand : OctetString) : State :=
  record (SendNasMessage (AuthenticationResponse (Some (resStar5gAka st plmn rand)) None))
    (record (TimerStop T3520)
       (with_timers (set_running T3520 false)
          (set_nwConsecutiveAuthFailure 0
             (with_usim
                (fun u => set_nonCurrentNsCtx (Some (stagedContext5gAka st msg plmn rand))
                            (set_resStar (resStar5gAka st plmn rand) (set_rand rand u)))
                st)))).

(** The cause the 5G-AKA handler sends for a verdict of the AUTN check, and
    the parameter that goes with it: the AUTS on a synchronisation failure,
    computed by Milenage with a zero AMF at the SQN of the USIM. *)
Definition failureCause5gAka (r : EAutnValidationRes.t) : option EMmCause :=
  match r with
  | EAutnValidationRes.OK => None
  | EAutnValidationRes.MAC_FAILURE => Some MAC_FAILURE
  | EAutnValidationRes.SYNCHRONISATION_FAILURE => Some SYNCH_FAILURE
  | EAutnValidationRes.AMF_SEPARATION_BIT_FAILURE => Some NON_5G_AUTHENTICATION_UNACCEPTABLE
  end.

Definition resyncToken (st : State) (rand : OctetString) : OctetString :=
  let sqn := getSqn env (m_sqnMng (m_usim st)) in
  let milenage := milenageOf (config st) sqn rand true in
  CalculateAuts env sqn (ak_r milenage) (mac_s milenage).

Definition failureParameter5gAka (r : EAutnValidationRes.t) (st : State) (rand : OctetString)
  : option OctetString :=
  match r with
  | EAutnValidationRes.SYNCHRONISATION_FAILURE => Some (resyncToken st rand)
  | _ => None
  end.

(** An EAP-AKA' request passes every check that precedes the validation of
    the AUTN: the envelope checks, AT_KDF = 1, AT_KDF_INPUT equal to the
    serving network name, a native, available ngKSI that is not in use. *)
Definition reachesAutnEapAkaPrime (st : State) (msg : AuthenticationRequest EapAttributes)
    (code : ECode) (id : Z) (attributes : EapAttributes) : Prop :=
  passesChecksEapAkaPrime st msg code id attributes
  /\ getKdf env attributes = 1
  /\ getKdfInput env attributes = FromAscii (ConstructServingNetworkName env (currentPlmn st))
  /\ ngKSI_tsc (ngKSI msg) <> MAPPED_SECURITY_CONTEXT
  /\ ngKSI_ksi (ngKSI msg) <> NOT_AVAILABLE_OR_RESERVED
  /\ ~ ngKsiCollides st (ngKSI_ksi (ngKSI msg)).

(** The master key MK the EAP-AKA' handler derives in state [st] for a RAND
    and a SUPI, the key KAUT cut from it, and the AT_MAC it expects on the
    received packet. *)
Definition masterKeyEapAkaPrime (st : State) (plmn : Plmn) (rand : OctetString)
    (supi' : string) : OctetString :=
  let sqn := getSqn env (m_sqnMng (m_usim st)) in
  let milenage := milenageOf (config st) sqn rand false in
  let snn := ConstructServingNetworkName env plmn in
  let ckPrimeIkPrime :=
    CalculateCkPrimeIkPrime env (ck milenage) (ik milenage) snn (Xor sqn (ak milenage)) in
  CalculateMk env (fst ckPrimeIkPrime) (snd ckPrimeIkPrime) supi'.

Definition kautEapAkaPrime (st : State) (plmn : Plmn) (rand : OctetString)
    (supi' : string) : OctetString :=
  subCopy (masterKeyEapAkaPrime st plmn rand supi') 16 32.

Definition expectedMacEapAkaPrime (st : State) (plmn : Plmn) (receivedEap : Eap EapAttributes)
    (rand : OctetString) (supi' : string) : OctetString :=
  CalculateMacForEapAkaPrime env (kautEapAkaPrime st plmn rand supi') receivedEap.

(** The AKA-Challenge response: AT_RES, a zero AT_MAC and AT_KDF = 1 are
    put, the MAC of that packet is computed with KAUT and replaces the zero
    AT_MAC. *)
Definition akaChallengeResponse (id : Z) (res' kaut : OctetString) : Eap EapAttributes :=
  let attrs :=
    putKdf env 1 (putMac env (FromSpare 16) (putRes env res' (emptyAttributes env))) in
  EapAkaPrime RESPONSE id AKA_CHALLENGE
    (replaceMac env
       (CalculateMacForEapAkaPrime env kaut (EapAkaPrime RESPONSE id AKA_CHALLENGE attrs))
       attrs).

(** The context the EAP-AKA' handler stages: KAUSF is cut from MK. *)
Definition stagedContextEapAkaPrime (st : State) (msg : AuthenticationRequest EapAttributes)
    (plmn : Plmn) (rand : OctetString) (supi' : string) : NasSecurityContext :=
  DeriveKeysSeafAmf env (config st) plmn
    (set_abba (req_abba msg)
       (set_kAusf (CalculateKAusfForEapAkaPrime env (masterKeyEapAkaPrime st plmn rand supi'))
          (set_ngKsi (ngKSI_ksi (ngKSI msg))
             (set_tsc (ngKSI_tsc (ngKSI msg)) newNasSecurityContext)))).

(** The EAP-AKA' packet sent for a verdict of the AUTN check other than OK. *)
Definition failureResponseEapAkaPrime (r : EAutnValidationRes.t) (st : State) (id : Z)
    (rand : OctetString) : option (Eap EapAttributes) :=
  match r with
  | EAutnValidationRes.OK => None
  | EAutnValidationRes.MAC_FAILURE => Some (akaAuthenticationReject id)
  | EAutnValidationRes.SYNCHRONISATION_FAILURE =>
      Some (EapAkaPrime RESPONSE id AKA_SYNCHRONIZATION_FAILURE
              (putAuts env (resyncToken st rand) (emptyAttributes env)))
  | EAutnValidationRes.AMF_SEPARATION_BIT_FAILURE =>
      Some (EapAkaPrime RESPONSE id AKA_CLIENT_ERROR
              (putClientErrorCode env 0 (emptyAttributes env)))
  end.

(** The ngKSI of a request names a native context and is not the reserved
    value. *)
Definition validNgKsi (msg : AuthenticationRequest EapAttributes) : Prop :=
  ngKSI_tsc (ngKSI msg) <> MAPPED_SECURITY_CONTEXT
  /\ ngKSI_ksi (ngKSI msg) <> NOT_AVAILABLE_OR_RESERVED.

(** An EAP message the EAP handler refuses with an MM Status: neither
    EAP-AKA' nor EAP-TLS; or EAP-AKA' with a subtype other than
    AKA-Challenge, or with an AT_RAND, AT_AUTN or AT_MAC that is not 16
    octets long; or, with a valid ngKSI, the first EAP-TLS packet of a
    session without the Start flag. *)
Definition refusedEap (st : State) (msg : AuthenticationRequest EapAttributes)
    (eap : Eap EapAttributes) : Prop :=
  match eap with
  | EapAkaPrime _ _ subType attributes =>
      subType <> AKA_CHALLENGE
      \/ List.length (getRand env attributes) <> 16%nat
      \/ List.length (getAutn env attributes) <> 16%nat
      \/ List.length (getMac env attributes) <> 16%nat
  | EapTLS _ _ flag _ =>
      validNgKsi msg /\ m_tlsState st = TLS_START /\ Z.land flag 32 = 0
  | EapOther _ _ => True
  end.

(** The state an EAP-TLS packet leaves before the handshake is driven: the
    received TLS data is fed to the session. *)
Definition afterTlsFeed (st : State) (tlsData : OctetString) : State :=
  set_tls (tlsFeed env (m_tls st) tlsData) st.

(** The result of one handshake step in a state, and the state it leaves. *)
Definition handshakeResult (st : State) : Z := fst (SSL_do_handshake env (m_tls st)).
Definition afterHandshake (st : State) : State :=
  set_tls (snd (SSL_do_handshake env (m_tls st))) st.

(** The context the EAP-TLS branch stages from the exported key material. *)
Definition stagedContextEapTls (cfg : UeConfig) (msg : AuthenticationRequest EapAttributes)
    (plmn : Plmn) (keyMaterial : OctetString) : NasSecurityContext :=
  DeriveKeysSeafAmf env cfg plmn
    (set_abba (req_abba msg)
       (set_kAusf (subCopy keyMaterial 64 32)
          (set_ngKsi (ngKSI_ksi (ngKSI msg))
             (set_tsc (ngKSI_tsc (ngKSI msg)) newNasSecurityContext)))).

(** The EAP-TLS states in the order the handler moves through them. *)
Definition tlsRank (s : ETlsState) : Z :=
  match s with
  | TLS_START => 0
  | TLS_HANDSHAKE => 1
  | TLS_DONE => 2
  end.

(** A computation never moves the EAP-TLS state backwards. *)
Definition advancesTls {A : Type} (m : M SqnManager EapAttributes TlsSession A) : Prop :=
  forall (st st' : State) (a : A),
    m st = Done a st' -> tlsRank (m_tlsState st) <= tlsRank (m_tlsState st').

(** An EAP request arrives at the check of the ngKSI: an EAP-TLS packet, or
    a well-formed AKA-Challenge with AT_KDF = 1 and the serving network
    name as AT_KDF_INPUT. *)
Definition reachesNgKsiCheckEap (st : State) (msg : AuthenticationRequest EapAttributes) : Prop :=
  hasValue env (currentPlmn st) = true
  /\ match eapMessage msg with
     | Some (EapAkaPrime _ _ subType attributes) =>
         subType = AKA_CHALLENGE
         /\ List.length (getRand env attributes) = 16%nat
         /\ List.length (getAutn env attributes) = 16%nat
         /\ List.length (getMac env attributes) = 16%nat
         /\ getKdf env attributes = 1
         /\ getKdfInput env attributes
            = FromAscii (ConstructServingNetworkName env (currentPlmn st))
     | Some (EapTLS _ _ _ _) => True
     | _ => False
     end.

(** What the password prompt of a key asks for: a prompt or a verification
    string whose flags have the default-password bit. *)
Definition asksDefaultPassword (UIT_PROMPT UIT_VERIFY UI_INPUT_FLAG_DEFAULT_PWD : Z)
    (uis : UI_STRING) : Prop :=
  (UI_get_string_type uis = UIT_PROMPT \/ UI_get_string_type uis = UIT_VERIFY)
  /\ Z.land (UI_get_input_flags uis) UI_INPUT_FLAG_DEFAULT_PWD <> 0.

End Observations.

(** ** Properties *)

Section Properties.

Variables (SqnManager EapAttributes TlsSession : Type).
Variable env : Collaborators SqnManager EapAttributes TlsSession.

Local Abbreviation State := (UeState SqnManager EapAttributes TlsSession).

Lemma bind_Done {A B : Type} (m : M SqnManager EapAttributes TlsSession A)
    (k : A -> M SqnManager EapAttributes TlsSession B) (st st' : State) (a : A) :
  m st = Done a st' -> bind m k st = k a st'.
Proof. intros H. unfold bind. rewrite H. reflexivity. Qed.

Lemma networkFailingTheAuthCheck_eq (hasChance : bool) (st : State) :
  networkFailingTheAuthCheck hasChance st =
  if hasChance
  then if m_nwConsecutiveAuthFailure st <? 3
       then Done false (set_nwConsecutiveAuthFailure (m_nwConsecutiveAuthFailure st + 1) st)
       else Done true (afterTrip (set_nwConsecutiveAuthFailure (m_nwConsecutiveAuthFailure st + 1) st))
  else Done true (afterTrip st).
Proof.
  unfold networkFailingTheAuthCheck, afterTrip, bind.
  destruct hasChance; cbn.
  - destruct (m_nwConsecutiveAuthFailure st <? 3); cbn; [reflexivity|].
    destruct (m_cmState st); reflexivity.
  - destruct (m_cmState st); reflexivity.
Qed.

(** C5.  Every invocation of [networkFailingTheAuthCheck(true)] while
    [m_nwConsecutiveAuthFailure < 3] increments the counter by exactly one,
    changes nothing else and returns [false].  In every other case
    ([hasChance] false, or the counter at 3 or above) the function logs,
    requests the local release of the connection exactly when the CM state
    is CM-CONNECTED, stops T3520 and returns [true]; it sends no NAS
    message, and a caller guarded by [if (networkFailingTheAuthCheck(true))
    return;] ends in the state the function left, whatever the rest [k] of
    the caller would have done.  (On a trip with [hasChance] the counter has
    been incremented as well.) *)
Theorem networkFailingTheAuthCheck_spec (st : State) :
  (m_nwConsecutiveAuthFailure st < 3 ->
   networkFailingTheAuthCheck true st =
     Done false (set_nwConsecutiveAuthFailure (m_nwConsecutiveAuthFailure st + 1) st)
   /\ m_nwConsecutiveAuthFailure
        (set_nwConsecutiveAuthFailure (m_nwConsecutiveAuthFailure st + 1) st)
      = m_nwConsecutiveAuthFailure st + 1)
  /\
  (forall hasChance : bool,
     hasChance = false \/ 3 <= m_nwConsecutiveAuthFailure st ->
     exists st' : State,
       networkFailingTheAuthCheck hasChance st = Done true st'
       /\ running (m_timers st') T3520 = false
       /\ trace st' =
            TimerStop T3520
            :: match m_cmState st with
               | CM_CONNECTED => [LocalReleaseConnection true]
               | CM_IDLE => []
               end
            ++ Log LErr "Network failing the authentication check" :: trace st
       /\ m_usim st' = m_usim st
       /\ m_nwConsecutiveAuthFailure st' =
          (if hasChance then m_nwConsecutiveAuthFailure st + 1
           else m_nwConsecutiveAuthFailure st)
       /\ (hasChance = true -> forall k, guardedByAuthCheck k st = Done tt st')).
Proof.
  split.
  - intros Hlt. rewrite networkFailingTheAuthCheck_eq.
    apply Z.ltb_lt in Hlt. rewrite Hlt. split; reflexivity.
  - intros hasChance Hcase.
    assert (Heq : networkFailingTheAuthCheck hasChance st =
                  Done true (afterTrip (if hasChance
                                        then set_nwConsecutiveAuthFailure
                                               (m_nwConsecutiveAuthFailure st + 1) st
                                        else st))).
    { rewrite networkFailingTheAuthCheck_eq. destruct hasChance; [|reflexivity].
      destruct Hcase as [Hf | Hge]; [discriminate|].
      apply Z.ltb_ge in Hge. rewrite Hge. reflexivity. }
    eexists. split; [exact Heq|].
    split; [|split; [|split; [|split]]].
    + unfold afterTrip. destruct hasChance; reflexivity.
    + unfold afterTrip, set_nwConsecutiveAuthFailure.
      destruct hasChance; cbn; destruct (m_cmState st); reflexivity.
    + unfold afterTrip, set_nwConsecutiveAuthFailure.
      destruct hasChance; cbn; destruct (m_cmState st); reflexivity.
    + unfold afterTrip, set_nwConsecutiveAuthFailure.
      destruct hasChance; cbn; destruct (m_cmState st); reflexivity.
    + intros -> k. unfold guardedByAuthCheck, bind. rewrite Heq. reflexivity.
Qed.

Lemma calculateMilenage_eq (sqn rand : OctetString) (dummyAmf : bool) (st : State) :
  calculateMilenage env sqn rand dummyAmf st = Done (milenageOf env (config st) sqn rand dummyAmf) st.
Proof.
  unfold calculateMilenage, milenageOf, bind, gets, ret.
  destruct (opType (config st)); reflexivity.
Qed.

Lemma bind_calculateMilenage {B : Type} (sqn rand : OctetString) (dummyAmf : bool)
    (k : Milenage -> M SqnManager EapAttributes TlsSession B) (st : State) :
  bind (calculateMilenage env sqn rand dummyAmf) k st =
  k (milenageOf env (config st) sqn rand dummyAmf) st.
Proof. apply bind_Done, calculateMilenage_eq. Qed.

Lemma bind_sqnMng_checkSqn {B : Type} (sqn : OctetString)
    (k : bool -> M SqnManager EapAttributes TlsSession B) (st : State) :
  bind (sqnMng_checkSqn env sqn) k st =
  k (fst (checkSqn env (m_sqnMng (m_usim st)) sqn))
    (with_usim (set_sqnMng (snd (checkSqn env (m_sqnMng (m_usim st)) sqn))) st).
Proof.
  unfold bind, sqnMng_checkSqn.
  destruct (checkSqn env (m_sqnMng (m_usim st)) sqn); reflexivity.
Qed.

Lemma validateAutn_eq (st : State) (rand autn : OctetString) :
  validateAutn env rand autn st =
  if bit (get (subCopy autn 6 2) 0) 7
  then Done (validateAutnResult env st rand autn) (afterValidateAutn env st rand autn)
  else Done EAutnValidationRes.AMF_SEPARATION_BIT_FAILURE
            (record (Log LErr "AUTN validation SEP-BIT failure. expected: 1, received: 0") st).
Proof.
  unfold validateAutn, validateAutnResult, afterValidateAutn, recomputedMacA, sqnAcceptable,
    receivedSQNOf.
  destruct (bit (get (subCopy autn 6 2) 0) 7); cbn; [|reflexivity].
  rewrite bind_calculateMilenage. cbn.
  rewrite bind_sqnMng_checkSqn. cbn.
  rewrite bind_calculateMilenage. cbn.
  destruct (octets_eq_dec _ _); [destruct (fst _)|]; reflexivity.
Qed.

(** C2.  For a 16-octet RAND and a 16-octet AUTN whose AMF separation bit is
    set, [validateAutn] returns: MAC_FAILURE when the MAC-A that Milenage
    recomputes with the received SQN differs from the received MAC, whether
    or not the SQN manager accepted the received SQN; SYNCHRONISATION_FAILURE
    when the MAC matches and the SQN was not accepted; OK when the MAC
    matches and the SQN was accepted. *)
Theorem validateAutn_mac_before_sqn (st : State) (rand autn : OctetString) :
  List.length rand = 16%nat ->
  List.length autn = 16%nat ->
  bit (get (subCopy autn 6 2) 0) 7 = true ->
  exists (r : EAutnValidationRes.t) (st' : State),
    validateAutn env rand autn st = Done r st'
    /\ (subCopy autn 8 8 <> recomputedMacA env st rand autn ->
        r = EAutnValidationRes.MAC_FAILURE)
    /\ (subCopy autn 8 8 = recomputedMacA env st rand autn ->
        sqnAcceptable env st rand autn = false ->
        r = EAutnValidationRes.SYNCHRONISATION_FAILURE)
    /\ (subCopy autn 8 8 = recomputedMacA env st rand autn ->
        sqnAcceptable env st rand autn = true ->
        r = EAutnValidationRes.OK).
Proof.
  intros _ _ Hsep.
  exists (validateAutnResult env st rand autn), (afterValidateAutn env st rand autn).
  rewrite validateAutn_eq, Hsep.
  unfold validateAutnResult.
  split; [reflexivity|].
  destruct (octets_eq_dec (subCopy autn 8 8) (recomputedMacA env st rand autn)) as [Heq | Hne].
  - split; [intros Hc; contradiction|].
    split; intros _ Hok; rewrite Hok; reflexivity.
  - split; [reflexivity|].
    split; intros Hc; contradiction.
Qed.

Lemma bind_validateAutn {B : Type} (rand autn : OctetString)
    (k : EAutnValidationRes.t -> M SqnManager EapAttributes TlsSession B) (st : State) :
  bind (validateAutn env rand autn) k st =
  if bit (get (subCopy autn 6 2) 0) 7
  then k (validateAutnResult env st rand autn) (afterValidateAutn env st rand autn)
  else k EAutnValidationRes.AMF_SEPARATION_BIT_FAILURE
         (record (Log LErr "AUTN validation SEP-BIT failure. expected: 1, received: 0") st).
Proof.
  unfold bind. rewrite validateAutn_eq.
  destruct (bit (get (subCopy autn 6 2) 0) 7); reflexivity.
Qed.

Lemma bind_networkFailingTheAuthCheck {B : Type}
    (k : bool -> M SqnManager EapAttributes TlsSession B) (st : State) :
  bind (networkFailingTheAuthCheck true) k st =
  if m_nwConsecutiveAuthFailure st <? 3
  then k false (set_nwConsecutiveAuthFailure (m_nwConsecutiveAuthFailure st + 1) st)
  else k true (afterTrip (set_nwConsecutiveAuthFailure (m_nwConsecutiveAuthFailure st + 1) st)).
Proof.
  unfold bind. rewrite networkFailingTheAuthCheck_eq.
  destruct (m_nwConsecutiveAuthFailure st <? 3); reflexivity.
Qed.

Lemma autnCheck5gAka_eq (rand autn : OctetString) (st : State) :
  autnCheck5gAka env rand autn st =
  Done (autnVerdict5gAka env st rand autn) (afterAutnCheck5gAka env st rand autn).
Proof.
  unfold autnCheck5gAka, autnVerdict5gAka, afterAutnCheck5gAka. cbn.
  destruct (octets_eq_dec (m_rand (m_usim st)) rand); [reflexivity|].
  rewrite bind_validateAutn.
  destruct (bit (get (subCopy autn 6 2) 0) 7); reflexivity.
Qed.

Lemma ngKsiInUse_false (st : State) (ksi : Z) :
  ~ ngKsiCollides st ksi -> ngKsiInUse (m_usim st) ksi = false.
Proof.
  intros Hno. unfold ngKsiInUse.
  apply orb_false_iff. split.
  - destruct (m_currentNsCtx (m_usim st)) as [ctx|] eqn:Hc; [|reflexivity].
    apply Z.eqb_neq. intros Heq. apply Hno. exists ctx. auto.
  - destruct (m_nonCurrentNsCtx (m_usim st)) as [ctx|] eqn:Hc; [|reflexivity].
    apply Z.eqb_neq. intros Heq. apply Hno. exists ctx. auto.
Qed.

Lemma ngKsiInUse_true (st : State) (ksi : Z) :
  ngKsiCollides st ksi -> ngKsiInUse (m_usim st) ksi = true.
Proof.
  intros [ctx [[Hc | Hc] Heq]]; unfold ngKsiInUse; rewrite Hc.
  - apply Z.eqb_eq in Heq. rewrite Heq. reflexivity.
  - apply Z.eqb_eq in Heq. rewrite Heq. apply orb_true_r.
Qed.

(** A request that passes the checks reaches the AUTN stage and the dispatch
    on its verdict. *)
Lemma receiveAuthenticationRequest5gAka_passes (st : State)
    (msg : AuthenticationRequest EapAttributes) (rand autn : OctetString) :
  passesChecks5gAka env st msg rand autn ->
  receiveAuthenticationRequest5gAka env msg st =
  dispatch5gAka env msg (currentPlmn st) rand (autnVerdict5gAka env st rand autn)
    (afterAutnCheck5gAka env st rand autn).
Proof.
  intros (Hplmn & (Hrand & Hautn & Hlr & Hla) & Htsc & Hksi & Hcol).
  unfold receiveAuthenticationRequest5gAka. cbn.
  rewrite Hplmn, Hrand, Hautn, Hlr, Hla. cbn.
  destruct (ngKSI_tsc (ngKSI msg)); [|contradiction].
  apply Z.eqb_neq in Hksi. rewrite Hksi. cbn.
  rewrite (ngKsiInUse_false Hcol).
  apply bind_Done, autnCheck5gAka_eq.
Qed.

Lemma sentMessages_afterAutnCheck5gAka (st : State) (rand autn : OctetString) :
  sentMessages (trace (afterAutnCheck5gAka env st rand autn)) = sentMessages (trace st).
Proof.
  unfold afterAutnCheck5gAka, afterValidateAutn.
  destruct (octets_eq_dec (m_rand (m_usim st)) rand); [reflexivity|].
  destruct (bit (get (subCopy autn 6 2) 0) 7); [|reflexivity].
  destruct (octets_eq_dec _ _); reflexivity.
Qed.

Lemma config_afterAutnCheck5gAka (st : State) (rand autn : OctetString) :
  config (afterAutnCheck5gAka env st rand autn) = config st.
Proof.
  unfold afterAutnCheck5gAka, afterValidateAutn.
  destruct (octets_eq_dec (m_rand (m_usim st)) rand); [reflexivity|].
  destruct (bit (get (subCopy autn 6 2) 0) 7); [|reflexivity].
  destruct (octets_eq_dec _ _); reflexivity.
Qed.

(** C1.  A 5G-AKA Authentication Request that passes the syntactic and the
    ngKSI checks and whose AUTN stage yields OK (leaving the state [st1]) is
    accepted: the handler returns, having stored the received RAND and
    RES* = CalculateResStar(CK||IK, SNN, RAND, RES); the non-current NAS
    security context is a new one, built from nothing but the message and
    the derived keys, with the ngKSI and TSC of the message, KAUSF from
    CalculateKAusfFor5gAka and the ABBA of the message; the failure counter
    is 0; T3520 is stopped; and the only NAS message sent is one
    Authentication Response whose parameter is the stored RES*. *)
Theorem receiveAuthenticationRequest5gAka_accepts (st st1 : State)
    (msg : AuthenticationRequest EapAttributes) (rand autn : OctetString) :
  passesChecks5gAka env st msg rand autn ->
  autnCheck5gAka env rand autn st = Done EAutnValidationRes.OK st1 ->
  let sqn := getSqn env (m_sqnMng (m_usim st1)) in
  let milenage := milenageOf env (config st) sqn rand false in
  let snn := ConstructServingNetworkName env (currentPlmn st) in
  let resStar :=
    CalculateResStar env (Concat (ck milenage) (ik milenage)) snn rand (res milenage) in
  let kausf :=
    CalculateKAusfFor5gAka env (ck milenage) (ik milenage) snn (Xor sqn (ak milenage)) in
  exists (st' : State) (ctx : NasSecurityContext),
    receiveAuthenticationRequest5gAka env msg st = Done tt st'
    /\ m_rand (m_usim st') = rand
    /\ m_resStar (m_usim st') = resStar
    /\ m_nonCurrentNsCtx (m_usim st') = Some ctx
    /\ ctx = DeriveKeysSeafAmf env (config st) (currentPlmn st)
               (set_abba (req_abba msg)
                  (set_kAusf kausf
                     (set_ngKsi (ngKSI_ksi (ngKSI msg))
                        (set_tsc (ngKSI_tsc (ngKSI msg)) newNasSecurityContext))))
    /\ ngKsi ctx = ngKSI_ksi (ngKSI msg)
    /\ tsc ctx = ngKSI_tsc (ngKSI msg)
    /\ kAusf (keys ctx) = kausf
    /\ abba (keys ctx) = req_abba msg
    /\ m_nwConsecutiveAuthFailure st' = 0
    /\ running (m_timers st') T3520 = false
    /\ trace st' =
         SendNasMessage (AuthenticationResponse (Some (m_resStar (m_usim st'))) None)
         :: TimerStop T3520 :: trace st1
    /\ sentMessages (trace st') =
         AuthenticationResponse (Some resStar) None :: sentMessages (trace st).
Proof.
  intros Hpass Hok sqn milenage snn resStar kausf.
  rewrite autnCheck5gAka_eq in Hok. injection Hok as Hverdict Hst1.
  subst st1.
  rewrite (receiveAuthenticationRequest5gAka_passes Hpass), Hverdict.
  cbn [dispatch5gAka]. unfold acceptChallenge5gAka. cbn.
  rewrite bind_calculateMilenage. cbn.
  rewrite config_afterAutnCheck5gAka.
  eexists. eexists. split; [reflexivity|]. cbn.
  repeat (split; [reflexivity|]).
  rewrite sentMessages_afterAutnCheck5gAka. reflexivity.
Qed.

(** C6.  In the 5G-AKA handler, for a request that passes the syntactic and
    ngKSI checks: when the received RAND equals the stored RAND, the AUTN
    stage yields OK without touching the state (no [validateAutn], no call
    to the SQN manager, T3516 left as it was) and the handler goes on as for
    an accepted challenge, recomputing RES* from the received RAND; when the
    received RAND differs from the stored one, [validateAutn] is run on the
    received RAND and AUTN, T3516 is started after it, and the handler
    dispatches on the verdict of [validateAutn]. *)
Theorem receiveAuthenticationRequest5gAka_rand_bypass (st : State)
    (msg : AuthenticationRequest EapAttributes) (rand autn : OctetString) :
  passesChecks5gAka env st msg rand autn ->
  (m_rand (m_usim st) = rand ->
   autnCheck5gAka env rand autn st = Done EAutnValidationRes.OK st
   /\ receiveAuthenticationRequest5gAka env msg st =
      acceptChallenge5gAka env msg (currentPlmn st) rand st
   /\ exists st' : State,
        receiveAuthenticationRequest5gAka env msg st = Done tt st'
        /\ (let milenage :=
              milenageOf env (config st) (getSqn env (m_sqnMng (m_usim st))) rand false in
            m_resStar (m_usim st') =
            CalculateResStar env (Concat (ck milenage) (ik milenage))
              (ConstructServingNetworkName env (currentPlmn st)) rand (res milenage))
        /\ m_sqnMng (m_usim st') = m_sqnMng (m_usim st)
        /\ running (m_timers st') T3516 = running (m_timers st) T3516
        /\ trace st' =
             SendNasMessage (AuthenticationResponse (Some (m_resStar (m_usim st'))) None)
             :: TimerStop T3520 :: trace st)
  /\
  (m_rand (m_usim st) <> rand ->
   exists (r : EAutnValidationRes.t) (st1 : State),
     validateAutn env rand autn st = Done r st1
     /\ autnCheck5gAka env rand autn st = Done r (started T3516 st1)
     /\ running (m_timers (started T3516 st1)) T3516 = true
     /\ receiveAuthenticationRequest5gAka env msg st =
        dispatch5gAka env msg (currentPlmn st) rand r (started T3516 st1)).
Proof.
  intros Hpass.
  pose proof (receiveAuthenticationRequest5gAka_passes Hpass) as Hrun.
  split.
  - intros Hsame.
    assert (Hv : autnVerdict5gAka env st rand autn = EAutnValidationRes.OK).
    { unfold autnVerdict5gAka. destruct (octets_eq_dec _ _); [reflexivity|contradiction]. }
    assert (Hs : afterAutnCheck5gAka env st rand autn = st).
    { unfold afterAutnCheck5gAka. destruct (octets_eq_dec _ _); [reflexivity|contradiction]. }
    rewrite Hv, Hs in Hrun. cbn [dispatch5gAka] in Hrun.
    split; [rewrite autnCheck5gAka_eq, Hv, Hs; reflexivity|].
    split; [exact Hrun|].
    rewrite Hrun. unfold acceptChallenge5gAka. cbn.
    rewrite bind_calculateMilenage. cbn.
    eexists. split; [reflexivity|]. cbn.
    repeat (split; [reflexivity|]). reflexivity.
  - intros Hdiff.
    assert (Hv : autnVerdict5gAka env st rand autn =
                 if bit (get (subCopy autn 6 2) 0) 7 then validateAutnResult env st rand autn
                 else EAutnValidationRes.AMF_SEPARATION_BIT_FAILURE).
    { unfold autnVerdict5gAka. destruct (octets_eq_dec _ _); [contradiction|reflexivity]. }
    assert (Hs : afterAutnCheck5gAka env st rand autn =
                 started T3516
                   (if bit (get (subCopy autn 6 2) 0) 7 then afterValidateAutn env st rand autn
                    else record (Log LErr "AUTN validation SEP-BIT failure. expected: 1, received: 0") st)).
    { unfold afterAutnCheck5gAka. destruct (octets_eq_dec _ _); [contradiction|reflexivity]. }
    rewrite Hrun, autnCheck5gAka_eq, validateAutn_eq, Hv, Hs.
    destruct (bit (get (subCopy autn 6 2) 0) 7);
      eexists; eexists; (split; [reflexivity|]);
      (split; [reflexivity|]); (split; [reflexivity|]); reflexivity.
Qed.

Lemma sentMessages_afterSendFailure (cause : EMmCause) (auts : option OctetString) (st : State) :
  sentMessages (trace (afterSendFailure cause auts st)) =
  AuthenticationFailure cause auts :: sentMessages (trace st).
Proof.
  unfold afterSendFailure. cbn. destruct (EMmCause_eq_dec cause SYNCH_FAILURE); reflexivity.
Qed.

Lemma sendFailure_eq (cause : EMmCause) (auts : option OctetString) (st : State) :
  sendFailure cause auts st = Done tt (afterSendFailure cause auts st).
Proof.
  unfold sendFailure, afterSendFailure.
  destruct (EMmCause_eq_dec cause SYNCH_FAILURE); reflexivity.
Qed.

(** C7.  In the 5G-AKA handler, with a current PLMN known, the checks are
    made in this order.  (1) RAND or AUTN absent or not 16 octets long: the
    handler sends Authentication Failure with cause
    SEMANTICALLY_INCORRECT_MESSAGE and returns.  (2) Otherwise, ngKSI with a
    mapped TSC, or with KSI 0b111: it sends cause UNSPECIFIED_PROTOCOL_ERROR
    and returns.  (3) Otherwise, KSI equal to the ngKSI of the current or of
    the non-current security context: it calls
    [networkFailingTheAuthCheck(true)]; unless that trips, it starts T3520
    and sends cause NGKSI_ALREADY_IN_USE; when it trips, nothing is sent. *)
Theorem receiveAuthenticationRequest5gAka_checks (st : State)
    (msg : AuthenticationRequest EapAttributes) :
  hasValue env (currentPlmn st) = true ->
  (malformedChallenge msg ->
   receiveAuthenticationRequest5gAka env msg st =
     Done tt (afterSendFailure SEMANTICALLY_INCORRECT_MESSAGE None st)
   /\ sentMessages (trace (afterSendFailure SEMANTICALLY_INCORRECT_MESSAGE None st)) =
      AuthenticationFailure SEMANTICALLY_INCORRECT_MESSAGE None :: sentMessages (trace st))
  /\
  (forall rand autn : OctetString,
     wellFormedChallenge msg rand autn ->
     ngKSI_tsc (ngKSI msg) = MAPPED_SECURITY_CONTEXT
     \/ ngKSI_ksi (ngKSI msg) = NOT_AVAILABLE_OR_RESERVED ->
     exists text : string,
       receiveAuthenticationRequest5gAka env msg st =
         Done tt (afterSendFailure UNSPECIFIED_PROTOCOL_ERROR None (record (Log LErr text) st))
       /\ sentMessages
            (trace (afterSendFailure UNSPECIFIED_PROTOCOL_ERROR None (record (Log LErr text) st))) =
          AuthenticationFailure UNSPECIFIED_PROTOCOL_ERROR None :: sentMessages (trace st))
  /\
  (forall rand autn : OctetString,
     wellFormedChallenge msg rand autn ->
     ngKSI_tsc (ngKSI msg) <> MAPPED_SECURITY_CONTEXT ->
     ngKSI_ksi (ngKSI msg) <> NOT_AVAILABLE_OR_RESERVED ->
     ngKsiCollides st (ngKSI_ksi (ngKSI msg)) ->
     receiveAuthenticationRequest5gAka env msg st =
       guardedByAuthCheck
         (bind (timerStart T3520) (fun _ => sendFailure NGKSI_ALREADY_IN_USE None)) st
     /\ (m_nwConsecutiveAuthFailure st < 3 ->
         let st' := afterSendFailure NGKSI_ALREADY_IN_USE None
                      (started T3520
                         (set_nwConsecutiveAuthFailure (m_nwConsecutiveAuthFailure st + 1) st)) in
         receiveAuthenticationRequest5gAka env msg st = Done tt st'
         /\ running (m_timers st') T3520 = true
         /\ sentMessages (trace st') =
            AuthenticationFailure NGKSI_ALREADY_IN_USE None :: sentMessages (trace st))
     /\ (3 <= m_nwConsecutiveAuthFailure st ->
         let st' := afterTrip
                      (set_nwConsecutiveAuthFailure (m_nwConsecutiveAuthFailure st + 1) st) in
         receiveAuthenticationRequest5gAka env msg st = Done tt st'
         /\ sentMessages (trace st') = sentMessages (trace st))).
Proof.
  intros Hplmn.
  split; [|split].
  - intros Hbad. split; [|apply sentMessages_afterSendFailure].
    unfold receiveAuthenticationRequest5gAka, malformedChallenge in *. cbn.
    rewrite Hplmn. cbn.
    destruct (authParamRAND msg) as [rand|]; [|apply sendFailure_eq].
    destruct (authParamAUTN msg) as [autn|]; [|apply sendFailure_eq].
    assert (Hlen : negb (List.length rand =? 16)%nat || negb (List.length autn =? 16)%nat = true).
    { apply orb_true_iff.
      destruct Hbad as [H | H]; [left | right]; apply negb_true_iff, Nat.eqb_neq, H. }
    rewrite Hlen. apply sendFailure_eq.
  - intros rand autn (Hrand & Hautn & Hlr & Hla) Hcase.
    unfold receiveAuthenticationRequest5gAka. cbn.
    rewrite Hplmn, Hrand, Hautn, Hlr, Hla. cbn.
    destruct (ngKSI_tsc (ngKSI msg)) eqn:Htsc.
    + destruct Hcase as [Hc | Hc]; [discriminate|].
      rewrite Hc. cbn.
      eexists. split; [reflexivity|]. reflexivity.
    + eexists. split; [reflexivity|]. reflexivity.
  - intros rand autn (Hrand & Hautn & Hlr & Hla) Htsc Hksi Hcol.
    assert (Hrun : receiveAuthenticationRequest5gAka env msg st =
                   guardedByAuthCheck
                     (bind (timerStart T3520) (fun _ => sendFailure NGKSI_ALREADY_IN_USE None)) st).
    { unfold receiveAuthenticationRequest5gAka. cbn.
      rewrite Hplmn, Hrand, Hautn, Hlr, Hla. cbn.
      destruct (ngKSI_tsc (ngKSI msg)); [|contradiction].
      apply Z.eqb_neq in Hksi. rewrite Hksi. cbn.
      rewrite (ngKsiInUse_true Hcol). reflexivity. }
    split; [exact Hrun|].
    rewrite Hrun. unfold guardedByAuthCheck. rewrite bind_networkFailingTheAuthCheck.
    split.
    + intros Hlt. apply Z.ltb_lt in Hlt. rewrite Hlt. cbn.
      split; [reflexivity|]. split; reflexivity.
    + intros Hge. apply Z.ltb_ge in Hge. rewrite Hge. cbn.
      split; [reflexivity|].
      unfold afterTrip. cbn. destruct (m_cmState st); reflexivity.
Qed.

Lemma usim_afterAutnCheck5gAka (st : State) (rand autn : OctetString) :
  m_rand (m_usim (afterAutnCheck5gAka env st rand autn)) = m_rand (m_usim st)
  /\ m_resStar (m_usim (afterAutnCheck5gAka env st rand autn)) = m_resStar (m_usim st).
Proof.
  unfold afterAutnCheck5gAka, afterValidateAutn.
  destruct (octets_eq_dec (m_rand (m_usim st)) rand); [split; reflexivity|].
  destruct (bit (get (subCopy autn 6 2) 0) 7); [|split; reflexivity].
  destruct (octets_eq_dec _ _); split; reflexivity.
Qed.

(** Closes a goal [exists st', run = Done tt st' /\ (_ \/ failed /\ _ \/ _)] on
    a path that ends in [sendFailure]. *)
Ltac sent_failure :=
  eexists; split; [reflexivity|]; right; left;
  split; [eexists; eexists; reflexivity|cbn; auto].

(** The three ways the dispatch on the AUTN verdict can end. *)
Lemma dispatch5gAka_cases (msg : AuthenticationRequest EapAttributes) (plmn : Plmn)
    (rand : OctetString) (r : EAutnValidationRes.t) (st : State) :
  exists st' : State,
    dispatch5gAka env msg plmn rand r st = Done tt st'
    /\ (accepted5gAka st st'
        \/ (failed5gAka st st'
            /\ m_rand (m_usim st') = [] /\ m_resStar (m_usim st') = []
            /\ running (m_timers st') T3516 = false)
        \/ (silent5gAka st st'
            /\ m_rand (m_usim st') = m_rand (m_usim st)
            /\ m_resStar (m_usim st') = m_resStar (m_usim st)
            /\ running (m_timers st') T3516 = running (m_timers st) T3516
            /\ 3 <= m_nwConsecutiveAuthFailure st)).
Proof.
  destruct r; cbn [dispatch5gAka].
  - unfold acceptChallenge5gAka. cbn. rewrite bind_calculateMilenage. cbn.
    eexists. split; [reflexivity|]. left. eexists. reflexivity.
  - rewrite bind_networkFailingTheAuthCheck.
    destruct (m_nwConsecutiveAuthFailure st <? 3) eqn:Hc; cbn.
    + eexists. split; [reflexivity|]. right. left.
      split; [eexists; eexists; reflexivity|]. cbn. auto.
    + eexists. split; [reflexivity|]. right. right.
      apply Z.ltb_ge in Hc. unfold silent5gAka, afterTrip. cbn.
      destruct (m_cmState st); cbn; auto.
  - rewrite bind_networkFailingTheAuthCheck.
    destruct (m_nwConsecutiveAuthFailure st <? 3) eqn:Hc; cbn.
    + eexists. split; [reflexivity|]. right. left.
      split; [eexists; eexists; reflexivity|]. cbn. auto.
    + eexists. split; [reflexivity|]. right. right.
      apply Z.ltb_ge in Hc. unfold silent5gAka, afterTrip. cbn.
      destruct (m_cmState st); cbn; auto.
  - rewrite bind_networkFailingTheAuthCheck.
    destruct (m_nwConsecutiveAuthFailure st <? 3) eqn:Hc; cbn.
    + rewrite bind_calculateMilenage. cbn.
      eexists. split; [reflexivity|]. right. left.
      split; [eexists; eexists; reflexivity|]. cbn. auto.
    + eexists. split; [reflexivity|]. right. right.
      apply Z.ltb_ge in Hc. unfold silent5gAka, afterTrip. cbn.
      destruct (m_cmState st); cbn; auto.
Qed.

Lemma counter_afterAutnCheck5gAka (st : State) (rand autn : OctetString) :
  m_nwConsecutiveAuthFailure (afterAutnCheck5gAka env st rand autn) =
  m_nwConsecutiveAuthFailure st.
Proof.
  unfold afterAutnCheck5gAka, afterValidateAutn.
  destruct (octets_eq_dec (m_rand (m_usim st)) rand); [reflexivity|].
  destruct (bit (get (subCopy autn 6 2) 0) 7); [|reflexivity].
  destruct (octets_eq_dec _ _); reflexivity.
Qed.

Lemma t3516_afterAutnCheck5gAka (st : State) (rand autn : OctetString) :
  running (m_timers (afterAutnCheck5gAka env st rand autn)) T3516
    = running (m_timers st) T3516
  \/ running (m_timers (afterAutnCheck5gAka env st rand autn)) T3516 = true.
Proof.
  unfold afterAutnCheck5gAka.
  destruct (octets_eq_dec (m_rand (m_usim st)) rand); [left|right]; reflexivity.
Qed.

(** C3, as the code has it.  The 5G-AKA handler always returns, in one of
    three ways.  It accepts the challenge and sends an Authentication
    Response; or it sends exactly one Authentication Failure, and then RAND
    and RES* are cleared and T3516 is stopped when it returns; or it sends
    nothing, which happens only when no current PLMN is known or when
    [networkFailingTheAuthCheck(true)] returned [true] (counter at 3 or
    above), and then RAND and RES* are left as they were stored and T3516
    is left as it was or, when the AUTN was validated, running. *)
Theorem receiveAuthenticationRequest5gAka_failure_paths (st : State)
    (msg : AuthenticationRequest EapAttributes) :
  exists st' : State,
    receiveAuthenticationRequest5gAka env msg st = Done tt st'
    /\ (accepted5gAka st st'
        \/ (failed5gAka st st'
            /\ m_rand (m_usim st') = [] /\ m_resStar (m_usim st') = []
            /\ running (m_timers st') T3516 = false)
        \/ (silent5gAka st st'
            /\ m_rand (m_usim st') = m_rand (m_usim st)
            /\ m_resStar (m_usim st') = m_resStar (m_usim st)
            /\ (hasValue env (currentPlmn st) = false
                \/ 3 <= m_nwConsecutiveAuthFailure st)
            /\ (running (m_timers st') T3516 = running (m_timers st) T3516
                \/ running (m_timers st') T3516 = true))).
Proof.
  unfold receiveAuthenticationRequest5gAka. cbn.
  destruct (hasValue env (currentPlmn st)) eqn:Hplmn; cbn.
  2:{ exists st. split; [reflexivity|]. right. right. unfold silent5gAka.
      repeat match goal with |- _ /\ _ => split end; auto. }
  destruct (authParamRAND msg) as [rand|]; [|sent_failure].
  destruct (authParamAUTN msg) as [autn|]; [|sent_failure].
  destruct (negb (List.length rand =? 16)%nat || negb (List.length autn =? 16)%nat);
    [sent_failure|].
  destruct (ngKSI_tsc (ngKSI msg)); cbn; [|sent_failure].
  destruct (ngKSI_ksi (ngKSI msg) =? NOT_AVAILABLE_OR_RESERVED); cbn; [sent_failure|].
  destruct (ngKsiInUse (m_usim st) (ngKSI_ksi (ngKSI msg))).
  - rewrite bind_networkFailingTheAuthCheck.
    destruct (m_nwConsecutiveAuthFailure st <? 3) eqn:Hc; cbn; [sent_failure|].
    eexists. split; [reflexivity|]. right. right.
    apply Z.ltb_ge in Hc. unfold silent5gAka, afterTrip. cbn.
    destruct (m_cmState st); cbn;
      repeat match goal with |- _ /\ _ => split end; auto.
  - erewrite bind_Done; [|apply autnCheck5gAka_eq].
    destruct (dispatch5gAka_cases msg (currentPlmn st) rand
                (autnVerdict5gAka env st rand autn) (afterAutnCheck5gAka env st rand autn))
      as (st' & Hrun & Hcases).
    exists st'. split; [exact Hrun|].
    destruct (usim_afterAutnCheck5gAka st rand autn) as [Hr Hs].
    pose proof (sentMessages_afterAutnCheck5gAka st rand autn) as Hsent.
    unfold accepted5gAka, failed5gAka, silent5gAka in *.
    rewrite Hsent, Hr, Hs, counter_afterAutnCheck5gAka in Hcases.
    destruct Hcases as [Ha | [Hf | (Hq & Hr' & Hs' & Ht & Hc)]]; auto.
    right. right.
    repeat match goal with |- _ /\ _ => split end; auto.
    pose proof (t3516_afterAutnCheck5gAka st rand autn) as Ht'.
    cbn [running] in Ht, Ht'. rewrite Ht. exact Ht'.
Qed.

(** C8.  [receiveAuthenticationReject] always returns and, when it does,
    RAND and RES* are cleared, the update status is 5U3 ROAMING NOT ALLOWED,
    the stored 5G-GUTI, TAI list and last visited registered TAI are
    cleared, both NAS security contexts are deleted, the USIM is invalid,
    T3510, T3516, T3517, T3519 and T3521 are stopped and the MM sub-state is
    MM_DEREGISTERED_PS.  The calls it made are, in order: stop T3516, the
    handling of the EAP payload ([receiveEapFailureMessage] exactly when a
    payload with code FAILURE is present), the switch of the update status,
    the five timer stops and the switch of the MM state; no NAS message is
    sent. *)
Theorem receiveAuthenticationReject_spec (st : State)
    (msg : AuthenticationReject EapAttributes) :
  exists st' : State,
    receiveAuthenticationReject msg st = Done tt st'
    /\ m_rand (m_usim st') = [] /\ m_resStar (m_usim st') = []
    /\ m_uState st' = U3_ROAMING_NOT_ALLOWED
    /\ m_storage st' = {| storedGuti := None; lastVisitedRegisteredTai := None; taiList := [] |}
    /\ m_currentNsCtx (m_usim st') = None /\ m_nonCurrentNsCtx (m_usim st') = None
    /\ m_isValid (m_usim st') = false
    /\ (forall t : TimerId, t <> T3520 -> running (m_timers st') t = false)
    /\ running (m_timers st') T3520 = running (m_timers st) T3520
    /\ m_mmSubState st' = MM_DEREGISTERED_PS
    /\ trace st' =
         [SwitchMmState MM_DEREGISTERED_PS; TimerStop T3521; TimerStop T3519;
          TimerStop T3517; TimerStop T3516; TimerStop T3510;
          SwitchUState U3_ROAMING_NOT_ALLOWED]
         ++ rejectEapTrace msg
         ++ [TimerStop T3516; Log LErr "Authentication Reject received"]
         ++ trace st
    /\ (In (Log LDebug "Handling EAP-failure") (rejectEapTrace msg) <->
        exists eap, rej_eapMessage msg = Some eap /\ eap_code eap = FAILURE)
    /\ sentMessages (trace st') = sentMessages (trace st).
Proof.
  assert (Hiff : In (Log LDebug "Handling EAP-failure") (rejectEapTrace msg) <->
                 exists eap, rej_eapMessage msg = Some eap /\ eap_code eap = FAILURE).
  { unfold rejectEapTrace. destruct (rej_eapMessage msg) as [eap|].
    - destruct (eap_code eap) eqn:Hcode; cbn; split;
        try (intros [H | []]; discriminate H);
        try (intros (e & He & Hc); injection He as <-; congruence).
      + intros _. exists eap. auto.
      + intros _. auto.
    - cbn. split; [intros []|intros (e & He & _); discriminate]. }
  unfold receiveAuthenticationReject, rejectEapTrace in *. cbn.
  destruct (rej_eapMessage msg) as [eap|]; [destruct (eap_code eap)|]; cbn;
    (eexists; split; [reflexivity|]; cbn;
     repeat (split; [reflexivity|]);
     split; [intros [] Ht; (reflexivity || contradiction)|];
     repeat (split; [reflexivity|]);
     split; [exact Hiff|reflexivity]).
Qed.

Lemma receiveAuthenticationReject_reaches (st : State)
    (msg : AuthenticationReject EapAttributes) :
  exists st' : State,
    receiveAuthenticationReject msg st = Done tt st'
    /\ m_nonCurrentNsCtx (m_usim st') = None.
Proof.
  unfold receiveAuthenticationReject. cbn.
  destruct (rej_eapMessage msg) as [eap|]; [destruct (eap_code eap)|]; cbn;
    eexists; split; reflexivity.
Qed.

Lemma receiveAuthenticationResult_null (st : State)
    (msg : AuthenticationResult EapAttributes) (rawData : OctetString) :
  res_abba msg = Some rawData ->
  m_nonCurrentNsCtx (m_usim st) = None ->
  receiveAuthenticationResult msg st = Crash NullDereference.
Proof.
  intros Habba Hctx.
  unfold receiveAuthenticationResult, bind, nonCurrentNsCtx_assign.
  rewrite Habba, Hctx. reflexivity.
Qed.

(** C10.  [receiveAuthenticationResult] dereferences [m_nonCurrentNsCtx]
    without a test whenever the message carries an ABBA.  With an ABBA and no
    non-current security context staged, the run ends in the null
    dereference.  With an ABBA and a staged context the handler returns and
    the ABBA of that context has been overwritten (the context is then
    deleted if the EAP code is FAILURE).  Without an ABBA the handler
    returns whether or not a context is staged.  So the handler is well
    defined exactly when the message has no ABBA or a context is staged.
    The faulting state is reached by the handlers themselves: from any
    state, an Authentication Reject followed by an Authentication Result
    with an ABBA ends in the null dereference. *)
Theorem receiveAuthenticationResult_abba (st : State)
    (msg : AuthenticationResult EapAttributes) :
  (forall rawData : OctetString,
     res_abba msg = Some rawData ->
     m_nonCurrentNsCtx (m_usim st) = None ->
     receiveAuthenticationResult msg st = Crash NullDereference)
  /\
  (forall (rawData : OctetString) (ctx : NasSecurityContext),
     res_abba msg = Some rawData ->
     m_nonCurrentNsCtx (m_usim st) = Some ctx ->
     exists st' : State,
       receiveAuthenticationResult msg st = Done tt st'
       /\ m_nonCurrentNsCtx (m_usim st') =
          match eap_code (res_eapMessage msg) with
          | FAILURE => None
          | _ => Some (set_abba rawData ctx)
          end)
  /\
  (res_abba msg = None ->
   exists st' : State, receiveAuthenticationResult msg st = Done tt st')
  /\
  ((exists st' : State, receiveAuthenticationResult msg st = Done tt st') <->
   res_abba msg = None \/ m_nonCurrentNsCtx (m_usim st) <> None)
  /\
  (forall (rawData : OctetString) (reject : AuthenticationReject EapAttributes),
     res_abba msg = Some rawData ->
     handleAll env [RejectReceived reject; ResultReceived msg] st = Crash NullDereference).
Proof.
  assert (Hcrash : forall rawData : OctetString,
             res_abba msg = Some rawData ->
             m_nonCurrentNsCtx (m_usim st) = None ->
             receiveAuthenticationResult msg st = Crash NullDereference).
  { intros rawData. apply receiveAuthenticationResult_null. }
  assert (Hstaged : forall (rawData : OctetString) (ctx : NasSecurityContext),
             res_abba msg = Some rawData ->
             m_nonCurrentNsCtx (m_usim st) = Some ctx ->
             exists st' : State,
               receiveAuthenticationResult msg st = Done tt st'
               /\ m_nonCurrentNsCtx (m_usim st') =
                  match eap_code (res_eapMessage msg) with
                  | FAILURE => None
                  | _ => Some (set_abba rawData ctx)
                  end).
  { intros rawData ctx Habba Hctx.
    unfold receiveAuthenticationResult, bind, nonCurrentNsCtx_assign.
    rewrite Habba, Hctx.
    destruct (eap_code (res_eapMessage msg)); cbn; eexists; split; reflexivity. }
  assert (Hnone : res_abba msg = None ->
                  exists st' : State, receiveAuthenticationResult msg st = Done tt st').
  { intros Habba.
    unfold receiveAuthenticationResult, bind. rewrite Habba. cbn.
    destruct (eap_code (res_eapMessage msg)); cbn; eexists; reflexivity. }
  split; [exact Hcrash|]. split; [exact Hstaged|]. split; [exact Hnone|].
  split; [split|].
  - intros [st' Hrun].
    destruct (res_abba msg) as [rawData|] eqn:Habba; [|left; reflexivity].
    right. intros Hctx. rewrite (Hcrash rawData eq_refl Hctx) in Hrun. discriminate.
  - intros [Habba | Hctx]; [apply Hnone, Habba|].
    destruct (res_abba msg) as [rawData|] eqn:Habba; [|apply Hnone; reflexivity].
    destruct (m_nonCurrentNsCtx (m_usim st)) as [ctx|] eqn:Hc; [|contradiction].
    destruct (Hstaged rawData ctx eq_refl eq_refl) as (st' & Hrun & _).
    exists st'. exact Hrun.
  - intros rawData reject Habba.
    destruct (receiveAuthenticationReject_reaches st reject) as (st1 & Hrej & Hctx).
    cbn [handleAll handle]. unfold bind at 1. rewrite Hrej.
    unfold bind at 1. rewrite (@receiveAuthenticationResult_null st1 msg rawData Habba Hctx).
    reflexivity.
Qed.

Lemma sendEapFailure_eq (eap : Eap EapAttributes) (st : State) :
  sendEapFailure eap st = Done tt (afterSendEapFailure eap st).
Proof. reflexivity. Qed.

(** C9.  In the EAP-AKA' handler, for a request that passes the checks
    before it: an AT_KDF other than 1 is logged and then handled under the
    guard of [networkFailingTheAuthCheck(true)] -- when the check trips the
    handler returns and nothing is sent; otherwise T3520 is started again
    and an Authentication Response carrying the EAP-AKA' packet
    AKA_AUTHENTICATION_REJECT is sent (RAND and RES* cleared, T3516
    stopped).  With AT_KDF = 1 and an AT_KDF_INPUT other than the serving
    network name, the same response is sent with no trip check: the failure
    counter is left as it is and the response goes out whatever its value. *)
Theorem receiveAuthenticationRequestEap_kdf (st : State)
    (msg : AuthenticationRequest EapAttributes) (code : ECode) (id : Z)
    (attributes : EapAttributes) :
  passesChecksEapAkaPrime env st msg code id attributes ->
  (getKdf env attributes <> 1 ->
   let st0 := record (Log LErr "EAP AKA' Authentication Reject, received AT_KDF is not valid") st in
   receiveAuthenticationRequestEap env msg st =
     guardedByAuthCheck
       (bind (timerStart T3520) (fun _ => sendEapFailure (akaAuthenticationReject env id))) st0
   /\ (m_nwConsecutiveAuthFailure st < 3 ->
       let st' := afterSendEapFailure (akaAuthenticationReject env id)
                    (started T3520
                       (set_nwConsecutiveAuthFailure (m_nwConsecutiveAuthFailure st + 1) st0)) in
       receiveAuthenticationRequestEap env msg st = Done tt st'
       /\ running (m_timers st') T3520 = true
       /\ sentMessages (trace st') =
          AuthenticationResponse None (Some (akaAuthenticationReject env id))
          :: sentMessages (trace st))
   /\ (3 <= m_nwConsecutiveAuthFailure st ->
       let st' := afterTrip
                    (set_nwConsecutiveAuthFailure (m_nwConsecutiveAuthFailure st + 1) st0) in
       receiveAuthenticationRequestEap env msg st = Done tt st'
       /\ sentMessages (trace st') = sentMessages (trace st)))
  /\
  (getKdf env attributes = 1 ->
   getKdfInput env attributes
     <> FromAscii (ConstructServingNetworkName env (currentPlmn st)) ->
   let st' := afterSendEapFailure (akaAuthenticationReject env id)
                (record (Log LErr "EAP AKA' Authentication Reject, received AT_KDF_INPUT is not valid") st) in
   receiveAuthenticationRequestEap env msg st = Done tt st'
   /\ m_nwConsecutiveAuthFailure st' = m_nwConsecutiveAuthFailure st
   /\ trace st' =
      [SendNasMessage (AuthenticationResponse None (Some (akaAuthenticationReject env id)));
       TimerStop T3516;
       Log LErr "EAP AKA' Authentication Reject, received AT_KDF_INPUT is not valid"]
      ++ trace st).
Proof.
  intros (Hplmn & Heap & Hlr & Hla & Hlm).
  assert (Hrun : receiveAuthenticationRequestEap env msg st =
                 receiveEapAkaPrime env msg (currentPlmn st)
                   (EapAkaPrime code id AKA_CHALLENGE attributes) id AKA_CHALLENGE attributes st).
  { unfold receiveAuthenticationRequestEap. cbn. rewrite Hplmn, Heap. reflexivity. }
  rewrite Hrun. unfold receiveEapAkaPrime. cbn [ESubType_eq_dec].
  destruct (ESubType_eq_dec AKA_CHALLENGE AKA_CHALLENGE) as [_|Hne]; [|contradiction].
  rewrite Hlr, Hla, Hlm. cbn [Nat.eqb negb orb].
  split.
  - intros Hkdf. apply Z.eqb_neq in Hkdf. rewrite Hkdf. cbn [negb].
    split; [reflexivity|].
    split; intros Hc; [apply Z.ltb_lt in Hc | apply Z.ltb_ge in Hc];
      unfold bind at 1; cbn [log modify];
      rewrite bind_networkFailingTheAuthCheck; cbn; rewrite Hc.
    + split; [reflexivity|]. split; reflexivity.
    + split; [reflexivity|].
      unfold afterTrip. cbn. destruct (m_cmState st); reflexivity.
  - intros Hkdf Hinput. rewrite Hkdf. cbn [Z.eqb Pos.eqb negb].
    destruct (octets_eq_dec _ _) as [Heq|_]; [contradiction|].
    split; [reflexivity|]. split; reflexivity.
Qed.

(** *** What a handler leaves alone

    The rules hold for any observation that does not look at the USIM or at
    the TLS session; they are used for the failure counter and for the list
    of sent messages. *)

Section Frame.

Variable X : Type.
Variable obs : State -> X.
Hypothesis obs_usim : forall (g : Usim SqnManager -> Usim SqnManager) (st : State),
  obs (with_usim g st) = obs st.
Hypothesis obs_tls : forall (v : TlsSession) (st : State), obs (set_tls v st) = obs st.

Lemma keeps_ret {A : Type} (a : A) : keeps obs (ret a).
Proof. intros st st' a' H. injection H as _ <-. reflexivity. Qed.

Lemma keeps_throw {A : Type} (f : Fault) : keeps obs (throw (A:=A) f).
Proof. intros st st' a H. discriminate H. Qed.

Lemma keeps_gets {A : Type} (f : State -> A) : keeps obs (gets f).
Proof. intros st st' a H. injection H as _ <-. reflexivity. Qed.

Lemma keeps_modify (f : State -> State) :
  (forall st, obs (f st) = obs st) -> keeps obs (modify f).
Proof. intros Hf st st' a H. injection H as _ <-. apply Hf. Qed.

Lemma keeps_bind {A B : Type} (m : M SqnManager EapAttributes TlsSession A)
    (k : A -> M SqnManager EapAttributes TlsSession B) :
  keeps obs m -> (forall a, keeps obs (k a)) -> keeps obs (bind m k).
Proof.
  intros Hm Hk st st' b H. unfold bind in H.
  destruct (m st) as [a st1|f] eqn:Hrun; [|discriminate].
  rewrite (Hk a _ _ _ H). exact (Hm _ _ _ Hrun).
Qed.

Lemma keeps_nonCurrentNsCtx_assign (f : NasSecurityContext -> NasSecurityContext) :
  keeps obs (nonCurrentNsCtx_assign f).
Proof.
  intros st st' a H. unfold nonCurrentNsCtx_assign in H.
  destruct (m_nonCurrentNsCtx (m_usim st)); [|discriminate].
  injection H as _ <-. apply obs_usim.
Qed.

Lemma keeps_calculateMilenage (sqn rand : OctetString) (dummyAmf : bool) :
  keeps obs (calculateMilenage env sqn rand dummyAmf).
Proof. intros st st' a H. rewrite calculateMilenage_eq in H. injection H as _ <-. reflexivity. Qed.

Lemma keeps_sqnMng_checkSqn (sqn : OctetString) : keeps obs (sqnMng_checkSqn env sqn).
Proof.
  intros st st' a H. unfold sqnMng_checkSqn in H.
  destruct (checkSqn env (m_sqnMng (m_usim st)) sqn). injection H as _ <-. apply obs_usim.
Qed.

Lemma keeps_tls_open : keeps obs (tls_open env).
Proof.
  intros st st' a H. unfold tls_open in H.
  destruct (tlsOpen env (config st)); [|discriminate]. injection H as _ <-. apply obs_tls.
Qed.

Lemma keeps_tls_free : keeps obs (tls_free env).
Proof.
  intros st st' a H. unfold tls_free in H.
  destruct (tlsFree env (m_tls st)); [|discriminate]. injection H as _ <-. apply obs_tls.
Qed.

Lemma keeps_tls_do_handshake : keeps obs (tls_do_handshake env).
Proof.
  intros st st' a H. unfold tls_do_handshake in H.
  destruct (SSL_do_handshake env (m_tls st)). injection H as _ <-. apply obs_tls.
Qed.

End Frame.

(** Proves [keeps obs m] by walking down the code of [m]. *)
Ltac keeps_step :=
  lazymatch goal with
  | |- keeps _ (ret _) => apply keeps_ret
  | |- keeps _ (throw _) => apply keeps_throw
  | |- keeps _ (gets _) => apply keeps_gets
  | |- keeps _ (modify _) => apply keeps_modify; intros; reflexivity
  | |- keeps _ (bind _ _) => apply keeps_bind; [|intros ?]
  | |- keeps _ (calculateMilenage _ _ _ _) => apply keeps_calculateMilenage
  | |- keeps _ (sqnMng_checkSqn _ _) => apply keeps_sqnMng_checkSqn; intros; reflexivity
  | |- keeps _ (nonCurrentNsCtx_assign _) =>
      apply keeps_nonCurrentNsCtx_assign; intros; reflexivity
  | |- keeps _ (tls_do_handshake _) => apply keeps_tls_do_handshake; intros; reflexivity
  | |- keeps _ (tls_open _) => apply keeps_tls_open; intros; reflexivity
  | |- keeps _ (tls_free _) => apply keeps_tls_free; intros; reflexivity
  | |- keeps _ (if ?c then _ else _) => destruct c
  | |- keeps _ (match ?x with _ => _ end) => destruct x
  | |- keeps _ _ =>
      progress unfold log, timerStart, timerStop, sendMmStatus,
        localReleaseConnection, switchUState, switchMmState, usim_assign,
        sqnMng_getSqn, config_supi_value, receiveEapSuccessMessage,
        receiveEapFailureMessage, validateAutn, autnCheck5gAka
  end.

Ltac keeps_tac := unfold preservesCounter, silent; repeat keeps_step.

(** The senders change the list of sent messages and nothing the counter
    depends on. *)
Ltac preserves_tac :=
  unfold preservesCounter;
  repeat first [ keeps_step
               | progress unfold sendNasMessage, sendFailure, sendEapFailure,
                   sendAuthFailure ].























(** *** The counter is reset when a challenge is answered *)

















(** ** Further properties of the handlers *)

(** *** The trip check, call after call *)

(** X1.  Consecutive calls of [networkFailingTheAuthCheck(true)] on a
    counter [c], as long as the increments stay within the counter's [int]
    ([c + n <= INT_MAX]): the call number [i] (from 0) answers [true]
    exactly when [3 <= c + i], and after [n] calls the counter is [c + n].
    From a counter at 0 the first three failures are given a chance and
    every later one trips. *)
Theorem checkRepeatedly_answers (n : nat) :
  forall st : State,
    m_nwConsecutiveAuthFailure st + Z.of_nat n <= INT_MAX ->
    exists st' : State,
      checkRepeatedly n st =
        Done (map (fun i => 3 <=? m_nwConsecutiveAuthFailure st + Z.of_nat i) (seq 0 n)) st'
      /\ m_nwConsecutiveAuthFailure st' = m_nwConsecutiveAuthFailure st + Z.of_nat n
      /\ m_usim st' = m_usim st
      /\ sent st' = sent st.
Proof.
  induction n as [|n IH]; intros st Hmax.
  - exists st. cbn. rewrite Z.add_0_r. auto.
  - cbn [checkRepeatedly]. rewrite bind_networkFailingTheAuthCheck.
    rewrite Nat2Z.inj_succ in Hmax.
    set (c := m_nwConsecutiveAuthFailure st) in *.
    assert (Hhead : (3 <=? c + Z.of_nat 0) = negb (c <? 3)).
    { cbn. rewrite Z.add_0_r. rewrite Z.leb_antisym. reflexivity. }
    assert (Htail : forall st1 : State,
               m_nwConsecutiveAuthFailure st1 = c + 1 ->
               map (fun i => 3 <=? m_nwConsecutiveAuthFailure st1 + Z.of_nat i) (seq 0 n)
               = map (fun i => 3 <=? c + Z.of_nat i) (seq 1 n)).
    { intros st1 H1. rewrite <- seq_shift, map_map. apply map_ext. intros i.
      rewrite H1. f_equal. lia. }
    destruct (c <? 3) eqn:Hc.
    + destruct (IH (set_nwConsecutiveAuthFailure (c + 1) st)) as (st' & Hrun & Hcnt & Hu & Hs);
        [cbn; lia|].
      exists st'. unfold bind. rewrite Hrun. cbn [ret seq map].
      rewrite Hhead, (Htail (set_nwConsecutiveAuthFailure (c + 1) st) eq_refl). cbn [negb].
      split; [reflexivity|]. split; [cbn in Hcnt; lia|]. split; assumption.
    + assert (H1 : m_nwConsecutiveAuthFailure
                     (afterTrip (set_nwConsecutiveAuthFailure (c + 1) st)) = c + 1).
      { unfold afterTrip. cbn. destruct (m_cmState st); reflexivity. }
      destruct (IH (afterTrip (set_nwConsecutiveAuthFailure (c + 1) st)))
        as (st' & Hrun & Hcnt & Hu & Hs); [rewrite H1; lia|].
      exists st'. unfold bind. rewrite Hrun. cbn [ret seq map].
      rewrite Hhead, (Htail _ H1). cbn [negb].
      split; [reflexivity|]. split; [rewrite Hcnt, H1; lia|].
      split.
      * rewrite Hu. unfold afterTrip. cbn. destruct (m_cmState st); reflexivity.
      * rewrite Hs. unfold sent, afterTrip. cbn. destruct (m_cmState st); reflexivity.
Qed.

(** *** Requests that are dropped *)

Lemma receiveAuthenticationRequest_invalid (msg : AuthenticationRequest EapAttributes)
    (st : State) :
  m_isValid (m_usim st) = false ->
  receiveAuthenticationRequest env msg st = Done tt (afterIgnoredRequest st).
Proof.
  intros Hinv. unfold receiveAuthenticationRequest. cbn. rewrite Hinv. reflexivity.
Qed.

Lemma requests_on_invalid_usim (reqs : list (AuthenticationRequest EapAttributes)) :
  forall st : State,
    m_isValid (m_usim st) = false ->
    exists st' : State,
      handleAll env (map (@RequestReceived EapAttributes) reqs) st = Done tt st'
      /\ m_usim st' = m_usim st
      /\ m_timers st' = m_timers st
      /\ m_storage st' = m_storage st
      /\ m_nwConsecutiveAuthFailure st' = m_nwConsecutiveAuthFailure st
      /\ m_tlsState st' = m_tlsState st
      /\ emitted st' = emitted st.
Proof.
  induction reqs as [|req reqs IH]; intros st Hinv.
  - exists st. cbn. repeat split.
  - destruct (IH (afterIgnoredRequest st) Hinv) as (st' & Hrun & Hu & Ht & Hs & Hc & Htls & He).
    exists st'. cbn [map handleAll handle]. unfold bind.
    rewrite (receiveAuthenticationRequest_invalid req st Hinv).
    split; [exact Hrun|].
    rewrite Hu, Ht, Hs, Hc, Htls, He. repeat split.
Qed.

(** X2.  After an Authentication Reject the USIM is invalid and every
    Authentication Request that follows is dropped: whatever the requests
    are, the handlers return, and the USIM, the timers, the storage, the
    failure counter and the EAP-TLS state are as the Reject left them; no
    NAS message and no MM status is sent for them. *)
Theorem requests_after_reject_dropped (st : State)
    (reject : AuthenticationReject EapAttributes)
    (reqs : list (AuthenticationRequest EapAttributes)) :
  exists st1 st' : State,
    receiveAuthenticationReject reject st = Done tt st1
    /\ handleAll env (RejectReceived reject :: map (@RequestReceived EapAttributes) reqs) st
       = Done tt st'
    /\ m_isValid (m_usim st') = false
    /\ m_usim st' = m_usim st1
    /\ m_timers st' = m_timers st1
    /\ m_storage st' = m_storage st1
    /\ m_nwConsecutiveAuthFailure st' = m_nwConsecutiveAuthFailure st1
    /\ emitted st' = emitted st.
Proof.
  assert (Hrej : exists st1 : State,
             receiveAuthenticationReject reject st = Done tt st1
             /\ m_isValid (m_usim st1) = false
             /\ emitted st1 = emitted st).
  { unfold receiveAuthenticationReject. cbn.
    destruct (rej_eapMessage reject) as [eap|]; [destruct (eap_code eap)|]; cbn;
      eexists; (split; [reflexivity|]); split; reflexivity. }
  destruct Hrej as (st1 & Hrun1 & Hinv & Hem).
  destruct (requests_on_invalid_usim reqs st1 Hinv) as (st' & Hrun & Hu & Ht & Hs & Hc & _ & He).
  exists st1, st'. split; [exact Hrun1|].
  split; [cbn [handleAll handle]; unfold bind at 1; rewrite Hrun1; exact Hrun|].
  rewrite Hu, Ht, Hs, Hc, He, Hem. repeat split. exact Hinv.
Qed.

(** X3.  A request that arrives while the USIM is valid but no current PLMN
    is known, with or without an EAP message: T3520 is started and the
    handler returns; nothing else changes, nothing is sent, and T3520 is
    left running. *)
Theorem receiveAuthenticationRequest_without_plmn (st : State)
    (msg : AuthenticationRequest EapAttributes) :
  m_isValid (m_usim st) = true ->
  hasValue env (currentPlmn st) = false ->
  receiveAuthenticationRequest env msg st
    = Done tt (started T3520 (record (Log LDebug "Authentication Request received") st))
  /\ running (m_timers (started T3520 (record (Log LDebug "Authentication Request received") st)))
       T3520 = true
  /\ emitted (started T3520 (record (Log LDebug "Authentication Request received") st))
     = emitted st.
Proof.
  intros Hvalid Hplmn. split; [|split; reflexivity].
  unfold receiveAuthenticationRequest. cbn. rewrite Hvalid. cbn.
  destruct (eapMessage msg).
  - unfold receiveAuthenticationRequestEap. cbn. rewrite Hplmn. reflexivity.
  - unfold receiveAuthenticationRequest5gAka. cbn. rewrite Hplmn. reflexivity.
Qed.

(** *** At most one message per event *)

Lemma quiet_networkFailingTheAuthCheck (hasChance : bool) :
  quiet (networkFailingTheAuthCheck (SqnManager:=SqnManager)
           (EapAttributes:=EapAttributes) (TlsSession:=TlsSession) hasChance).
Proof.
  intros st st' a H. rewrite networkFailingTheAuthCheck_eq in H. unfold emitted.
  destruct hasChance.
  - destruct (m_nwConsecutiveAuthFailure st <? 3); injection H as _ <-; [reflexivity|].
    unfold afterTrip. cbn. destruct (m_cmState st); reflexivity.
  - injection H as _ <-. unfold afterTrip. cbn. destruct (m_cmState st); reflexivity.
Qed.

Ltac quiet_tac :=
  unfold quiet;
  repeat first [ apply quiet_networkFailingTheAuthCheck | keeps_step ].

Lemma once_quiet {A : Type} (m : M SqnManager EapAttributes TlsSession A) :
  quiet m -> emitsAtMostOnce m.
Proof. intros Hm st st' a H. left. exact (Hm _ _ _ H). Qed.

Lemma once_emit_bind {A B : Type} (m : M SqnManager EapAttributes TlsSession A)
    (k : A -> M SqnManager EapAttributes TlsSession B) :
  quiet m -> (forall a, emitsAtMostOnce (k a)) -> emitsAtMostOnce (bind m k).
Proof.
  intros Hm Hk st st' b H. unfold bind in H.
  destruct (m st) as [a st1|f] eqn:Hrun; [|discriminate].
  rewrite <- (Hm _ _ _ Hrun). exact (Hk a _ _ _ H).
Qed.

Lemma once_emit_sendNasMessage (msg : NasMessage EapAttributes) :
  emitsAtMostOnce (sendNasMessage (SqnManager:=SqnManager) (TlsSession:=TlsSession) msg).
Proof. intros st st' a H. injection H as _ <-. right. eexists. reflexivity. Qed.

Lemma once_emit_sendMmStatus (cause : EMmCause) :
  emitsAtMostOnce (sendMmStatus (SqnManager:=SqnManager) (EapAttributes:=EapAttributes)
                     (TlsSession:=TlsSession) cause).
Proof. intros st st' a H. injection H as _ <-. right. eexists. reflexivity. Qed.

(** Proves [emitsAtMostOnce m]: every path is quiet up to its last call,
    which is the only sender. *)
Ltac emit_tac :=
  first
    [ solve [apply once_quiet; quiet_tac]
    | lazymatch goal with
      | |- emitsAtMostOnce (sendNasMessage _) => apply once_emit_sendNasMessage
      | |- emitsAtMostOnce (sendMmStatus _) => apply once_emit_sendMmStatus
      | |- emitsAtMostOnce (bind _ _) =>
          apply once_emit_bind; [solve [quiet_tac]|intros ?; emit_tac]
      | |- emitsAtMostOnce (if ?c then _ else _) => destruct c; emit_tac
      | |- emitsAtMostOnce (match ?x with _ => _ end) => destruct x; emit_tac
      | |- emitsAtMostOnce _ =>
          progress unfold sendFailure, sendEapFailure, sendAuthFailure,
            acceptChallenge5gAka; emit_tac
      end ].

Lemma once_emit_dispatch5gAka (msg : AuthenticationRequest EapAttributes) (plmn : Plmn)
    (rand : OctetString) (r : EAutnValidationRes.t) :
  emitsAtMostOnce (dispatch5gAka env msg plmn rand r).
Proof. destruct r; cbn [dispatch5gAka]; emit_tac. Qed.

Lemma once_emit_receiveAuthenticationRequest5gAka
    (msg : AuthenticationRequest EapAttributes) :
  emitsAtMostOnce (receiveAuthenticationRequest5gAka env msg).
Proof.
  unfold receiveAuthenticationRequest5gAka.
  apply once_emit_bind; [quiet_tac|intros plmn].
  destruct (negb (hasValue env plmn)); [emit_tac|].
  destruct (authParamRAND msg) as [rand|]; [|emit_tac].
  destruct (authParamAUTN msg) as [autn|]; [|emit_tac].
  destruct (negb (List.length rand =? 16)%nat || negb (List.length autn =? 16)%nat);
    [emit_tac|].
  destruct (ngKSI_tsc (ngKSI msg)); [|emit_tac].
  destruct (ngKSI_ksi (ngKSI msg) =? NOT_AVAILABLE_OR_RESERVED); [emit_tac|].
  apply once_emit_bind; [quiet_tac|intros usim].
  destruct (ngKsiInUse usim (ngKSI_ksi (ngKSI msg))); [emit_tac|].
  apply once_emit_bind; [quiet_tac|intros r].
  apply once_emit_dispatch5gAka.
Qed.

Lemma once_emit_checkAutnEapAkaPrime (msg : AuthenticationRequest EapAttributes)
    (plmn : Plmn) (receivedEap : Eap EapAttributes) (id : Z) (attributes : EapAttributes)
    (snn : string) :
  emitsAtMostOnce (checkAutnEapAkaPrime env msg plmn receivedEap id attributes snn).
Proof.
  unfold checkAutnEapAkaPrime.
  apply once_emit_bind; [quiet_tac|intros r].
  apply once_emit_bind; [quiet_tac|intros _].
  destruct r; emit_tac.
Qed.

Lemma once_emit_receiveEapAkaPrime (msg : AuthenticationRequest EapAttributes) (plmn : Plmn)
    (receivedEap : Eap EapAttributes) (id : Z) (subType : ESubType)
    (attributes : EapAttributes) :
  emitsAtMostOnce (receiveEapAkaPrime env msg plmn receivedEap id subType attributes).
Proof.
  unfold receiveEapAkaPrime.
  destruct (ESubType_eq_dec subType AKA_CHALLENGE); [|emit_tac].
  destruct (negb (List.length (getRand env attributes) =? 16)%nat
            || negb (List.length (getAutn env attributes) =? 16)%nat
            || negb (List.length (getMac env attributes) =? 16)%nat); [emit_tac|].
  destruct (negb (getKdf env attributes =? 1)); [emit_tac|].
  destruct (octets_eq_dec _ _); [|emit_tac].
  destruct (ngKSI_tsc (ngKSI msg)); [|emit_tac].
  destruct (ngKSI_ksi (ngKSI msg) =? NOT_AVAILABLE_OR_RESERVED); [emit_tac|].
  apply once_emit_bind; [quiet_tac|intros usim].
  destruct (ngKsiInUse usim (ngKSI_ksi (ngKSI msg))); [emit_tac|].
  apply once_emit_checkAutnEapAkaPrime.
Qed.

Lemma once_emit_continueEapTls (msg : AuthenticationRequest EapAttributes) (plmn : Plmn)
    (id : Z) (tlsData : OctetString) :
  emitsAtMostOnce (continueEapTls env msg plmn id tlsData).
Proof. unfold continueEapTls. emit_tac. Qed.

Lemma once_emit_receiveEapTls (msg : AuthenticationRequest EapAttributes) (plmn : Plmn)
    (id flag : Z) (tlsData : OctetString) :
  emitsAtMostOnce (receiveEapTls env msg plmn id flag tlsData).
Proof.
  unfold receiveEapTls.
  destruct (ngKSI_tsc (ngKSI msg)); [|emit_tac].
  destruct (ngKSI_ksi (ngKSI msg) =? NOT_AVAILABLE_OR_RESERVED); [emit_tac|].
  apply once_emit_bind; [quiet_tac|intros tlsState].
  destruct tlsState; try apply once_emit_continueEapTls.
  destruct (Z.land flag 32 =? 0); [emit_tac|].
  apply once_emit_bind; [quiet_tac|intros _].
  apply once_emit_bind; [quiet_tac|intros _].
  apply once_emit_continueEapTls.
Qed.

Lemma once_emit_receiveAuthenticationRequest (msg : AuthenticationRequest EapAttributes) :
  emitsAtMostOnce (receiveAuthenticationRequest env msg).
Proof.
  unfold receiveAuthenticationRequest.
  apply once_emit_bind; [quiet_tac|intros _].
  apply once_emit_bind; [quiet_tac|intros valid].
  destruct (negb valid); [emit_tac|].
  apply once_emit_bind; [quiet_tac|intros _].
  destruct (eapMessage msg) as [eap|] eqn:Heap;
    [|apply once_emit_receiveAuthenticationRequest5gAka].
  unfold receiveAuthenticationRequestEap.
  apply once_emit_bind; [quiet_tac|intros plmn].
  destruct (negb (hasValue env plmn)); [emit_tac|].
  rewrite Heap.
  destruct eap as [code id subType attributes|code id flag tlsData|code id].
  - apply once_emit_receiveEapAkaPrime.
  - apply once_emit_receiveEapTls.
  - emit_tac.
Qed.

Lemma quiet_receiveAuthenticationResult (msg : AuthenticationResult EapAttributes) :
  quiet (receiveAuthenticationResult (SqnManager:=SqnManager) (TlsSession:=TlsSession) msg).
Proof. unfold receiveAuthenticationResult. quiet_tac. Qed.

Lemma quiet_receiveAuthenticationReject (msg : AuthenticationReject EapAttributes) :
  quiet (receiveAuthenticationReject (SqnManager:=SqnManager) (TlsSession:=TlsSession) msg).
Proof. unfold receiveAuthenticationReject. quiet_tac. Qed.

(** X4.  Whatever the event and the state, a handler that returns has
    handed at most one message to the NAS transport, counting the
    Authentication Response, the Authentication Failure and the MM Status
    together; the handlers of Authentication Result and of Authentication
    Reject hand none. *)
Theorem at_most_one_message_per_event (ev : AuthEvent EapAttributes) (st st' : State) :
  handle env ev st = Done tt st' ->
  (emitted st' = emitted st
   \/ exists e : Action EapAttributes, emitted st' = e :: emitted st)
  /\ (forall msg, ev = ResultReceived msg -> emitted st' = emitted st)
  /\ (forall msg, ev = RejectReceived msg -> emitted st' = emitted st).
Proof.
  intros Hrun. split; [|split].
  - destruct ev as [msg|msg|msg]; cbn [handle] in Hrun.
    + exact (@once_emit_receiveAuthenticationRequest msg st st' tt Hrun).
    + left. exact (@quiet_receiveAuthenticationResult msg st st' tt Hrun).
    + left. exact (@quiet_receiveAuthenticationReject msg st st' tt Hrun).
  - intros msg ->. exact (@quiet_receiveAuthenticationResult msg st st' tt Hrun).
  - intros msg ->. exact (@quiet_receiveAuthenticationReject msg st st' tt Hrun).
Qed.

(** *** No challenge is stored while the network is failing *)

Lemma vol_nonCurrentNsCtx_assign (f : NasSecurityContext -> NasSecurityContext) :
  keeps (@volatileAuth SqnManager EapAttributes TlsSession) (nonCurrentNsCtx_assign f).
Proof.
  intros st st' a H. unfold nonCurrentNsCtx_assign in H.
  destruct (m_nonCurrentNsCtx (m_usim st)); [|discriminate].
  injection H as _ <-. reflexivity.
Qed.

Lemma vol_sqnMng_checkSqn (sqn : OctetString) :
  keeps (@volatileAuth SqnManager EapAttributes TlsSession) (sqnMng_checkSqn env sqn).
Proof.
  intros st st' a H. unfold sqnMng_checkSqn in H.
  destruct (checkSqn env (m_sqnMng (m_usim st)) sqn). injection H as _ <-. reflexivity.
Qed.

Ltac vol_tac :=
  repeat first [ apply vol_nonCurrentNsCtx_assign | apply vol_sqnMng_checkSqn | keeps_step ].

Lemma clears_bind {A B : Type} (m : M SqnManager EapAttributes TlsSession A)
    (k : A -> M SqnManager EapAttributes TlsSession B) :
  (forall a, clearsChallenge (k a)) -> clearsChallenge (bind m k).
Proof.
  intros Hk st st' b H. unfold bind in H.
  destruct (m st) as [a st1|f]; [|discriminate]. exact (Hk a _ _ _ H).
Qed.

Lemma clears_sendFailure (cause : EMmCause) (auts : option OctetString) :
  clearsChallenge (sendFailure (SqnManager:=SqnManager) (EapAttributes:=EapAttributes)
                     (TlsSession:=TlsSession) cause auts).
Proof. intros st st' a H. rewrite sendFailure_eq in H. injection H as _ <-. split; reflexivity. Qed.

Lemma clears_sendEapFailure (eap : Eap EapAttributes) :
  clearsChallenge (sendEapFailure (SqnManager:=SqnManager) (TlsSession:=TlsSession) eap).
Proof. intros st st' a H. injection H as _ <-. split; reflexivity. Qed.

Lemma clears_sendAuthFailure (cause : EMmCause) :
  clearsChallenge (sendAuthFailure (SqnManager:=SqnManager) (EapAttributes:=EapAttributes)
                     (TlsSession:=TlsSession) cause).
Proof. intros st st' a H. injection H as _ <-. split; reflexivity. Qed.

Lemma clears_receiveAuthenticationReject (msg : AuthenticationReject EapAttributes) :
  clearsChallenge (receiveAuthenticationReject (SqnManager:=SqnManager)
                     (TlsSession:=TlsSession) msg).
Proof.
  intros st st' a H. unfold receiveAuthenticationReject in H. cbn in H.
  destruct (rej_eapMessage msg) as [eap|]; [destruct (eap_code eap)|]; cbn in H;
    injection H as _ <-; split; reflexivity.
Qed.

Ltac clears_tac :=
  repeat lazymatch goal with
    | |- clearsChallenge (sendFailure _ _) => apply clears_sendFailure
    | |- clearsChallenge (sendEapFailure _) => apply clears_sendEapFailure
    | |- clearsChallenge (sendAuthFailure _) => apply clears_sendAuthFailure
    | |- clearsChallenge (bind _ _) => apply clears_bind; intros ?
    | |- clearsChallenge (if ?c then _ else _) => destruct c
    | |- clearsChallenge (match ?x with _ => _ end) => destruct x
    end.

Lemma zeroes_bind {A B : Type} (m : M SqnManager EapAttributes TlsSession A)
    (k : A -> M SqnManager EapAttributes TlsSession B) :
  (forall a, zeroesCounter (k a)) -> zeroesCounter (bind m k).
Proof.
  intros Hk st st' b H. unfold bind in H.
  destruct (m st) as [a st1|f]; [|discriminate]. exact (Hk a _ _ _ H).
Qed.

Lemma zeroes_reset {B : Type} (k : unit -> M SqnManager EapAttributes TlsSession B) :
  (forall a, preservesCounter (k a)) ->
  zeroesCounter (bind (modify (set_nwConsecutiveAuthFailure 0)) k).
Proof.
  intros Hk st st' b H. unfold bind, modify in H. rewrite (Hk tt _ _ _ H). reflexivity.
Qed.

Ltac zeroes_tac :=
  repeat lazymatch goal with
    | |- zeroesCounter (bind (modify (set_nwConsecutiveAuthFailure 0)) _) =>
        apply zeroes_reset; intros ?; solve [preserves_tac]
    | |- zeroesCounter (bind _ _) => apply zeroes_bind; intros ?
    end.

Lemma maintains_keeps {A : Type} (m : M SqnManager EapAttributes TlsSession A) :
  keeps (@volatileAuth SqnManager EapAttributes TlsSession) m -> maintains m.
Proof.
  intros Hm st st' a Hinv H. pose proof (Hm _ _ _ H) as Hv.
  unfold volatileAuth in Hv. injection Hv as Hc Hr Hs.
  unfold noChallengeWhileFailing in *. rewrite Hc, Hr, Hs. exact Hinv.
Qed.

Lemma maintains_clears {A : Type} (m : M SqnManager EapAttributes TlsSession A) :
  clearsChallenge m -> maintains m.
Proof. intros Hm st st' a _ H _. exact (Hm _ _ _ H). Qed.

Lemma maintains_zeroes {A : Type} (m : M SqnManager EapAttributes TlsSession A) :
  zeroesCounter m -> maintains m.
Proof.
  intros Hm st st' a _ H Hpos. rewrite (Hm _ _ _ H) in Hpos. discriminate Hpos.
Qed.

Lemma maintains_bind {A B : Type} (m : M SqnManager EapAttributes TlsSession A)
    (k : A -> M SqnManager EapAttributes TlsSession B) :
  maintains m -> (forall a, maintains (k a)) -> maintains (bind m k).
Proof.
  intros Hm Hk st st' b Hinv H. unfold bind in H.
  destruct (m st) as [a st1|f] eqn:Hrun; [|discriminate].
  exact (Hk a _ _ _ (Hm _ _ _ Hinv Hrun) H).
Qed.

(** The guard at the call sites: a failure that is given a chance goes on to
    clear the challenge; a failure that trips finds it cleared already. *)
Lemma maintains_guarded (k : M SqnManager EapAttributes TlsSession unit) :
  clearsChallenge k ->
  maintains (bind (networkFailingTheAuthCheck true)
                  (fun tripped : bool => if tripped then ret tt else k)).
Proof.
  intros Hk st st' a Hinv H. rewrite bind_networkFailingTheAuthCheck in H.
  destruct (m_nwConsecutiveAuthFailure st <? 3) eqn:Hc.
  - intros _. exact (Hk _ _ _ H).
  - injection H as _ <-. apply Z.ltb_ge in Hc. intros _.
    assert (Hpos : 0 < m_nwConsecutiveAuthFailure st) by lia.
    destruct (Hinv Hpos) as [Hr Hs].
    unfold afterTrip. cbn. destruct (m_cmState st); cbn; auto.
Qed.

(** Proves [maintains m] path by path. *)
Ltac inv_tac :=
  first
    [ solve [apply maintains_keeps; vol_tac]
    | solve [apply maintains_clears; clears_tac]
    | solve [apply maintains_zeroes; zeroes_tac]
    | lazymatch goal with
      | |- maintains (bind (networkFailingTheAuthCheck true) _) =>
          apply maintains_guarded; solve [clears_tac]
      | |- maintains (bind _ _) => apply maintains_bind; [inv_tac|intros ?; inv_tac]
      | |- maintains (if ?c then _ else _) => destruct c; inv_tac
      | |- maintains (match ?x with _ => _ end) => destruct x; inv_tac
      | |- maintains _ => progress unfold acceptChallenge5gAka; inv_tac
      end ].

Lemma maintains_dispatch5gAka (msg : AuthenticationRequest EapAttributes) (plmn : Plmn)
    (rand : OctetString) (r : EAutnValidationRes.t) :
  maintains (dispatch5gAka env msg plmn rand r).
Proof. destruct r; cbn [dispatch5gAka]; inv_tac. Qed.

Lemma maintains_receiveAuthenticationRequest5gAka
    (msg : AuthenticationRequest EapAttributes) :
  maintains (receiveAuthenticationRequest5gAka env msg).
Proof.
  unfold receiveAuthenticationRequest5gAka.
  apply maintains_bind; [inv_tac|intros plmn].
  destruct (negb (hasValue env plmn)); [inv_tac|].
  destruct (authParamRAND msg) as [rand|]; [|inv_tac].
  destruct (authParamAUTN msg) as [autn|]; [|inv_tac].
  destruct (negb (List.length rand =? 16)%nat || negb (List.length autn =? 16)%nat);
    [inv_tac|].
  destruct (ngKSI_tsc (ngKSI msg)); [|inv_tac].
  destruct (ngKSI_ksi (ngKSI msg) =? NOT_AVAILABLE_OR_RESERVED); [inv_tac|].
  apply maintains_bind; [inv_tac|intros usim].
  destruct (ngKsiInUse usim (ngKSI_ksi (ngKSI msg))); [inv_tac|].
  apply maintains_bind; [inv_tac|intros r].
  apply maintains_dispatch5gAka.
Qed.

Lemma maintains_checkAutnEapAkaPrime (msg : AuthenticationRequest EapAttributes)
    (plmn : Plmn) (receivedEap : Eap EapAttributes) (id : Z) (attributes : EapAttributes)
    (snn : string) :
  maintains (checkAutnEapAkaPrime env msg plmn receivedEap id attributes snn).
Proof.
  unfold checkAutnEapAkaPrime.
  apply maintains_bind; [inv_tac|intros r].
  apply maintains_bind; [inv_tac|intros _].
  destruct r; inv_tac.
Qed.

Lemma maintains_receiveEapAkaPrime (msg : AuthenticationRequest EapAttributes) (plmn : Plmn)
    (receivedEap : Eap EapAttributes) (id : Z) (subType : ESubType)
    (attributes : EapAttributes) :
  maintains (receiveEapAkaPrime env msg plmn receivedEap id subType attributes).
Proof.
  unfold receiveEapAkaPrime.
  destruct (ESubType_eq_dec subType AKA_CHALLENGE); [|inv_tac].
  destruct (negb (List.length (getRand env attributes) =? 16)%nat
            || negb (List.length (getAutn env attributes) =? 16)%nat
            || negb (List.length (getMac env attributes) =? 16)%nat); [inv_tac|].
  destruct (negb (getKdf env attributes =? 1)); [inv_tac|].
  destruct (octets_eq_dec _ _); [|inv_tac].
  destruct (ngKSI_tsc (ngKSI msg)); [|inv_tac].
  destruct (ngKSI_ksi (ngKSI msg) =? NOT_AVAILABLE_OR_RESERVED); [inv_tac|].
  apply maintains_bind; [inv_tac|intros usim].
  destruct (ngKsiInUse usim (ngKSI_ksi (ngKSI msg))); [inv_tac|].
  apply maintains_checkAutnEapAkaPrime.
Qed.

Lemma vol_continueEapTls (msg : AuthenticationRequest EapAttributes) (plmn : Plmn)
    (id : Z) (tlsData : OctetString) :
  keeps (@volatileAuth SqnManager EapAttributes TlsSession)
        (continueEapTls env msg plmn id tlsData).
Proof. unfold continueEapTls. vol_tac; unfold sendNasMessage; vol_tac. Qed.

Lemma maintains_receiveEapTls (msg : AuthenticationRequest EapAttributes) (plmn : Plmn)
    (id flag : Z) (tlsData : OctetString) :
  maintains (receiveEapTls env msg plmn id flag tlsData).
Proof.
  unfold receiveEapTls.
  destruct (ngKSI_tsc (ngKSI msg)); [|inv_tac].
  destruct (ngKSI_ksi (ngKSI msg) =? NOT_AVAILABLE_OR_RESERVED); [inv_tac|].
  apply maintains_bind; [inv_tac|intros tlsState].
  destruct tlsState; try (apply maintains_keeps, vol_continueEapTls).
  destruct (Z.land flag 32 =? 0); [inv_tac|].
  apply maintains_bind; [inv_tac|intros _].
  apply maintains_bind; [inv_tac|intros _].
  apply maintains_keeps, vol_continueEapTls.
Qed.

Lemma maintains_handle (ev : AuthEvent EapAttributes) : maintains (handle env ev).
Proof.
  destruct ev as [msg|msg|msg]; cbn [handle].
  - unfold receiveAuthenticationRequest.
    apply maintains_bind; [inv_tac|intros _].
    apply maintains_bind; [inv_tac|intros valid].
    destruct (negb valid); [inv_tac|].
    apply maintains_bind; [inv_tac|intros _].
    destruct (eapMessage msg) as [eap|] eqn:Heap;
      [|apply maintains_receiveAuthenticationRequest5gAka].
    unfold receiveAuthenticationRequestEap.
    apply maintains_bind; [inv_tac|intros plmn].
    destruct (negb (hasValue env plmn)); [inv_tac|].
    rewrite Heap.
    destruct eap as [code id subType attributes|code id flag tlsData|code id].
    + apply maintains_receiveEapAkaPrime.
    + apply maintains_receiveEapTls.
    + inv_tac.
  - apply maintains_keeps. unfold receiveAuthenticationResult. vol_tac.
  - apply maintains_clears, clears_receiveAuthenticationReject.
Qed.

(** X5.  While the network is failing the checks no challenge is stored.
    If a positive failure counter comes with an empty RAND and an empty RES*
    in a state (as in every state whose counter is 0), it does so after any
    sequence of authentication events handled from that state: the handlers
    store a RAND only together with a reset of the counter, and add to the
    counter only on paths that clear RAND and RES* or find them cleared. *)
Theorem no_challenge_while_failing (evs : list (AuthEvent EapAttributes)) :
  forall st st' : State,
    noChallengeWhileFailing st ->
    handleAll env evs st = Done tt st' ->
    noChallengeWhileFailing st'.
Proof.
  induction evs as [|ev evs IH]; intros st st' Hinv Hrun.
  - injection Hrun as <-. exact Hinv.
  - cbn [handleAll] in Hrun. unfold bind in Hrun.
    destruct (handle env ev st) as [[] st1|f] eqn:Hev; [|discriminate].
    exact (IH st1 st' (@maintains_handle ev st st1 tt Hinv Hev) Hrun).
Qed.

(** *** The 5G-AKA handler, path by path *)

Lemma bind_gets {A B : Type} (f : State -> A)
    (k : A -> M SqnManager EapAttributes TlsSession B) (st : State) :
  bind (gets f) k st = k (f st) st.
Proof. reflexivity. Qed.

Lemma bind_modify {B : Type} (f : State -> State)
    (k : unit -> M SqnManager EapAttributes TlsSession B) (st : State) :
  bind (modify f) k st = k tt (f st).
Proof. reflexivity. Qed.

Lemma acceptChallenge5gAka_eq (msg : AuthenticationRequest EapAttributes) (plmn : Plmn)
    (rand : OctetString) (st : State) :
  acceptChallenge5gAka env msg plmn rand st = Done tt (afterAccept5gAka env st msg plmn rand).
Proof.
  unfold acceptChallenge5gAka. cbn. rewrite bind_calculateMilenage. reflexivity.
Qed.

Lemma currentPlmn_afterAutnCheck5gAka (st : State) (rand autn : OctetString) :
  currentPlmn (afterAutnCheck5gAka env st rand autn) = currentPlmn st.
Proof.
  unfold afterAutnCheck5gAka, afterValidateAutn.
  destruct (octets_eq_dec (m_rand (m_usim st)) rand); [reflexivity|].
  destruct (bit (get (subCopy autn 6 2) 0) 7); [|reflexivity].
  destruct (octets_eq_dec _ _); reflexivity.
Qed.


(** X6.  A retransmitted challenge is refused.  After the 5G-AKA handler has
    accepted a request, a second request with the same ngKSI (the same
    message, or any other well-formed one with a native TSC) finds that
    ngKSI in use by the context just staged: it is answered with
    Authentication Failure, cause NGKSI_ALREADY_IN_USE; the RAND and RES*
    stored by the first request are cleared, the failure counter is 1,
    T3520 is running and the staged context is kept. *)
Theorem receiveAuthenticationRequest5gAka_twice (st st1 : State)
    (msg msg2 : AuthenticationRequest EapAttributes) (rand autn rand2 autn2 : OctetString) :
  passesChecks5gAka env st msg rand autn ->
  autnCheck5gAka env rand autn st = Done EAutnValidationRes.OK st1 ->
  wellFormedChallenge msg2 rand2 autn2 ->
  ngKSI_tsc (ngKSI msg2) <> MAPPED_SECURITY_CONTEXT ->
  ngKSI_ksi (ngKSI msg2) = ngKSI_ksi (ngKSI msg) ->
  exists st2 st3 : State,
    receiveAuthenticationRequest5gAka env msg st = Done tt st2
    /\ m_rand (m_usim st2) = rand
    /\ receiveAuthenticationRequest5gAka env msg2 st2 = Done tt st3
    /\ sent st3 =
       AuthenticationFailure NGKSI_ALREADY_IN_USE None
       :: AuthenticationResponse (Some (m_resStar (m_usim st2))) None :: sent st
    /\ m_rand (m_usim st3) = [] /\ m_resStar (m_usim st3) = []
    /\ m_nwConsecutiveAuthFailure st3 = 1
    /\ running (m_timers st3) T3520 = true
    /\ m_nonCurrentNsCtx (m_usim st3) = m_nonCurrentNsCtx (m_usim st2)
    /\ m_nonCurrentNsCtx (m_usim st2) <> None.
Proof.
  intros Hpass Hok (Hrand2 & Hautn2 & Hlr2 & Hla2) Htsc2 Hksi2.
  rewrite autnCheck5gAka_eq in Hok. injection Hok as Hverdict Hst1. subst st1.
  pose proof (receiveAuthenticationRequest5gAka_passes Hpass) as Hrun.
  rewrite Hverdict in Hrun. cbn [dispatch5gAka] in Hrun.
  rewrite acceptChallenge5gAka_eq in Hrun.
  destruct Hpass as (Hplmn & _ & _ & Hksi & _).
  set (st1 := afterAutnCheck5gAka env st rand autn) in *.
  set (st2 := afterAccept5gAka env st1 msg (currentPlmn st) rand) in *.
  assert (Hplmn2 : hasValue env (currentPlmn st2) = true).
  { change (currentPlmn st2) with (currentPlmn st1). unfold st1.
    rewrite currentPlmn_afterAutnCheck5gAka. exact Hplmn. }
  assert (Hcol : ngKsiCollides st2 (ngKSI_ksi (ngKSI msg))).
  { exists (stagedContext5gAka env st1 msg (currentPlmn st) rand).
    split; [right; reflexivity|]. reflexivity. }
  exists st2. eexists.
  split; [exact Hrun|]. split; [reflexivity|].
  split.
  - unfold receiveAuthenticationRequest5gAka. cbn [bind gets].
    rewrite Hplmn2, Hrand2, Hautn2, Hlr2, Hla2. cbn [negb orb Nat.eqb].
    destruct (ngKSI_tsc (ngKSI msg2)); [|contradiction].
    rewrite Hksi2. apply Z.eqb_neq in Hksi. rewrite Hksi.
    rewrite bind_gets, (ngKsiInUse_true Hcol).
    rewrite bind_networkFailingTheAuthCheck.
    change (m_nwConsecutiveAuthFailure st2) with 0. cbn [Z.ltb Z.compare].
    cbn [bind timerStart modify]. rewrite sendFailure_eq. reflexivity.
  - unfold sent. rewrite sentMessages_afterSendFailure. cbn.
    unfold st1. rewrite sentMessages_afterAutnCheck5gAka.
    split; [reflexivity|]. repeat (split; [reflexivity|]).
    discriminate.
Qed.


(** X8.  A 5G-AKA request that passes the checks and fails the AUTN check
    while the failure counter is below 3 is answered with one Authentication
    Failure whose cause follows the verdict: MAC_FAILURE for a MAC failure,
    NON_5G_AUTHENTICATION_UNACCEPTABLE for a separation bit that is not
    set, SYNCH_FAILURE for a synchronisation failure, and only the last one
    carries a parameter, the AUTS that [CalculateAuts] gives for the SQN of
    the USIM and the AK* and MAC-S of Milenage run with a zero AMF.  The
    counter grows by one, T3520 is running, RAND and RES* are cleared and
    T3516 is stopped. *)
Theorem receiveAuthenticationRequest5gAka_failure_cause (st st1 : State)
    (msg : AuthenticationRequest EapAttributes) (rand autn : OctetString)
    (r : EAutnValidationRes.t) (cause : EMmCause) :
  passesChecks5gAka env st msg rand autn ->
  autnCheck5gAka env rand autn st = Done r st1 ->
  failureCause5gAka r = Some cause ->
  m_nwConsecutiveAuthFailure st < 3 ->
  let st' := afterSendFailure cause (failureParameter5gAka env r st1 rand)
               (started T3520
                  (set_nwConsecutiveAuthFailure (m_nwConsecutiveAuthFailure st + 1) st1)) in
  receiveAuthenticationRequest5gAka env msg st = Done tt st'
  /\ sent st' = AuthenticationFailure cause (failureParameter5gAka env r st1 rand) :: sent st
  /\ m_nwConsecutiveAuthFailure st' = m_nwConsecutiveAuthFailure st + 1
  /\ running (m_timers st') T3520 = true
  /\ running (m_timers st') T3516 = false
  /\ m_rand (m_usim st') = [] /\ m_resStar (m_usim st') = [].
Proof.
  intros Hpass Hcheck Hcause Hlt st'.
  rewrite autnCheck5gAka_eq in Hcheck. injection Hcheck as Hverdict Hst1.
  assert (Hcnt : m_nwConsecutiveAuthFailure st1 = m_nwConsecutiveAuthFailure st)
    by (rewrite <- Hst1; apply counter_afterAutnCheck5gAka).
  assert (Hsent : sentMessages (trace st1) = sentMessages (trace st))
    by (rewrite <- Hst1; apply sentMessages_afterAutnCheck5gAka).
  split.
  - rewrite (receiveAuthenticationRequest5gAka_passes Hpass), Hverdict, Hst1.
    apply Z.ltb_lt in Hlt. rewrite <- Hcnt in Hlt.
    destruct r; cbn [dispatch5gAka failureCause5gAka] in *; [discriminate| | |];
      injection Hcause as <-;
      rewrite bind_networkFailingTheAuthCheck, Hlt; unfold timerStart, sqnMng_getSqn;
      repeat first [rewrite bind_modify | rewrite bind_gets | rewrite bind_calculateMilenage];
      rewrite sendFailure_eq; unfold st'; rewrite Hcnt; reflexivity.
  - unfold st', sent. rewrite sentMessages_afterSendFailure. cbn. rewrite Hsent.
    repeat (split; [reflexivity|]). reflexivity.
Qed.

(** X9.  [validateAutn] always returns, and all it changes is the SQN
    manager and the log: the stored RAND and RES*, the security contexts,
    the timers, the failure counter and the messages sent are as before.
    When the separation bit of the AMF is not set it answers
    AMF_SEPARATION_BIT_FAILURE without asking the SQN manager; when the bit
    is set the SQN manager has been asked once, about the SQN recovered from
    the AUTN. *)
Theorem validateAutn_frame (st : State) (rand autn : OctetString) :
  exists (r : EAutnValidationRes.t) (st' : State),
    validateAutn env rand autn st = Done r st'
    /\ m_rand (m_usim st') = m_rand (m_usim st)
    /\ m_resStar (m_usim st') = m_resStar (m_usim st)
    /\ m_currentNsCtx (m_usim st') = m_currentNsCtx (m_usim st)
    /\ m_nonCurrentNsCtx (m_usim st') = m_nonCurrentNsCtx (m_usim st)
    /\ m_timers st' = m_timers st
    /\ m_nwConsecutiveAuthFailure st' = m_nwConsecutiveAuthFailure st
    /\ emitted st' = emitted st
    /\ (bit (get (subCopy autn 6 2) 0) 7 = false ->
        r = EAutnValidationRes.AMF_SEPARATION_BIT_FAILURE
        /\ m_sqnMng (m_usim st') = m_sqnMng (m_usim st))
    /\ (bit (get (subCopy autn 6 2) 0) 7 = true ->
        m_sqnMng (m_usim st')
        = snd (checkSqn env (m_sqnMng (m_usim st)) (receivedSQNOf env st rand autn))).
Proof.
  rewrite validateAutn_eq.
  destruct (bit (get (subCopy autn 6 2) 0) 7); eexists; eexists; (split; [reflexivity|]).
  - unfold afterValidateAutn, emitted.
    destruct (octets_eq_dec _ _); cbn;
      repeat (split; [reflexivity|]); (split; [discriminate|]); reflexivity.
  - cbn. repeat (split; [reflexivity|]).
    split; [intros _; split; reflexivity|discriminate].
Qed.

(** *** The EAP-AKA' handler, path by path *)

Lemma validateAutn_keeps (st st1 : State) (rand autn : OctetString)
    (r : EAutnValidationRes.t) :
  validateAutn env rand autn st = Done r st1 ->
  config st1 = config st
  /\ m_nwConsecutiveAuthFailure st1 = m_nwConsecutiveAuthFailure st
  /\ sentMessages (trace st1) = sentMessages (trace st).
Proof.
  rewrite validateAutn_eq.
  destruct (bit (get (subCopy autn 6 2) 0) 7); intros H; injection H as _ <-.
  - unfold afterValidateAutn. destruct (octets_eq_dec _ _); repeat split.
  - repeat split.
Qed.

Lemma receiveAuthenticationRequestEap_reaches (st : State)
    (msg : AuthenticationRequest EapAttributes) (code : ECode) (id : Z)
    (attributes : EapAttributes) :
  reachesAutnEapAkaPrime env st msg code id attributes ->
  receiveAuthenticationRequestEap env msg st =
  checkAutnEapAkaPrime env msg (currentPlmn st)
    (EapAkaPrime code id AKA_CHALLENGE attributes) id attributes
    (ConstructServingNetworkName env (currentPlmn st)) st.
Proof.
  intros ((Hplmn & Heap & Hlr & Hla & Hlm) & Hkdf & Hinput & Htsc & Hksi & Hcol).
  unfold receiveAuthenticationRequestEap. rewrite bind_gets, Hplmn, Heap. cbn [negb].
  unfold receiveEapAkaPrime.
  destruct (ESubType_eq_dec AKA_CHALLENGE AKA_CHALLENGE) as [_|Hne]; [|contradiction].
  rewrite Hlr, Hla, Hlm, Hkdf. cbn [Nat.eqb negb orb Z.eqb Pos.eqb].
  destruct (octets_eq_dec _ _) as [_|Hne]; [|contradiction].
  destruct (ngKSI_tsc (ngKSI msg)); [|contradiction].
  apply Z.eqb_neq in Hksi. rewrite Hksi.
  rewrite bind_gets, (ngKsiInUse_false Hcol). reflexivity.
Qed.

(** The EAP-AKA' branch after a validation that leaves [st1]: T3516 is
    started and the handler dispatches on the verdict. *)
Lemma checkAutnEapAkaPrime_after (st st1 : State) (msg : AuthenticationRequest EapAttributes)
    (plmn : Plmn) (receivedEap : Eap EapAttributes) (id : Z) (attributes : EapAttributes)
    (snn : string) (r : EAutnValidationRes.t) :
  validateAutn env (getRand env attributes) (getAutn env attributes) st = Done r st1 ->
  r <> EAutnValidationRes.OK ->
  checkAutnEapAkaPrime env msg plmn receivedEap id attributes snn st =
  if m_nwConsecutiveAuthFailure st <? 3
  then match failureResponseEapAkaPrime env r st1 id (getRand env attributes) with
       | Some eap =>
           Done tt (afterSendEapFailure eap
                      (started T3520
                         (set_nwConsecutiveAuthFailure (m_nwConsecutiveAuthFailure st + 1)
                            (started T3516 st1))))
       | None => Done tt st
       end
  else Done tt (afterTrip
                  (set_nwConsecutiveAuthFailure (m_nwConsecutiveAuthFailure st + 1)
                     (started T3516 st1))).
Proof.
  intros Hval Hr.
  destruct (@validateAutn_keeps _ _ _ _ _ Hval) as (_ & Hcnt & _).
  unfold checkAutnEapAkaPrime. erewrite bind_Done; [|exact Hval].
  unfold timerStart at 1. rewrite bind_modify.
  destruct r; [contradiction| | |]; cbv beta iota;
    rewrite bind_networkFailingTheAuthCheck;
    change (m_nwConsecutiveAuthFailure
              (record (TimerStart T3516) (with_timers (set_running T3516 true) st1)))
      with (m_nwConsecutiveAuthFailure st1);
    rewrite Hcnt; destruct (m_nwConsecutiveAuthFailure st <? 3); try reflexivity;
    unfold timerStart, sqnMng_getSqn;
    repeat first [rewrite bind_modify | rewrite bind_gets | rewrite bind_calculateMilenage];
    reflexivity.
Qed.

Lemma bind_config_supi_value {B : Type}
    (k : string -> M SqnManager EapAttributes TlsSession B) (st : State) :
  bind (@config_supi_value SqnManager EapAttributes TlsSession) k st =
  match supi (config st) with
  | Some s => k s st
  | None => Crash BadOptionalAccess
  end.
Proof.
  unfold config_supi_value, bind, gets. destruct (supi (config st)); reflexivity.
Qed.

(** X10.  An EAP-AKA' challenge is accepted when it passes the checks, its
    AUTN validates, a SUPI is configured and its AT_MAC is the MAC computed
    with KAUT = MK[16..48).  The handler then stores the received RAND and
    clears RES*, stages a new context with the ngKSI and ABBA of the message
    and KAUSF cut from MK, resets the failure counter, stops T3520, leaves
    T3516 running, and sends one Authentication Response that carries the
    AKA-Challenge packet with AT_RES, AT_KDF = 1 and the AT_MAC computed
    over the packet with a zero MAC. *)
Theorem receiveAuthenticationRequestEap_accepts (st st1 : State)
    (msg : AuthenticationRequest EapAttributes) (code : ECode) (id : Z)
    (attributes : EapAttributes) (supi' : string) :
  reachesAutnEapAkaPrime env st msg code id attributes ->
  validateAutn env (getRand env attributes) (getAutn env attributes) st
    = Done EAutnValidationRes.OK st1 ->
  supi (config st) = Some supi' ->
  expectedMacEapAkaPrime env st1 (currentPlmn st)
    (EapAkaPrime code id AKA_CHALLENGE attributes) (getRand env attributes) supi'
    = getMac env attributes ->
  let rand := getRand env attributes in
  let response :=
    akaChallengeResponse env id
      (res (milenageOf env (config st) (getSqn env (m_sqnMng (m_usim st1))) rand false))
      (kautEapAkaPrime env st1 (currentPlmn st) rand supi') in
  exists st' : State,
    receiveAuthenticationRequestEap env msg st = Done tt st'
    /\ m_rand (m_usim st') = rand
    /\ m_resStar (m_usim st') = []
    /\ m_nonCurrentNsCtx (m_usim st')
       = Some (stagedContextEapAkaPrime env st1 msg (currentPlmn st) rand supi')
    /\ m_nwConsecutiveAuthFailure st' = 0
    /\ running (m_timers st') T3520 = false
    /\ running (m_timers st') T3516 = true
    /\ sent st' = AuthenticationResponse None (Some response) :: sent st.
Proof.
  intros Hreach Hval Hsupi Hmac rand response.
  destruct (@validateAutn_keeps _ _ _ _ _ Hval) as (Hcfg & _ & Hsent).
  rewrite (@receiveAuthenticationRequestEap_reaches _ _ _ _ _ Hreach).
  unfold checkAutnEapAkaPrime. erewrite bind_Done; [|exact Hval].
  unfold timerStart at 1. rewrite bind_modify. cbv beta iota.
  unfold sqnMng_getSqn. rewrite bind_gets, bind_calculateMilenage, bind_gets.
  rewrite bind_config_supi_value.
  cbn [config record with_timers]. rewrite Hcfg, Hsupi.
  unfold expectedMacEapAkaPrime, kautEapAkaPrime, masterKeyEapAkaPrime in Hmac.
  rewrite Hcfg in Hmac. cbn [m_usim record with_timers].
  destruct (octets_eq_dec _ _) as [_|Hne]; [|contradiction].
  cbn. eexists. split; [reflexivity|]. cbn.
  unfold response, akaChallengeResponse, stagedContextEapAkaPrime, kautEapAkaPrime,
    masterKeyEapAkaPrime, sent. cbn. rewrite Hcfg, Hsent.
  repeat (split; [reflexivity|]). reflexivity.
Qed.


(** X12.  An EAP-AKA' challenge that passes the checks and fails the AUTN
    check while the failure counter is below 3 is answered with an
    Authentication Response whose EAP-AKA' packet follows the verdict:
    AKA-Authentication-Reject for a MAC failure, AKA-Synchronization-Failure
    with the AUTS for a synchronisation failure, AKA-Client-Error with code
    0 for a separation bit that is not set.  The counter grows by one, T3520
    is running, RAND and RES* are cleared and T3516 is stopped.  With the
    counter at 3 or above nothing is sent. *)
Theorem receiveAuthenticationRequestEap_failure_response (st st1 : State)
    (msg : AuthenticationRequest EapAttributes) (code : ECode) (id : Z)
    (attributes : EapAttributes) (r : EAutnValidationRes.t) (eap : Eap EapAttributes) :
  reachesAutnEapAkaPrime env st msg code id attributes ->
  validateAutn env (getRand env attributes) (getAutn env attributes) st = Done r st1 ->
  failureResponseEapAkaPrime env r st1 id (getRand env attributes) = Some eap ->
  (m_nwConsecutiveAuthFailure st < 3 ->
   let st' := afterSendEapFailure eap
                (started T3520
                   (set_nwConsecutiveAuthFailure (m_nwConsecutiveAuthFailure st + 1)
                      (started T3516 st1))) in
   receiveAuthenticationRequestEap env msg st = Done tt st'
   /\ sent st' = AuthenticationResponse None (Some eap) :: sent st
   /\ m_nwConsecutiveAuthFailure st' = m_nwConsecutiveAuthFailure st + 1
   /\ running (m_timers st') T3520 = true
   /\ running (m_timers st') T3516 = false
   /\ m_rand (m_usim st') = [] /\ m_resStar (m_usim st') = [])
  /\
  (3 <= m_nwConsecutiveAuthFailure st ->
   exists st' : State,
     receiveAuthenticationRequestEap env msg st = Done tt st'
     /\ sent st' = sent st).
Proof.
  intros Hreach Hval Hresp.
  assert (Hr : r <> EAutnValidationRes.OK) by (intros ->; discriminate Hresp).
  destruct (@validateAutn_keeps _ _ _ _ _ Hval) as (_ & _ & Hsent).
  rewrite (@receiveAuthenticationRequestEap_reaches _ _ _ _ _ Hreach),
    (@checkAutnEapAkaPrime_after _ _ _ _ _ _ _ _ _ Hval Hr), Hresp.
  split.
  - intros Hlt. apply Z.ltb_lt in Hlt. rewrite Hlt. cbn zeta.
    split; [reflexivity|]. unfold sent. cbn. rewrite Hsent.
    repeat (split; [reflexivity|]). reflexivity.
  - intros Hge. apply Z.ltb_ge in Hge. rewrite Hge.
    eexists. split; [reflexivity|].
    unfold sent, afterTrip. cbn. rewrite <- Hsent.
    destruct (m_cmState st1) eqn:Hcm; destruct (m_cmState (started T3516 st1)) eqn:Hcm';
      cbn in Hcm'; rewrite Hcm in Hcm'; try discriminate; cbn; reflexivity.
Qed.

(** X13.  An EAP-AKA' challenge whose AUTN validates but whose AT_MAC is not
    the expected one is answered, while the failure counter is below 3,
    with AKA-Client-Error code 0.  RAND and RES* are cleared, no context is
    staged, the counter grows by one, T3520 is running and T3516 stopped;
    the sequence-number manager stays as the validation left it, so the
    SQN of the refused challenge has been consumed. *)
Theorem receiveAuthenticationRequestEap_mac_mismatch (st st1 : State)
    (msg : AuthenticationRequest EapAttributes) (code : ECode) (id : Z)
    (attributes : EapAttributes) (supi' : string) :
  reachesAutnEapAkaPrime env st msg code id attributes ->
  validateAutn env (getRand env attributes) (getAutn env attributes) st
    = Done EAutnValidationRes.OK st1 ->
  supi (config st) = Some supi' ->
  expectedMacEapAkaPrime env st1 (currentPlmn st)
    (EapAkaPrime code id AKA_CHALLENGE attributes) (getRand env attributes) supi'
    <> getMac env attributes ->
  m_nwConsecutiveAuthFailure st < 3 ->
  exists st' : State,
    receiveAuthenticationRequestEap env msg st = Done tt st'
    /\ sent st' = AuthenticationResponse None
                    (Some (EapAkaPrime RESPONSE id AKA_CLIENT_ERROR
                             (putClientErrorCode env 0 (emptyAttributes env)))) :: sent st
    /\ m_rand (m_usim st') = [] /\ m_resStar (m_usim st') = []
    /\ m_nonCurrentNsCtx (m_usim st') = m_nonCurrentNsCtx (m_usim st1)
    /\ m_sqnMng (m_usim st') = m_sqnMng (m_usim st1)
    /\ m_nwConsecutiveAuthFailure st' = m_nwConsecutiveAuthFailure st + 1
    /\ running (m_timers st') T3520 = true
    /\ running (m_timers st') T3516 = false.
Proof.
  intros Hreach Hval Hsupi Hmac Hlt.
  destruct (@validateAutn_keeps _ _ _ _ _ Hval) as (Hcfg & Hcnt & Hsent).
  rewrite (@receiveAuthenticationRequestEap_reaches _ _ _ _ _ Hreach).
  unfold checkAutnEapAkaPrime. erewrite bind_Done; [|exact Hval].
  unfold timerStart at 1. rewrite bind_modify. cbv beta iota.
  unfold sqnMng_getSqn. rewrite bind_gets, bind_calculateMilenage, bind_gets.
  rewrite bind_config_supi_value.
  cbn [config record with_timers]. rewrite Hcfg, Hsupi.
  unfold expectedMacEapAkaPrime, kautEapAkaPrime, masterKeyEapAkaPrime in Hmac.
  rewrite Hcfg in Hmac. cbn [m_usim record with_timers].
  destruct (octets_eq_dec _ _) as [Heq|_]; [contradiction|].
  unfold log at 1. rewrite bind_modify, bind_networkFailingTheAuthCheck.
  cbn [m_nwConsecutiveAuthFailure record with_timers]. rewrite Hcnt.
  apply Z.ltb_lt in Hlt. rewrite Hlt.
  eexists. split; [reflexivity|]. unfold sent. cbn. rewrite Hsent.
  repeat (split; [reflexivity|]). reflexivity.
Qed.

(** X14.  With a current PLMN, the EAP handler answers with an MM Status
    of cause "semantically incorrect message", and changes nothing else,
    when the request carries no EAP message or one that is refused: a
    method other than EAP-AKA' and EAP-TLS, an EAP-AKA' packet that is not a
    well-formed AKA-Challenge, or an EAP-TLS packet without the Start flag
    while no session is started. *)
Theorem receiveAuthenticationRequestEap_refuses (st : State)
    (msg : AuthenticationRequest EapAttributes) :
  hasValue env (currentPlmn st) = true ->
  match eapMessage msg with
  | None => True
  | Some eap => refusedEap env st msg eap
  end ->
  receiveAuthenticationRequestEap env msg st
  = Done tt (record (SendMmStatus SEMANTICALLY_INCORRECT_MESSAGE) st).
Proof.
  intros Hplmn Href.
  unfold receiveAuthenticationRequestEap. rewrite bind_gets, Hplmn. cbn [negb].
  destruct (eapMessage msg) as [[code id subType attributes|code id flag tlsData|code id]|];
    try reflexivity.
  - unfold receiveEapAkaPrime.
    destruct (ESubType_eq_dec subType AKA_CHALLENGE) as [Hsub|_]; [|reflexivity].
    destruct Href as [Hne|Hlen]; [contradiction|].
    assert (Hbad : negb (Nat.eqb (List.length (getRand env attributes)) 16)
                   || negb (Nat.eqb (List.length (getAutn env attributes)) 16)
                   || negb (Nat.eqb (List.length (getMac env attributes)) 16) = true).
    { destruct Hlen as [H|[H|H]]; apply Nat.eqb_neq in H; rewrite H; cbn;
        rewrite ?orb_true_r; reflexivity. }
    rewrite Hbad. reflexivity.
  - destruct Href as ((Htsc & Hksi) & Hstart & Hflag).
    unfold receiveEapTls.
    destruct (ngKSI_tsc (ngKSI msg)); [|contradiction].
    apply Z.eqb_neq in Hksi. rewrite Hksi, bind_gets, Hstart, Hflag. reflexivity.
Qed.

(** *** The EAP-TLS branch *)

Lemma bind_tls_do_handshake {B : Type}
    (k : Z -> M SqnManager EapAttributes TlsSession B) (st : State) :
  bind (tls_do_handshake env) k st = k (handshakeResult env st) (afterHandshake env st).
Proof.
  unfold bind, tls_do_handshake, handshakeResult, afterHandshake.
  destruct (SSL_do_handshake env (m_tls st)). reflexivity.
Qed.

(** An EAP-TLS packet with a valid ngKSI that arrives while the handshake
    is under way goes to the feeding of the session. *)
Lemma receiveAuthenticationRequestEap_tls_handshake (st : State)
    (msg : AuthenticationRequest EapAttributes) (code : ECode) (id flag : Z)
    (tlsData : OctetString) :
  hasValue env (currentPlmn st) = true ->
  eapMessage msg = Some (EapTLS code id flag tlsData) ->
  validNgKsi msg ->
  m_tlsState st = TLS_HANDSHAKE ->
  receiveAuthenticationRequestEap env msg st
  = continueEapTls env msg (currentPlmn st) id tlsData st.
Proof.
  intros Hplmn Heap (Htsc & Hksi) Hs.
  unfold receiveAuthenticationRequestEap. rewrite bind_gets, Hplmn, Heap. cbn [negb].
  unfold receiveEapTls.
  destruct (ngKSI_tsc (ngKSI msg)); [|contradiction].
  apply Z.eqb_neq in Hksi. rewrite Hksi, bind_gets, Hs. reflexivity.
Qed.

(** The state the feeding leaves, seen from the initial state. *)
Lemma afterTlsFeed_frame (st : State) (tlsData : OctetString) :
  m_tlsState (afterTlsFeed env st tlsData) = m_tlsState st
  /\ config (afterTlsFeed env st tlsData) = config st
  /\ m_usim (afterTlsFeed env st tlsData) = m_usim st
  /\ m_timers (afterTlsFeed env st tlsData) = m_timers st
  /\ m_nwConsecutiveAuthFailure (afterTlsFeed env st tlsData) = m_nwConsecutiveAuthFailure st
  /\ trace (afterTlsFeed env st tlsData) = trace st.
Proof. repeat split. Qed.

(** X15.  The EAP-TLS packet on which the handshake completes, received
    while the handshake is under way: the state becomes TLS_DONE, T3520 is
    stopped, a context is staged with the ngKSI and ABBA of the request
    and, as KAUSF, octets 64 to 95 of the exported key material, and one
    Authentication Response with an empty EAP-TLS packet (flags 128) is
    sent.  The failure counter, the stored RAND and RES* and the current
    context are left as they were, and the ngKSI is not compared with the
    stored contexts. *)
Theorem receiveAuthenticationRequestEap_tls_completes (st : State)
    (msg : AuthenticationRequest EapAttributes) (code : ECode) (id flag : Z)
    (tlsData : OctetString) :
  hasValue env (currentPlmn st) = true ->
  eapMessage msg = Some (EapTLS code id flag tlsData) ->
  validNgKsi msg ->
  m_tlsState st = TLS_HANDSHAKE ->
  handshakeResult env (afterTlsFeed env st tlsData) = 1 ->
  exists st' : State,
    receiveAuthenticationRequestEap env msg st = Done tt st'
    /\ m_tlsState st' = TLS_DONE
    /\ m_tls st' = m_tls (afterHandshake env (afterTlsFeed env st tlsData))
    /\ m_nonCurrentNsCtx (m_usim st')
       = Some (stagedContextEapTls env (config st) msg (currentPlmn st)
                 (SSL_export_keying_material env (m_tls st')))
    /\ running (m_timers st') T3520 = false
    /\ sent st' = AuthenticationResponse None (Some (EapTLS RESPONSE id 128 [])) :: sent st
    /\ m_nwConsecutiveAuthFailure st' = m_nwConsecutiveAuthFailure st
    /\ m_rand (m_usim st') = m_rand (m_usim st)
    /\ m_resStar (m_usim st') = m_resStar (m_usim st)
    /\ m_currentNsCtx (m_usim st') = m_currentNsCtx (m_usim st).
Proof.
  intros Hplmn Heap Hksi Hs Hone.
  rewrite (@receiveAuthenticationRequestEap_tls_handshake _ _ _ _ _ _ Hplmn Heap Hksi Hs).
  destruct (afterTlsFeed_frame st tlsData) as (Hhs & Hcfg & Husim & Htim & Hcnt & Htr).
  rewrite Hs in Hhs.
  unfold continueEapTls. rewrite bind_modify, bind_gets.
  change (set_tls (tlsFeed env (m_tls st) tlsData) st) with (afterTlsFeed env st tlsData).
  set (st1 := afterTlsFeed env st tlsData) in *. clearbody st1.
  rewrite Hhs, bind_tls_do_handshake, Hone.
  cbn [Z.eqb Pos.eqb]. unfold timerStop. rewrite !bind_modify, bind_gets.
  unfold afterHandshake. cbn.
  eexists. split; [reflexivity|].
  unfold sent, stagedContextEapTls. cbn. rewrite Hcfg, Husim, Hcnt, Htr.
  repeat (split; [reflexivity|]). reflexivity.
Qed.

(** X16.  An EAP-TLS packet on which the handshake does not complete,
    received while the handshake is under way, leaves the state at
    TLS_HANDSHAKE and the USIM untouched.  When the handshake wants to read
    or write, one Authentication Response carries the octets pending in the
    write BIO; on any other error only an MM Status is sent.  T3520 is not
    touched by the EAP handler on either path. *)
Theorem receiveAuthenticationRequestEap_tls_continues (st : State)
    (msg : AuthenticationRequest EapAttributes) (code : ECode) (id flag : Z)
    (tlsData : OctetString) :
  hasValue env (currentPlmn st) = true ->
  eapMessage msg = Some (EapTLS code id flag tlsData) ->
  validNgKsi msg ->
  m_tlsState st = TLS_HANDSHAKE ->
  handshakeResult env (afterTlsFeed env st tlsData) <> 1 ->
  let st2 := afterHandshake env (afterTlsFeed env st tlsData) in
  let err := SSL_get_error env (m_tls st2) (handshakeResult env (afterTlsFeed env st tlsData)) in
  exists st' : State,
    receiveAuthenticationRequestEap env msg st = Done tt st'
    /\ m_tlsState st' = TLS_HANDSHAKE
    /\ m_usim st' = m_usim st
    /\ m_timers st' = m_timers st
    /\ m_nwConsecutiveAuthFailure st' = m_nwConsecutiveAuthFailure st
    /\ (err = SSL_ERROR_WANT_READ \/ err = SSL_ERROR_WANT_WRITE ->
        emitted st' = SendNasMessage
                        (AuthenticationResponse None
                           (Some (EapTLS RESPONSE id 128 (BIO_get_mem_data env (m_tls st2)))))
                      :: emitted st)
    /\ (err <> SSL_ERROR_WANT_READ -> err <> SSL_ERROR_WANT_WRITE ->
        emitted st' = SendMmStatus SEMANTICALLY_INCORRECT_MESSAGE :: emitted st).
Proof.
  intros Hplmn Heap Hksi Hs Hone.
  rewrite (@receiveAuthenticationRequestEap_tls_handshake _ _ _ _ _ _ Hplmn Heap Hksi Hs).
  destruct (afterTlsFeed_frame st tlsData) as (Hhs & _ & Husim & Htim & Hcnt & Htr).
  rewrite Hs in Hhs.
  unfold continueEapTls. rewrite bind_modify, bind_gets.
  change (set_tls (tlsFeed env (m_tls st) tlsData) st) with (afterTlsFeed env st tlsData).
  set (st1 := afterTlsFeed env st tlsData) in *. clearbody st1.
  cbv zeta. set (st2 := afterHandshake env st1).
  set (err := SSL_get_error env (m_tls st2) (handshakeResult env st1)).
  rewrite Hhs, bind_tls_do_handshake.
  apply Z.eqb_neq in Hone. rewrite Hone, bind_gets.
  fold st2. unfold checkHandshakeState. rewrite Hone. cbn [negb]. fold err.
  assert (Hfrom : m_tlsState st2 = TLS_HANDSHAKE /\ m_usim st2 = m_usim st
                  /\ m_timers st2 = m_timers st
                  /\ m_nwConsecutiveAuthFailure st2 = m_nwConsecutiveAuthFailure st
                  /\ emitted st2 = emitted st).
  { unfold st2, afterHandshake, emitted. cbn. rewrite Htr. repeat split; assumption. }
  destruct Hfrom as (H1 & H2 & H3 & H4 & H5).
  destruct ((err =? SSL_ERROR_WANT_READ) || (err =? SSL_ERROR_WANT_WRITE)) eqn:Hwant.
  - cbn [negb]. rewrite bind_gets.
    eexists. split; [reflexivity|].
    repeat match goal with |- _ /\ _ => split end; try assumption.
    + intros _. rewrite <- H5. reflexivity.
    + intros Hr Hw. apply Z.eqb_neq in Hr, Hw. rewrite Hr, Hw in Hwant. discriminate.
  - cbn [negb].
    eexists. split; [reflexivity|].
    repeat match goal with |- _ /\ _ => split end; try assumption.
    + intros [Hr|Hw]; [apply Z.eqb_eq in Hr; rewrite Hr in Hwant
                      |apply Z.eqb_eq in Hw; rewrite Hw, orb_true_r in Hwant];
        discriminate.
    + intros _ _. rewrite <- H5. reflexivity.
Qed.



(** *** The EAP-TLS state only moves forward *)

Lemma advances_keeps {A : Type} (m : M SqnManager EapAttributes TlsSession A) :
  keeps (fun st => m_tlsState st) m -> advancesTls m.
Proof. intros Hm st st' a H. rewrite (Hm _ _ _ H). apply Z.le_refl. Qed.

Lemma advances_bind {A B : Type} (m : M SqnManager EapAttributes TlsSession A)
    (k : A -> M SqnManager EapAttributes TlsSession B) :
  advancesTls m -> (forall a, advancesTls (k a)) -> advancesTls (bind m k).
Proof.
  intros Hm Hk st st' b H. unfold bind in H.
  destruct (m st) as [a st1|f] eqn:Hrun; [|discriminate].
  exact (Z.le_trans _ _ _ (Hm _ _ _ Hrun) (Hk a _ _ _ H)).
Qed.

Lemma advances_done {B : Type} (k : unit -> M SqnManager EapAttributes TlsSession B) :
  (forall a, keeps (fun st => m_tlsState st) (k a)) ->
  advancesTls (bind (modify (set_tlsState TLS_DONE)) k).
Proof.
  intros Hk st st' b H. unfold bind, modify in H.
  rewrite (Hk tt _ _ _ H). cbn. destruct (m_tlsState st); cbn; discriminate.
Qed.

Lemma keepsTls_networkFailingTheAuthCheck (hasChance : bool) :
  keeps (fun st => m_tlsState st)
    (networkFailingTheAuthCheck (SqnManager:=SqnManager) (EapAttributes:=EapAttributes)
       (TlsSession:=TlsSession) hasChance).
Proof.
  intros st st' a H. rewrite networkFailingTheAuthCheck_eq in H.
  destruct hasChance.
  - destruct (m_nwConsecutiveAuthFailure st <? 3); injection H as _ <-; [reflexivity|].
    unfold afterTrip. cbn. destruct (m_cmState st); reflexivity.
  - injection H as _ <-. unfold afterTrip. cbn. destruct (m_cmState st); reflexivity.
Qed.

(** Proves that a computation keeps the EAP-TLS state by walking down its
    code. *)
Ltac keepsTls_tac :=
  repeat first [ apply keepsTls_networkFailingTheAuthCheck
               | keeps_step
               | progress unfold sendNasMessage, sendFailure, sendEapFailure,
                   sendAuthFailure, acceptChallenge5gAka, dispatch5gAka,
                   checkAutnEapAkaPrime, receiveEapAkaPrime,
                   receiveAuthenticationRequest5gAka, receiveAuthenticationResult,
                   receiveAuthenticationReject ].

Lemma keepsTls_receiveAuthenticationRequest5gAka (msg : AuthenticationRequest EapAttributes) :
  keeps (fun st => m_tlsState st) (receiveAuthenticationRequest5gAka env msg).
Proof. keepsTls_tac. Qed.

Lemma keepsTls_receiveEapAkaPrime (msg : AuthenticationRequest EapAttributes) (plmn : Plmn)
    (receivedEap : Eap EapAttributes) (id : Z) (subType : ESubType)
    (attributes : EapAttributes) :
  keeps (fun st => m_tlsState st)
    (receiveEapAkaPrime env msg plmn receivedEap id subType attributes).
Proof. keepsTls_tac. Qed.

Lemma keepsTls_handle_result (msg : AuthenticationResult EapAttributes) :
  keeps (fun st => m_tlsState st) (handle env (ResultReceived msg)).
Proof. unfold handle. keepsTls_tac. Qed.

Lemma keepsTls_handle_reject (msg : AuthenticationReject EapAttributes) :
  keeps (fun st => m_tlsState st) (handle env (RejectReceived msg)).
Proof. unfold handle. keepsTls_tac. Qed.

Lemma advances_continueEapTls (msg : AuthenticationRequest EapAttributes) (plmn : Plmn)
    (id : Z) (tlsData : OctetString) :
  advancesTls (continueEapTls env msg plmn id tlsData).
Proof.
  unfold continueEapTls.
  apply advances_bind; [apply advances_keeps; keepsTls_tac|intros _].
  apply advances_bind; [apply advances_keeps; keepsTls_tac|intros tlsState].
  destruct tlsState; [apply advances_keeps; keepsTls_tac| |apply advances_keeps; keepsTls_tac].
  apply advances_bind; [apply advances_keeps; keepsTls_tac|intros state].
  destruct (state =? 1); [|apply advances_keeps; keepsTls_tac].
  apply advances_bind; [apply advances_keeps; keepsTls_tac|intros _].
  apply advances_done. intros _. keepsTls_tac.
Qed.

Lemma advances_receiveEapTls (msg : AuthenticationRequest EapAttributes) (plmn : Plmn)
    (id flag : Z) (tlsData : OctetString) :
  advancesTls (receiveEapTls env msg plmn id flag tlsData).
Proof.
  unfold receiveEapTls.
  destruct (ngKSI_tsc (ngKSI msg)); [|apply advances_keeps; keepsTls_tac].
  destruct (ngKSI_ksi (ngKSI msg) =? NOT_AVAILABLE_OR_RESERVED);
    [apply advances_keeps; keepsTls_tac|].
  intros st st' a H. rewrite bind_gets in H.
  destruct (m_tlsState st) eqn:Hs.
  - cbn. destruct (m_tlsState st'); cbn; discriminate.
  - rewrite <- Hs. exact (@advances_continueEapTls msg plmn id tlsData _ _ _ H).
  - rewrite <- Hs. exact (@advances_continueEapTls msg plmn id tlsData _ _ _ H).
Qed.

Lemma advances_handle (ev : AuthEvent EapAttributes) : advancesTls (handle env ev).
Proof.
  destruct ev as [msg|msg|msg].
  - unfold handle, receiveAuthenticationRequest.
    apply advances_bind; [apply advances_keeps; keepsTls_tac|intros _].
    apply advances_bind; [apply advances_keeps; keepsTls_tac|intros valid].
    destruct (negb valid); [apply advances_keeps; keepsTls_tac|].
    apply advances_bind; [apply advances_keeps; keepsTls_tac|intros _].
    destruct (eapMessage msg) as [eap|] eqn:Heap;
      [|apply advances_keeps, keepsTls_receiveAuthenticationRequest5gAka].
    unfold receiveAuthenticationRequestEap.
    apply advances_bind; [apply advances_keeps; keepsTls_tac|intros plmn].
    destruct (negb (hasValue env plmn)); [apply advances_keeps; keepsTls_tac|].
    rewrite Heap. destruct eap as [code id subType attributes|code id flag tlsData|code id].
    + apply advances_keeps, keepsTls_receiveEapAkaPrime.
    + apply advances_receiveEapTls.
    + apply advances_keeps; keepsTls_tac.
  - apply advances_keeps, keepsTls_handle_result.
  - apply advances_keeps, keepsTls_handle_reject.
Qed.

(** X18.  Along any sequence of authentication events the EAP-TLS state
    only moves forward, from TLS_START over TLS_HANDSHAKE to TLS_DONE:
    no handler of the file opens a second session once one was started,
    and a session that is done stays done. *)
Theorem tlsState_never_goes_back (evs : list (AuthEvent EapAttributes)) (st st' : State) :
  handleAll env evs st = Done tt st' ->
  tlsRank (m_tlsState st) <= tlsRank (m_tlsState st')
  /\ (m_tlsState st = TLS_DONE -> m_tlsState st' = TLS_DONE)
  /\ (m_tlsState st' = TLS_START -> m_tlsState st = TLS_START).
Proof.
  intros H.
  assert (Hle : tlsRank (m_tlsState st) <= tlsRank (m_tlsState st')).
  { revert st H. induction evs as [|ev evs IH]; intros st H.
    - injection H as <-. apply Z.le_refl.
    - cbn [handleAll] in H. unfold bind in H.
      destruct (handle env ev st) as [[] st1|f] eqn:Hrun; [|discriminate].
      exact (Z.le_trans _ _ _ (@advances_handle ev _ _ _ Hrun) (IH _ H)). }
  split; [exact Hle|].
  destruct (m_tlsState st), (m_tlsState st'); cbn in Hle; split; intros Heq;
    first [reflexivity | discriminate Heq | exfalso; apply Hle; reflexivity].
Qed.

(** X19.  An EAP request that arrives at the ngKSI check with a mapped
    security context type, or with the reserved key set identifier, is
    answered with an Authentication Failure of cause "unspecified protocol
    error", for EAP-AKA' and EAP-TLS alike.  RAND and RES* are cleared and
    T3516 is stopped; the failure counter, the sequence-number manager, the
    staged context and the EAP-TLS session are left as they were. *)
Theorem receiveAuthenticationRequestEap_invalid_ngKsi (st : State)
    (msg : AuthenticationRequest EapAttributes) :
  reachesNgKsiCheckEap env st msg ->
  ~ validNgKsi msg ->
  exists st' : State,
    receiveAuthenticationRequestEap env msg st = Done tt st'
    /\ sent st' = AuthenticationFailure UNSPECIFIED_PROTOCOL_ERROR None :: sent st
    /\ m_rand (m_usim st') = [] /\ m_resStar (m_usim st') = []
    /\ running (m_timers st') T3516 = false
    /\ m_nwConsecutiveAuthFailure st' = m_nwConsecutiveAuthFailure st
    /\ m_sqnMng (m_usim st') = m_sqnMng (m_usim st)
    /\ m_nonCurrentNsCtx (m_usim st') = m_nonCurrentNsCtx (m_usim st)
    /\ m_tlsState st' = m_tlsState st
    /\ m_tls st' = m_tls st.
Proof.
  intros (Hplmn & Hreach) Hinvalid.
  assert (Hksi : ngKSI_tsc (ngKSI msg) = NATIVE_SECURITY_CONTEXT ->
                 (ngKSI_ksi (ngKSI msg) =? NOT_AVAILABLE_OR_RESERVED) = true).
  { intros Htsc. destruct (Z.eqb_spec (ngKSI_ksi (ngKSI msg)) NOT_AVAILABLE_OR_RESERVED)
      as [_|Hne]; [reflexivity|].
    destruct Hinvalid. split; [rewrite Htsc; discriminate|exact Hne]. }
  unfold receiveAuthenticationRequestEap. rewrite bind_gets, Hplmn. cbn [negb].
  destruct (eapMessage msg) as [[code id subType attributes|code id flag tlsData|code id]|];
    try contradiction.
  - destruct Hreach as (-> & Hlr & Hla & Hlm & Hkdf & Hinput).
    unfold receiveEapAkaPrime.
    destruct (ESubType_eq_dec AKA_CHALLENGE AKA_CHALLENGE) as [_|Hne]; [|contradiction].
    rewrite Hlr, Hla, Hlm, Hkdf. cbn [Nat.eqb negb orb Z.eqb Pos.eqb].
    destruct (octets_eq_dec _ _) as [_|Hne]; [|contradiction].
    destruct (ngKSI_tsc (ngKSI msg)); [rewrite (Hksi eq_refl)|];
      (eexists; split; [reflexivity|]); unfold sent; cbn;
      repeat (split; [reflexivity|]); reflexivity.
  - unfold receiveEapTls.
    destruct (ngKSI_tsc (ngKSI msg)); [rewrite (Hksi eq_refl)|];
      (eexists; split; [reflexivity|]); unfold sent; cbn;
      repeat (split; [reflexivity|]); reflexivity.
Qed.

End Properties.

(** ** The UI method of the private-key store *)

(** X20.  The reader and the writer of the UI method built by [makeMethod]
    agree.  When a password is attached and the string is a prompt or a
    verification with the default-password flag, the reader answers with
    the attached password and the writer returns without printing the
    prompt; in every other case both pass the call to the callbacks of
    OpenSSL's own UI method.  The opener and the closer are always
    OpenSSL's. *)
Theorem makeMethod_reader_writer_agree (UIT_PROMPT UIT_VERIFY UI_INPUT_FLAG_DEFAULT_PWD : Z)
    (ui : UI) (uis : UI_STRING) :
  let method := makeMethod UIT_PROMPT UIT_VERIFY UI_INPUT_FLAG_DEFAULT_PWD in
  let asked := asksDefaultPassword UIT_PROMPT UIT_VERIFY UI_INPUT_FLAG_DEFAULT_PWD uis in
  (forall password : string,
     UI_get0_user_data ui = Some password -> asked ->
     method_reader method ui uis = UiReturn 1 (Some password)
     /\ method_writer method ui uis = UiReturn 1 None)
  /\ (UI_get0_user_data ui = None \/ ~ asked ->
      method_reader method ui uis = UiOpenSSL ui_reader
      /\ method_writer method ui uis = UiOpenSSL ui_writer)
  /\ method_opener method ui = UiOpenSSL ui_opener
  /\ method_closer method ui = UiOpenSSL ui_closer.
Proof.
  intros method asked. unfold method, asked, asksDefaultPassword, makeMethod; cbn.
  unfold uiReader, uiWriter.
  destruct (Z.eqb_spec (UI_get_string_type uis) UIT_PROMPT) as [Hp|Hp];
    destruct (Z.eqb_spec (UI_get_string_type uis) UIT_VERIFY) as [Hv|Hv];
    destruct (Z.eqb_spec (Z.land (UI_get_input_flags uis) UI_INPUT_FLAG_DEFAULT_PWD) 0)
      as [Hf|Hf];
    destruct (UI_get0_user_data ui) as [pw|]; cbn;
    (split; [intros password Hpw Hasked|split; [intros Hno|split; reflexivity]]);
    try discriminate Hpw;
    try (injection Hpw as <-; split; reflexivity);
    try (split; reflexivity);
    try (destruct Hasked as ([Ht|Ht] & Hflag); contradiction);
    try (destruct Hno as [Hnone|Hnot]; [discriminate Hnone|];
         destruct Hnot; split; [first [left; assumption | right; assumption]|assumption]).
Qed.

(** ** Concrete runs

    The theorems applied to the sample instance, and the runs that refute
    the two properties the code does not have. *)

Lemma fx_passesChecks (st : UeState OctetString FxAttributes nat) (autn : OctetString) :
  currentPlmn st = currentPlmn fx_state ->
  m_currentNsCtx (m_usim st) = None ->
  m_nonCurrentNsCtx (m_usim st) = None ->
  List.length autn = 16%nat ->
  passesChecks5gAka fx_env st (fx_request autn 0) fx_rand autn.
Proof.
  intros Hplmn Hcur Hnon Hlen. unfold passesChecks5gAka, wellFormedChallenge.
  rewrite Hplmn.
  split; [reflexivity|].
  split; [split; [reflexivity|split; [reflexivity|split; [reflexivity|exact Hlen]]]|].
  split; [discriminate|]. split; [discriminate|].
  intros (ctx & [H | H] & _); congruence.
Qed.

Lemma receiveAuthenticationRequest5gAka_accepts_witness :
  exists st' : UeState OctetString FxAttributes nat,
    receiveAuthenticationRequest5gAka fx_env (fx_request fx_autn 0) fx_state = Done tt st'
    /\ m_rand (m_usim st') = fx_rand
    /\ m_nwConsecutiveAuthFailure st' = 0
    /\ running (m_timers st') T3520 = false
    /\ sentMessages (trace st') = [AuthenticationResponse (Some (m_resStar (m_usim st'))) None].
Proof.
  destruct (@receiveAuthenticationRequest5gAka_accepts _ _ _ fx_env fx_state
              (afterAutnCheck5gAka fx_env fx_state fx_rand fx_autn)
              (fx_request fx_autn 0) fx_rand fx_autn)
    as (st' & ctx & Hrun & Hrand & Hres & _ & _ & _ & _ & _ & _ & Hcnt & Ht & _ & Hsent).
  - apply fx_passesChecks; reflexivity.
  - vm_compute. reflexivity.
  - exists st'. rewrite Hres. repeat split; assumption.
Defined.

Lemma validateAutn_mac_before_sqn_witness :
  exists st' : UeState OctetString FxAttributes nat,
    validateAutn fx_env fx_rand fx_autn_badMac (fx_stateWith [] [] 0)
    = Done EAutnValidationRes.MAC_FAILURE st'.
Proof.
  destruct (@validateAutn_mac_before_sqn _ _ _ fx_env (fx_stateWith [] [] 0)
              fx_rand fx_autn_badMac) as (r & st' & Hrun & Hmac & _).
  - reflexivity.
  - reflexivity.
  - vm_compute. reflexivity.
  - exists st'. rewrite Hrun, Hmac; [reflexivity|].
    vm_compute. intros H. discriminate H.
Defined.

Lemma networkFailingTheAuthCheck_spec_witness :
  networkFailingTheAuthCheck true fx_state
    = Done false (set_nwConsecutiveAuthFailure 1 fx_state)
  /\ exists st' : UeState OctetString FxAttributes nat,
       networkFailingTheAuthCheck true (fx_stateWith [] [] 3) = Done true st'
       /\ running (m_timers st') T3520 = false
       /\ In (LocalReleaseConnection true) (trace st').
Proof.
  split.
  - destruct (networkFailingTheAuthCheck_spec fx_state) as [Hchance _].
    apply Hchance. vm_compute. reflexivity.
  - destruct (networkFailingTheAuthCheck_spec (fx_stateWith [] [] 3)) as [_ Htrip].
    destruct (Htrip true) as (st' & Hrun & Ht & Htrace & _ & _ & _).
    + right. vm_compute. discriminate.
    + exists st'. split; [exact Hrun|]. split; [exact Ht|].
      rewrite Htrace. right. left. reflexivity.
Defined.

Lemma receiveAuthenticationRequest5gAka_rand_bypass_witness :
  autnCheck5gAka fx_env fx_rand fx_autn_badMac (fx_stateWith fx_rand [] 0)
    = Done EAutnValidationRes.OK (fx_stateWith fx_rand [] 0)
  /\ exists (r : EAutnValidationRes.t) (st1 : UeState OctetString FxAttributes nat),
       validateAutn fx_env fx_rand fx_autn_badMac (fx_stateWith [] [] 0) = Done r st1
       /\ autnCheck5gAka fx_env fx_rand fx_autn_badMac (fx_stateWith [] [] 0)
          = Done r (started T3516 st1).
Proof.
  split.
  - destruct (@receiveAuthenticationRequest5gAka_rand_bypass _ _ _ fx_env
                (fx_stateWith fx_rand [] 0) (fx_request fx_autn_badMac 0)
                fx_rand fx_autn_badMac) as [Hsame _].
    + apply fx_passesChecks; reflexivity.
    + apply Hsame. reflexivity.
  - destruct (@receiveAuthenticationRequest5gAka_rand_bypass _ _ _ fx_env
                (fx_stateWith [] [] 0) (fx_request fx_autn_badMac 0)
                fx_rand fx_autn_badMac) as [_ Hdiff].
    + apply fx_passesChecks; reflexivity.
    + destruct Hdiff as (r & st1 & Hval & Hstage & _).
      * vm_compute. discriminate.
      * exists r, st1. split; assumption.
Defined.

Lemma receiveAuthenticationRequest5gAka_checks_witness :
  sentMessages
    (trace (afterSendFailure SEMANTICALLY_INCORRECT_MESSAGE None fx_state))
    = [AuthenticationFailure SEMANTICALLY_INCORRECT_MESSAGE None]
  /\ receiveAuthenticationRequest5gAka fx_env (fx_request [1; 2; 3] 0) fx_state
     = Done tt (afterSendFailure SEMANTICALLY_INCORRECT_MESSAGE None fx_state)
  /\ (exists text : string,
        receiveAuthenticationRequest5gAka fx_env (fx_request fx_autn 7) fx_state
        = Done tt (afterSendFailure UNSPECIFIED_PROTOCOL_ERROR None
                     (record (Log LErr text) fx_state)))
  /\ receiveAuthenticationRequest5gAka fx_env (fx_request fx_autn 3) (fx_stateWithCurrent 3)
     = Done tt (afterSendFailure NGKSI_ALREADY_IN_USE None
                  (started T3520 (set_nwConsecutiveAuthFailure 1 (fx_stateWithCurrent 3)))).
Proof.
  split; [reflexivity|]. split; [|split].
  - destruct (@receiveAuthenticationRequest5gAka_checks _ _ _ fx_env fx_state
                (fx_request [1; 2; 3] 0)) as [Hbad _]; [reflexivity|].
    apply Hbad. right. cbn. discriminate.
  - destruct (@receiveAuthenticationRequest5gAka_checks _ _ _ fx_env fx_state
                (fx_request fx_autn 7)) as (_ & Hksi & _); [reflexivity|].
    destruct (Hksi fx_rand fx_autn) as (text & Hrun & _).
    + repeat split; reflexivity.
    + right. reflexivity.
    + exists text. exact Hrun.
  - destruct (@receiveAuthenticationRequest5gAka_checks _ _ _ fx_env (fx_stateWithCurrent 3)
                (fx_request fx_autn 3)) as (_ & _ & Hcol); [reflexivity|].
    destruct (Hcol fx_rand fx_autn) as (_ & Hlt & _).
    + repeat split; reflexivity.
    + discriminate.
    + discriminate.
    + exists (set_ngKsi 3 newNasSecurityContext). split; [left|]; reflexivity.
    + apply Hlt. vm_compute. reflexivity.
Defined.

Lemma receiveAuthenticationRequestEap_kdf_witness :
  (exists st' : UeState OctetString FxAttributes nat,
     receiveAuthenticationRequestEap fx_env (fx_eapRequest 2 []) fx_state = Done tt st'
     /\ sentMessages (trace st') =
        [AuthenticationResponse None (Some (akaAuthenticationReject fx_env 7))]
     /\ m_nwConsecutiveAuthFailure st' = 1)
  /\ (exists st' : UeState OctetString FxAttributes nat,
        receiveAuthenticationRequestEap fx_env (fx_eapRequest 2 []) (fx_stateWith [] [] 3)
        = Done tt st'
        /\ sentMessages (trace st') = [])
  /\ (exists st' : UeState OctetString FxAttributes nat,
        receiveAuthenticationRequestEap fx_env (fx_eapRequest 1 []) (fx_stateWith [] [] 3)
        = Done tt st'
        /\ sentMessages (trace st') =
           [AuthenticationResponse None (Some (akaAuthenticationReject fx_env 7))]
        /\ m_nwConsecutiveAuthFailure st' = 3).
Proof.
  assert (Hpass : forall st : UeState OctetString FxAttributes nat,
             currentPlmn st = currentPlmn fx_state ->
             forall kdf input,
               passesChecksEapAkaPrime fx_env st (fx_eapRequest kdf input) REQUEST 7
                 {| at_rand := fx_rand; at_autn := fx_autn; at_mac := FromSpare 16;
                    at_kdf := kdf; at_kdfInput := input; at_res := []; at_auts := [];
                    at_clientErrorCode := 0 |}).
  { intros st Hplmn kdf input. unfold passesChecksEapAkaPrime. rewrite Hplmn.
    split; [reflexivity|]. split; [reflexivity|].
    split; [reflexivity|]. split; reflexivity. }
  split; [|split].
  - destruct (receiveAuthenticationRequestEap_kdf (Hpass fx_state eq_refl 2 []))
      as [Hkdf _].
    destruct Hkdf as (_ & Hlt & _); [cbn; discriminate|].
    destruct Hlt as (Hrun & _ & Hsent); [vm_compute; reflexivity|].
    eexists. split; [exact Hrun|]. split; [exact Hsent|reflexivity].
  - destruct (receiveAuthenticationRequestEap_kdf (Hpass (fx_stateWith [] [] 3) eq_refl 2 []))
      as [Hkdf _].
    destruct Hkdf as (_ & _ & Hge); [cbn; discriminate|].
    destruct Hge as (Hrun & Hsent); [vm_compute; discriminate|].
    eexists. split; [exact Hrun|exact Hsent].
  - destruct (receiveAuthenticationRequestEap_kdf (Hpass (fx_stateWith [] [] 3) eq_refl 1 []))
      as [_ Hinput].
    destruct Hinput as (Hrun & Hcnt & Htrace); [reflexivity|vm_compute; discriminate|].
    eexists. split; [exact Hrun|]. split; [|exact Hcnt].
    rewrite Htrace. reflexivity.
Defined.

Lemma receiveAuthenticationResult_abba_witness :
  receiveAuthenticationResult
    {| res_abba := Some [0; 0]; res_eapMessage := EapOther SUCCESS 1 |} fx_state
  = Crash NullDereference
  /\ exists st' : UeState OctetString FxAttributes nat,
       receiveAuthenticationResult
         {| res_abba := Some [0; 0]; res_eapMessage := EapOther SUCCESS 1 |}
         (with_usim (set_nonCurrentNsCtx (Some newNasSecurityContext)) fx_state)
       = Done tt st'
       /\ m_nonCurrentNsCtx (m_usim st') = Some (set_abba [0; 0] newNasSecurityContext).
Proof.
  split.
  - destruct (receiveAuthenticationResult_abba fx_env fx_state
                {| res_abba := Some [0; 0]; res_eapMessage := EapOther SUCCESS 1 |})
      as (Hcrash & _).
    apply (Hcrash [0; 0]); reflexivity.
  - destruct (receiveAuthenticationResult_abba fx_env
                (with_usim (set_nonCurrentNsCtx (Some newNasSecurityContext)) fx_state)
                {| res_abba := Some [0; 0]; res_eapMessage := EapOther SUCCESS 1 |})
      as (_ & Hstaged & _).
    apply (Hstaged [0; 0] newNasSecurityContext); reflexivity.
Defined.


(** The counterexample to C3 as stated.  From the sample state, three
    requests whose AUTN carries a wrong MAC are answered with MAC_FAILURE
    and bring the failure counter to 3, with T3516 stopped.  On the fourth
    the AUTN is validated, T3516 is started, the trip check returns [true]
    and the handler returns at once: nothing is sent, and T3516 is running
    when the handler returns. *)
Lemma receiveAuthenticationRequest5gAka_trip_leaves_t3516 :
  match handleAll fx_env
          [RequestReceived (fx_request fx_autn_badMac 0);
           RequestReceived (fx_request fx_autn_badMac 0);
           RequestReceived (fx_request fx_autn_badMac 0)] fx_state with
  | Done _ st3 =>
      m_nwConsecutiveAuthFailure st3 = 3
      /\ running (m_timers st3) T3516 = false
      /\ match receiveAuthenticationRequest5gAka fx_env (fx_request fx_autn_badMac 0) st3 with
         | Done _ st' =>
             sentMessages (trace st') = sentMessages (trace st3)
             /\ running (m_timers st') T3516 = true
             /\ ~ (m_rand (m_usim st') = [] /\ m_resStar (m_usim st') = []
                   /\ running (m_timers st') T3516 = false)
         | Crash _ => False
         end
  | Crash _ => False
  end.
Proof.
  vm_compute.
  split; [reflexivity|]. split; [reflexivity|].
  split; [reflexivity|]. split; [reflexivity|].
  intros (_ & _ & H). discriminate H.
Qed.


(** *** The further properties on the sample instance *)

Lemma fx_reachesAutn (st : UeState OctetString FxAttributes nat) (autn mac : OctetString) :
  currentPlmn st = currentPlmn fx_state ->
  m_currentNsCtx (m_usim st) = None ->
  m_nonCurrentNsCtx (m_usim st) = None ->
  List.length autn = 16%nat ->
  List.length mac = 16%nat ->
  reachesAutnEapAkaPrime fx_env st (fx_akaChallenge autn mac 0) REQUEST 7
    (fx_akaAttributes autn mac).
Proof.
  intros Hplmn Hcur Hnon Hautn Hmac.
  unfold reachesAutnEapAkaPrime, passesChecksEapAkaPrime. rewrite Hplmn.
  split; [split; [reflexivity|split; [reflexivity|split; [reflexivity|split; assumption]]]|].
  split; [reflexivity|]. split; [reflexivity|].
  split; [discriminate|]. split; [discriminate|].
  intros (ctx & [H | H] & _); congruence.
Qed.

Lemma receiveAuthenticationRequest_without_plmn_witness :
  receiveAuthenticationRequest fx_env (fx_request fx_autn 0) fx_stateWithoutPlmn
  = Done tt (started T3520
               (record (Log LDebug "Authentication Request received") fx_stateWithoutPlmn)).
Proof.
  destruct (@receiveAuthenticationRequest_without_plmn _ _ _ fx_env fx_stateWithoutPlmn
              (fx_request fx_autn 0)) as (Hrun & _).
  - reflexivity.
  - reflexivity.
  - exact Hrun.
Defined.

Lemma at_most_one_message_per_event_witness :
  exists st' : UeState OctetString FxAttributes nat,
    handle fx_env (RequestReceived (fx_request fx_autn 0)) fx_state = Done tt st'
    /\ (emitted st' = emitted fx_state
        \/ exists e : Action FxAttributes, emitted st' = e :: emitted fx_state).
Proof.
  eexists. split; [vm_compute; reflexivity|].
  refine (proj1 (@at_most_one_message_per_event _ _ _ fx_env
                   (RequestReceived (fx_request fx_autn 0)) fx_state _ _)).
  vm_compute. reflexivity.
Defined.

Lemma no_challenge_while_failing_witness :
  exists st' : UeState OctetString FxAttributes nat,
    handleAll fx_env
      [RequestReceived (fx_request fx_autn_badMac 0);
       RequestReceived (fx_request fx_autn_badMac 0)] (fx_stateWith [] [] 1)
    = Done tt st'
    /\ m_nwConsecutiveAuthFailure st' = 3
    /\ m_rand (m_usim st') = [] /\ m_resStar (m_usim st') = [].
Proof.
  eexists. split; [vm_compute; reflexivity|]. split; [vm_compute; reflexivity|].
  refine (@no_challenge_while_failing _ _ _ fx_env
            [RequestReceived (fx_request fx_autn_badMac 0);
             RequestReceived (fx_request fx_autn_badMac 0)] (fx_stateWith [] [] 1) _ _ _ _).
  - intros _. split; reflexivity.
  - vm_compute. reflexivity.
  - vm_compute. reflexivity.
Defined.

Lemma receiveAuthenticationRequest5gAka_twice_witness :
  exists st2 st3 : UeState OctetString FxAttributes nat,
    receiveAuthenticationRequest5gAka fx_env (fx_request fx_autn 0) fx_state = Done tt st2
    /\ receiveAuthenticationRequest5gAka fx_env (fx_request fx_autn 0) st2 = Done tt st3
    /\ sent st3 =
       [AuthenticationFailure NGKSI_ALREADY_IN_USE None;
        AuthenticationResponse (Some (m_resStar (m_usim st2))) None]
    /\ m_nwConsecutiveAuthFailure st3 = 1.
Proof.
  destruct (@receiveAuthenticationRequest5gAka_twice _ _ _ fx_env fx_state
              (afterAutnCheck5gAka fx_env fx_state fx_rand fx_autn)
              (fx_request fx_autn 0) (fx_request fx_autn 0) fx_rand fx_autn fx_rand fx_autn)
    as (st2 & st3 & Hrun & _ & Hrun2 & Hsent & _ & _ & Hcnt & _).
  - apply fx_passesChecks; reflexivity.
  - vm_compute. reflexivity.
  - repeat split; reflexivity.
  - discriminate.
  - reflexivity.
  - exists st2, st3. repeat split; assumption.
Defined.


Lemma receiveAuthenticationRequest5gAka_failure_cause_witness :
  exists (st' : UeState OctetString FxAttributes nat) (auts : OctetString),
    receiveAuthenticationRequest5gAka fx_env (fx_request fx_autn 0) fx_stateAhead = Done tt st'
    /\ sent st' = [AuthenticationFailure SYNCH_FAILURE (Some auts)]
    /\ List.length auts = 14%nat
    /\ m_nwConsecutiveAuthFailure st' = 1.
Proof.
  destruct (@receiveAuthenticationRequest5gAka_failure_cause _ _ _ fx_env fx_stateAhead
              (afterAutnCheck5gAka fx_env fx_stateAhead fx_rand fx_autn)
              (fx_request fx_autn 0) fx_rand fx_autn
              EAutnValidationRes.SYNCHRONISATION_FAILURE SYNCH_FAILURE)
    as (Hrun & Hsent & Hcnt & _).
  - apply fx_passesChecks; reflexivity.
  - vm_compute. reflexivity.
  - reflexivity.
  - vm_compute. reflexivity.
  - eexists. eexists. split; [exact Hrun|]. split; [exact Hsent|].
    split; [vm_compute; reflexivity|exact Hcnt].
Defined.

Lemma receiveAuthenticationRequestEap_accepts_witness :
  exists st' : UeState OctetString FxAttributes nat,
    receiveAuthenticationRequestEap fx_env (fx_akaChallenge fx_autn fx_akaMac 0) fx_state
    = Done tt st'
    /\ m_rand (m_usim st') = fx_rand
    /\ m_nwConsecutiveAuthFailure st' = 0
    /\ List.length (sent st') = 1%nat.
Proof.
  destruct (@receiveAuthenticationRequestEap_accepts _ _ _ fx_env fx_state
              (afterValidateAutn fx_env fx_state fx_rand fx_autn)
              (fx_akaChallenge fx_autn fx_akaMac 0) REQUEST 7
              (fx_akaAttributes fx_autn fx_akaMac) "imsi-001010000000001"%string)
    as (st' & Hrun & Hrand & _ & _ & Hcnt & _ & _ & Hsent).
  - apply fx_reachesAutn; reflexivity.
  - vm_compute. reflexivity.
  - reflexivity.
  - vm_compute. reflexivity.
  - exists st'. split; [exact Hrun|]. split; [exact Hrand|]. split; [exact Hcnt|].
    rewrite Hsent. reflexivity.
Defined.


Lemma receiveAuthenticationRequestEap_failure_response_witness :
  exists st' : UeState OctetString FxAttributes nat,
    receiveAuthenticationRequestEap fx_env
      (fx_akaChallenge fx_autn_badMac (FromSpare 16) 0) fx_state
    = Done tt st'
    /\ sent st' = [AuthenticationResponse None (Some (akaAuthenticationReject fx_env 7))]
    /\ m_nwConsecutiveAuthFailure st' = 1.
Proof.
  destruct (@receiveAuthenticationRequestEap_failure_response _ _ _ fx_env fx_state
              (afterValidateAutn fx_env fx_state fx_rand fx_autn_badMac)
              (fx_akaChallenge fx_autn_badMac (FromSpare 16) 0) REQUEST 7
              (fx_akaAttributes fx_autn_badMac (FromSpare 16))
              EAutnValidationRes.MAC_FAILURE (akaAuthenticationReject fx_env 7))
    as (Hlt & _).
  - apply fx_reachesAutn; reflexivity.
  - vm_compute. reflexivity.
  - reflexivity.
  - destruct Hlt as (Hrun & Hsent & Hcnt & _); [vm_compute; reflexivity|].
    eexists. split; [exact Hrun|]. split; [exact Hsent|exact Hcnt].
Defined.

Lemma receiveAuthenticationRequestEap_mac_mismatch_witness :
  exists st' : UeState OctetString FxAttributes nat,
    receiveAuthenticationRequestEap fx_env
      (fx_akaChallenge fx_autn (FromSpare 16) 0) fx_state
    = Done tt st'
    /\ m_sqnMng (m_usim st') = fx_sqn
    /\ m_nonCurrentNsCtx (m_usim st') = None
    /\ m_nwConsecutiveAuthFailure st' = 1.
Proof.
  destruct (@receiveAuthenticationRequestEap_mac_mismatch _ _ _ fx_env fx_state
              (afterValidateAutn fx_env fx_state fx_rand fx_autn)
              (fx_akaChallenge fx_autn (FromSpare 16) 0) REQUEST 7
              (fx_akaAttributes fx_autn (FromSpare 16)) "imsi-001010000000001"%string)
    as (st' & Hrun & _ & _ & _ & Hnon & Hsqn & Hcnt & _).
  - apply fx_reachesAutn; reflexivity.
  - vm_compute. reflexivity.
  - reflexivity.
  - vm_compute. intros H. discriminate H.
  - vm_compute. reflexivity.
  - exists st'. split; [exact Hrun|]. split; [rewrite Hsqn; vm_compute; reflexivity|].
    split; [rewrite Hnon; reflexivity|exact Hcnt].
Defined.

Lemma receiveAuthenticationRequestEap_refuses_witness :
  receiveAuthenticationRequestEap fx_env (fx_tlsRequest 0 0) fx_state
  = Done tt (record (SendMmStatus SEMANTICALLY_INCORRECT_MESSAGE) fx_state).
Proof.
  apply (@receiveAuthenticationRequestEap_refuses _ _ _ fx_env fx_state (fx_tlsRequest 0 0)).
  - reflexivity.
  - cbn. split; [split; discriminate|]. split; reflexivity.
Defined.

Lemma receiveAuthenticationRequestEap_tls_completes_witness :
  exists st' : UeState OctetString FxAttributes nat,
    receiveAuthenticationRequestEap fx_env (fx_tlsRequest 0 0) (fx_stateTls TLS_HANDSHAKE 1)
    = Done tt st'
    /\ m_tlsState st' = TLS_DONE
    /\ sent st' = [AuthenticationResponse None (Some (EapTLS RESPONSE 9 128 []))].
Proof.
  destruct (@receiveAuthenticationRequestEap_tls_completes _ _ _ fx_env
              (fx_stateTls TLS_HANDSHAKE 1) (fx_tlsRequest 0 0) REQUEST 9 0 [22; 3; 1])
    as (st' & Hrun & Hdone & _ & _ & _ & Hsent & _).
  - reflexivity.
  - reflexivity.
  - split; discriminate.
  - reflexivity.
  - reflexivity.
  - exists st'. split; [exact Hrun|]. split; [exact Hdone|exact Hsent].
Defined.

Lemma receiveAuthenticationRequestEap_tls_continues_witness :
  exists st' : UeState OctetString FxAttributes nat,
    receiveAuthenticationRequestEap fx_env (fx_tlsRequest 0 0) (fx_stateTls TLS_HANDSHAKE 3)
    = Done tt st'
    /\ m_tlsState st' = TLS_HANDSHAKE
    /\ emitted st' =
       [SendNasMessage (AuthenticationResponse None (Some (EapTLS RESPONSE 9 128 [22; 3; 3])))].
Proof.
  destruct (@receiveAuthenticationRequestEap_tls_continues _ _ _ fx_env
              (fx_stateTls TLS_HANDSHAKE 3) (fx_tlsRequest 0 0) REQUEST 9 0 [22; 3; 1])
    as (st' & Hrun & Hhs & _ & _ & _ & Hwant & _).
  - reflexivity.
  - reflexivity.
  - split; discriminate.
  - reflexivity.
  - discriminate.
  - exists st'. split; [exact Hrun|]. split; [exact Hhs|].
    apply Hwant. left. reflexivity.
Defined.


Lemma tlsState_never_goes_back_witness :
  exists st' : UeState OctetString FxAttributes nat,
    handleAll fx_env
      [RequestReceived (fx_tlsRequest 32 0);
       RequestReceived (fx_tlsRequest 0 0);
       RequestReceived (fx_tlsRequest 32 0)] fx_state
    = Done tt st'
    /\ tlsRank (m_tlsState fx_state) <= tlsRank (m_tlsState st').
Proof.
  eexists. split; [vm_compute; reflexivity|].
  refine (proj1 (@tlsState_never_goes_back _ _ _ fx_env
                   [RequestReceived (fx_tlsRequest 32 0);
                    RequestReceived (fx_tlsRequest 0 0);
                    RequestReceived (fx_tlsRequest 32 0)] fx_state _ _)).
  vm_compute. reflexivity.
Defined.

Lemma receiveAuthenticationRequestEap_invalid_ngKsi_witness :
  exists st' : UeState OctetString FxAttributes nat,
    receiveAuthenticationRequestEap fx_env (fx_tlsRequest 32 7) fx_state = Done tt st'
    /\ sent st' = [AuthenticationFailure UNSPECIFIED_PROTOCOL_ERROR None]
    /\ m_tlsState st' = TLS_START.
Proof.
  destruct (@receiveAuthenticationRequestEap_invalid_ngKsi _ _ _ fx_env fx_state
              (fx_tlsRequest 32 7))
    as (st' & Hrun & Hsent & _ & _ & _ & _ & _ & _ & Hstate & _).
  - split; [reflexivity|exact I].
  - intros (_ & Hksi). apply Hksi. reflexivity.
  - exists st'. split; [exact Hrun|]. split; [exact Hsent|exact Hstate].
Defined.


Lemma checkRepeatedly_answers_witness :
  exists st' : UeState OctetString FxAttributes nat,
    checkRepeatedly 5 fx_state = Done [false; false; false; true; true] st'
    /\ m_nwConsecutiveAuthFailure st' = 5.
Proof.
  destruct (@checkRepeatedly_answers OctetString FxAttributes nat 5 fx_state)
    as (st' & Hrun & Hcnt & _).
  - vm_compute. discriminate.
  - exists st'. split; [exact Hrun|exact Hcnt].
Defined.
